(** * zendesk_automation: content analysis and auto-tagging

    A shallow embedding of [src/services/contentAnalyzer.ts] (class
    [ContentAnalyzer]) and [src/services/autoTagger.ts] (class [AutoTagger]),
    with the properties of the analysis, tag-policy and batch-apply pipeline.

    Modelling conventions.
    - A JavaScript [string] is a Rocq [string]; one character stands for one
      UTF-16 code unit below 256 (the Latin-1 range), so [String.length] is
      [.length].  All keywords and generated tags of the program are ASCII.
    - A JavaScript [number] is a rational ([Q]).  Weights, scores, counts
      and the single quotients held by the confidence fields of one
      dimension ([score / 5] and the like) are kept exact.  Where the
      program chains arithmetic on such numbers ([calculateConfidence], the
      success rate of a run) every operation rounds to double precision
      ([Double.round]), as IEEE 754 does.  Ticket identifiers are integers
      ([Z]).
    - [async] methods are state-passing functions over the state of the
      remote helpdesk ([ZendeskClient.Remote]); [console] output and the
      rate-limiting delay have no effect on that state and are left out.
    - Messages built from template literals keep their numeric holes
      unrendered ([Template.t]); [toFixed] and number printing are not
      modelled. *)

From Stdlib Require Import String Ascii List ZArith QArith Qminmax Qabs Lia Lqa Bool.
From Stdlib Require Import Sorted Permutation DecimalString Qpower Qround.
From stdpp Require Import gmap strings list.
Import ListNotations.

Local Open Scope string_scope.
Local Open Scope list_scope.
Local Open Scope Q_scope.

(** ** JavaScript primitives used by the two classes *)

Module Js.

(** [x < y] on numbers, as a boolean. *)
Definition ltb (x y : Q) : bool :=
  (Qnum x * QDen y <? Qnum y * QDen x)%Z.

(** [Math.min(x, y)]. *)
Definition min (x y : Q) : Q := if ltb y x then y else x.

(** A [number] made from a length or a count. *)
Definition ofNat (n : nat) : Q := inject_Z (Z.of_nat n).

(** [a || d] on an optional string: [undefined] and [''] are falsy. *)
Definition orElse (a : option string) (d : string) : string :=
  match a with
  | Some (String c s) => String c s
  | _ => d
  end.

(** [keyword] is a prefix of [text]. *)
Fixpoint startsWith (text keyword : string) {struct keyword} : bool :=
  match keyword, text with
  | EmptyString, _ => true
  | String k keyword', String t text' =>
      if Ascii.eqb k t then startsWith text' keyword' else false
  | String _ _, EmptyString => false
  end.

(** [text.includes(keyword)]: [keyword] occurs somewhere in [text]. *)
Fixpoint includes (text keyword : string) : bool :=
  startsWith text keyword
  || match text with
     | EmptyString => false
     | String _ text' => includes text' keyword
     end.

(** Lower-casing of one code unit of the Latin-1 range: [A-Z] and the
    accented capitals U+00C0..U+00DE (except the multiplication sign
    U+00D7) move up by 32; everything else is its own lower case. *)
Definition lowerChar (c : ascii) : ascii :=
  let n := nat_of_ascii c in
  if ((65 <=? n) && (n <=? 90)
      || (192 <=? n) && (n <=? 222) && negb (n =? 215))%nat
  then ascii_of_nat (n + 32) else c.

(** [s.toLowerCase()]. *)
Fixpoint toLowerCase (s : string) : string :=
  match s with
  | EmptyString => EmptyString
  | String c s' => String (lowerChar c) (toLowerCase s')
  end.

(** White space and line terminators in the Latin-1 range: TAB, LF, VT,
    FF, CR, SPACE and NO-BREAK SPACE. *)
Definition isWhiteSpace (c : ascii) : bool :=
  let n := nat_of_ascii c in
  ((9 <=? n) && (n <=? 13) || (n =? 32) || (n =? 160))%nat.

Fixpoint trimStart (s : string) : string :=
  match s with
  | EmptyString => EmptyString
  | String c s' => if isWhiteSpace c then trimStart s' else s
  end.

Fixpoint trimEnd (s : string) : string :=
  match s with
  | EmptyString => EmptyString
  | String c s' =>
      match trimEnd s' with
      | EmptyString => if isWhiteSpace c then EmptyString else String c EmptyString
      | r => String c r
      end
  end.

(** [s.trim()]. *)
Definition trim (s : string) : string := trimEnd (trimStart s).

(** [arr.includes(x)] on an array of strings. *)
Definition arrayIncludes (arr : list string) (x : string) : bool :=
  bool_decide (x ∈ arr).

(** A [Set] of strings keeps its elements in insertion order; [add] of an
    element that is already there changes nothing. *)
Definition setAdd (s : list string) (x : string) : list string :=
  if arrayIncludes s x then s else s ++ [x].

(** [[...new Set(arr)]]. *)
Definition uniq (arr : list string) : list string :=
  fold_left setAdd arr [].

(** [arr.sort(cmp)]: the sort is stable, and [cmp a b < 0] puts [a] before
    [b].  Insertion from the right keeps equal elements in their order. *)
Fixpoint insertSorted {A} (cmp : A -> A -> Q) (x : A) (l : list A) : list A :=
  match l with
  | [] => [x]
  | y :: l' => if ltb (cmp y x) 0 then y :: insertSorted cmp x l'
               else x :: y :: l'
  end.

Definition sort {A} (cmp : A -> A -> Q) (arr : list A) : list A :=
  fold_right (insertSorted cmp) [] arr.

End Js.

(** ** IEEE 754 double precision *)

(** The arithmetic of JavaScript numbers where the program chains
    operations: every operation gives the exact result rounded to the
    nearest number with a 53-bit significand, ties to even.  This is the
    binary64 rounding for magnitudes between 2^-1022 and 2^1024; subnormal
    numbers, infinities and NaN are outside the model.  With the tables of
    the constructor the numbers that are rounded are 0 or lie between
    1/500 and 100. *)
Module Double.

(** The nearest integer, ties to even. *)
Definition nearestEven (x : Q) : Z :=
  let f := Qfloor x in
  let r := x - inject_Z f in
  if Js.ltb r (1 # 2) then f
  else if Js.ltb (1 # 2) r then (f + 1)%Z
  else if Z.even f then f else (f + 1)%Z.

(** The binary exponent of a positive number: the [e] with
    [2^e <= x < 2^(e+1)]. *)
Definition exponent (x : Q) : Z :=
  let e := (Z.log2 (Qnum x) - Z.log2 (Zpos (Qden x)))%Z in
  if Js.ltb x (2 ^ e) then (e - 1)%Z else e.

(** Rounding of a positive number: the significand is scaled to
    [2^52 <= m < 2^53], rounded to an integer and scaled back. *)
Definition roundPositive (x : Q) : Q :=
  let e := exponent x in
  inject_Z (nearestEven (x * 2 ^ (52 - e))) * 2 ^ (e - 52).

Definition round (x : Q) : Q :=
  if Js.ltb 0 x then roundPositive x
  else if Js.ltb x 0 then - roundPositive (- x)
  else 0.

Definition add (x y : Q) : Q := round (x + y).
Definition mul (x y : Q) : Q := round (x * y).

(** [x / y] for [y] other than 0. *)
Definition div (x y : Q) : Q := round (x / y).

(** The unit roundoff [2^-53]. *)
Definition unitRoundoff : Q := 1 # 9007199254740992.

End Double.

(** ** Types ([src/types/index.ts]) *)

Module CategoryAnalysis.
Record t := mk {
  category : string;
  score : Q;
  matchedKeywords : list string;
  confidence : Q
}.
End CategoryAnalysis.

Module PriorityAnalysis.
Record t := mk {
  level : string;
  score : Q;
  matchedKeywords : list string;
  confidence : Q
}.
End PriorityAnalysis.

Module SentimentAnalysis.
Record t := mk {
  sentiment : string;
  score : Q;
  positiveWords : list string;
  negativeWords : list string;
  confidence : Q
}.
End SentimentAnalysis.

Module ProductAnalysis.
Record t := mk {
  product : string;
  matchedKeywords : list string;
  confidence : Q
}.
End ProductAnalysis.

Module TicketAnalysis.
Record t := mk {
  ticketId : Z;
  categories : list CategoryAnalysis.t;
  priority : PriorityAnalysis.t;
  sentiment : SentimentAnalysis.t;
  products : list ProductAnalysis.t;
  suggestedTags : list string;
  confidence : Q
}.
End TicketAnalysis.

(** The fields of [ZendeskTicket] that the two classes read. *)
Module ZendeskTicket.
Record t := mk {
  id : Z;
  subject : string;
  description : option string;
  tags : list string;
  fullText : option string
}.
End ZendeskTicket.

(** [{ keywords: string[]; weight: number }]. *)
Module KeywordRule.
Record t := mk {
  keywords : list string;
  weight : Q
}.
End KeywordRule.

Module SentimentKeywords.
Record t := mk {
  negative : list string;
  positive : list string
}.
End SentimentKeywords.

(** ** [ContentAnalyzer] *)

Module ContentAnalyzer.

(** The private fields of the class.  The tables are objects used as
    dictionaries; [Object.entries] walks them in insertion order, so each
    is an association list. *)
Record t := mk {
  categoryKeywords : list (string * KeywordRule.t);
  priorityKeywords : list (string * KeywordRule.t);
  sentimentKeywords : SentimentKeywords.t;
  productKeywords : list (string * list string)
}.

(** [constructor()]. *)
Definition constructor : t := {|
  categoryKeywords := [
    ("technical", KeywordRule.mk [
        "bug"; "error"; "crash"; "broken"; "not working"; "malfunction";
        "technical issue"; "system down"; "outage"; "server"; "api";
        "integration"; "database"; "connection"; "timeout"; "performance";
        "slow loading"; "loading time"; "latency"; "500 error"; "404 error"
      ] 2);
    ("billing", KeywordRule.mk [
        "billing"; "payment"; "invoice"; "charge"; "refund"; "subscription";
        "credit card"; "transaction"; "receipt"; "price"; "cost"; "fee";
        "upgrade"; "downgrade"; "plan"; "pricing"; "discount"; "promo code"
      ] 2);
    ("account", KeywordRule.mk [
        "account"; "login"; "password"; "forgot password"; "reset password";
        "username"; "profile"; "settings"; "security"; "two-factor";
        "verification"; "email change"; "phone number"; "personal information"
      ] 2);
    ("feature_request", KeywordRule.mk [
        "feature request"; "new feature"; "enhancement"; "suggestion";
        "improvement"; "would like"; "wish"; "could you add"; "missing";
        "please add"; "request"; "enhancement"
      ] 2);
    ("support", KeywordRule.mk [
        "help"; "question"; "how to"; "tutorial"; "guide"; "documentation";
        "instructions"; "explain"; "clarification"; "confused"; "understand"
      ] 1);
    ("sales", KeywordRule.mk [
        "sales"; "demo"; "trial"; "purchase"; "buy"; "quote"; "pricing";
        "enterprise"; "business plan"; "custom plan"; "consultation";
        "pre-sales"; "product information"
      ] 2)
  ];
  priorityKeywords := [
    ("urgent", KeywordRule.mk [
        "urgent"; "emergency"; "critical"; "asap"; "immediately"; "down";
        "broken"; "not working"; "production"; "live site"; "revenue impact";
        "security breach"; "data loss"; "urgent help needed"
      ] 3);
    ("high", KeywordRule.mk [
        "important"; "priority"; "business impact"; "customer facing";
        "deadline"; "time sensitive"; "blocking"; "major issue"
      ] 2);
    ("low", KeywordRule.mk [
        "when you have time"; "no rush"; "minor"; "cosmetic"; "nice to have";
        "suggestion"; "feedback"; "general question"
      ] 1)
  ];
  sentimentKeywords := {|
    SentimentKeywords.negative := [
      "frustrated"; "angry"; "disappointed"; "terrible"; "awful"; "horrible";
      "worst"; "hate"; "useless"; "broken"; "fed up"; "unacceptable";
      "ridiculous"; "pathetic"; "disgusted"
    ];
    SentimentKeywords.positive := [
      "great"; "excellent"; "amazing"; "wonderful"; "fantastic"; "love";
      "perfect"; "awesome"; "brilliant"; "outstanding"; "impressed";
      "satisfied"; "happy"; "pleased"
    ]
  |};
  productKeywords := [
    ("mobile", ["mobile"; "app"; "ios"; "android"; "phone"; "smartphone"; "tablet"]);
    ("web", ["website"; "browser"; "chrome"; "firefox"; "safari"; "edge"; "web app"]);
    ("api", ["api"; "endpoint"; "webhook"; "integration"; "developer"; "sdk"]);
    ("desktop", ["desktop"; "windows"; "mac"; "macos"; "linux"; "software"; "application"])
  ]
|}.

(** The inner loop of [categorizeContent]: one pass over the keywords of a
    rule, carrying [score] and [matchedKeywords]. *)
Definition scanCategory (text : string) (config : KeywordRule.t)
  : Q * list string :=
  fold_left
    (fun '(score, matchedKeywords) keyword =>
       if Js.includes text keyword
       then (score + KeywordRule.weight config, matchedKeywords ++ [keyword])
       else (score, matchedKeywords))
    (KeywordRule.keywords config) (0, []).

Definition categorizeContent (this : t) (text : string)
  : list CategoryAnalysis.t :=
  let categories :=
    fold_left
      (fun categories '(category, config) =>
         let '(score, matchedKeywords) := scanCategory text config in
         if Js.ltb 0 score
         then categories ++ [CategoryAnalysis.mk category score matchedKeywords
                               (Js.min (score / 5) 1)]
         else categories)
      (categoryKeywords this) [] in
  Js.sort (fun a b => CategoryAnalysis.score b - CategoryAnalysis.score a)
    categories.

(** The three variables that the loops of [analyzePriority] update. *)
Record PriorityScan := mkScan {
  highestPriority : string;
  scanScore : Q;
  scanMatched : list string
}.

Definition scanPriorityKeyword (text priority : string) (config : KeywordRule.t)
    (st : PriorityScan) (keyword : string) : PriorityScan :=
  if Js.includes text keyword then
    let st' :=
      if Js.ltb (scanScore st) (KeywordRule.weight config)
      then mkScan priority (KeywordRule.weight config) (scanMatched st)
      else st in
    mkScan (highestPriority st') (scanScore st') (scanMatched st' ++ [keyword])
  else st.

Definition scanPriorityTier (text : string) (st : PriorityScan)
    (entry : string * KeywordRule.t) : PriorityScan :=
  let '(priority, config) := entry in
  fold_left (scanPriorityKeyword text priority config)
    (KeywordRule.keywords config) st.

Definition scanPriority (this : t) (text : string) : PriorityScan :=
  fold_left (scanPriorityTier text) (priorityKeywords this)
    (mkScan "normal" 0 []).

Definition analyzePriority (this : t) (text : string) : PriorityAnalysis.t :=
  let st := scanPriority this text in
  PriorityAnalysis.mk (highestPriority st) (scanScore st) (scanMatched st)
    (if Js.ltb 0 (scanScore st) then Js.min (scanScore st / 3) 1 else 1 # 2).

(** One counting loop of [analyzeSentiment]. *)
Definition countWords (text : string) (words : list string) : Q * list string :=
  fold_left
    (fun '(n, found) word =>
       if Js.includes text word then (n + 1, found ++ [word]) else (n, found))
    words (0, []).

Definition analyzeSentiment (this : t) (text : string) : SentimentAnalysis.t :=
  let '(positiveScore, positiveWords) :=
    countWords text (SentimentKeywords.positive (sentimentKeywords this)) in
  let '(negativeScore, negativeWords) :=
    countWords text (SentimentKeywords.negative (sentimentKeywords this)) in
  let '(sentiment, score) :=
    if Js.ltb positiveScore negativeScore
    then ("negative", negativeScore - positiveScore)
    else if Js.ltb negativeScore positiveScore
    then ("positive", positiveScore - negativeScore)
    else ("neutral", 0) in
  SentimentAnalysis.mk sentiment score positiveWords negativeWords
    (Js.min ((positiveScore + negativeScore) / 3) 1).

Definition analyzeProducts (this : t) (text : string) : list ProductAnalysis.t :=
  let products :=
    fold_left
      (fun products '(product, keywords) =>
         let matchedKeywords := List.filter (Js.includes text) keywords in
         if (0 <? length matchedKeywords)%nat
         then products ++ [ProductAnalysis.mk product matchedKeywords
                             (Js.min (Js.ofNat (length matchedKeywords)
                                      / Js.ofNat (length keywords)) 1)]
         else products)
      (productKeywords this) [] in
  Js.sort (fun a b => ProductAnalysis.confidence b - ProductAnalysis.confidence a)
    products.

(** The [switch] of [generateTags]. *)
Definition secondaryTag (category : string) : list string :=
  if String.eqb category "technical" then ["needs-technical-review"]
  else if String.eqb category "billing" then ["billing-inquiry"]
  else if String.eqb category "feature_request" then ["feature-request"]
  else if String.eqb category "account" then ["account-management"]
  else [].

(** [tags] just before the final de-duplication of [generateTags]. *)
Definition pushedTags (analysis : TicketAnalysis.t) : list string :=
  let tags := ["auto-processed"] in
  let tags :=
    match TicketAnalysis.categories analysis with
    | topCategory :: _ =>
        if Js.ltb (3 # 10) (CategoryAnalysis.confidence topCategory)
        then tags ++ ["category-" +:+ CategoryAnalysis.category topCategory]
        else tags
    | [] => tags
    end in
  let priority := TicketAnalysis.priority analysis in
  let tags :=
    if negb (String.eqb (PriorityAnalysis.level priority) "normal")
       && Js.ltb (1 # 2) (PriorityAnalysis.confidence priority)
    then tags ++ ["priority-" +:+ PriorityAnalysis.level priority]
    else tags in
  let sentiment := TicketAnalysis.sentiment analysis in
  let tags :=
    if negb (String.eqb (SentimentAnalysis.sentiment sentiment) "neutral")
       && Js.ltb (4 # 10) (SentimentAnalysis.confidence sentiment)
    then tags ++ ["sentiment-" +:+ SentimentAnalysis.sentiment sentiment]
    else tags in
  let tags :=
    match TicketAnalysis.products analysis with
    | topProduct :: _ =>
        if Js.ltb (3 # 10) (ProductAnalysis.confidence topProduct)
        then tags ++ ["product-" +:+ ProductAnalysis.product topProduct]
        else tags
    | [] => tags
    end in
  fold_left
    (fun tags category =>
       if Js.ltb (6 # 10) (CategoryAnalysis.confidence category)
       then tags ++ secondaryTag (CategoryAnalysis.category category)
       else tags)
    (TicketAnalysis.categories analysis) tags.

Definition generateTags (analysis : TicketAnalysis.t) : list string :=
  Js.uniq (pushedTags analysis).

(** [calculateConfidence].  The confidence of a dimension is read as the
    double that the field holds, [Double.round] of its quotient; every
    [+=] and the final division round again. *)
Definition calculateConfidence (analysis : TicketAnalysis.t) (text : string) : Q :=
  let '(totalConfidence, factors) :=
    match TicketAnalysis.categories analysis with
    | c :: _ =>
        (Double.add 0 (Double.round (CategoryAnalysis.confidence c)), 0 + 1)
    | [] => (0, 0)
    end in
  let totalConfidence :=
    Double.add totalConfidence
      (Double.round (PriorityAnalysis.confidence (TicketAnalysis.priority analysis))) in
  let factors := factors + 1 in
  let totalConfidence :=
    Double.add totalConfidence
      (Double.round (SentimentAnalysis.confidence (TicketAnalysis.sentiment analysis))) in
  let factors := factors + 1 in
  let textLengthFactor :=
    Js.min (Double.div (Js.ofNat (String.length text)) 500) 1 in
  let totalConfidence := Double.add totalConfidence textLengthFactor in
  let factors := factors + 1 in
  if Js.ltb 0 factors then Double.div totalConfidence factors else 0.

(** [ticket.fullText || ticket.description || ticket.subject || ''] *)
Definition rawText (ticket : ZendeskTicket.t) : string :=
  Js.orElse (ZendeskTicket.fullText ticket)
    (Js.orElse (ZendeskTicket.description ticket)
       (Js.orElse (Some (ZendeskTicket.subject ticket)) "")).

(** The text that [analyzeTicket] analyses. *)
Definition ticketText (ticket : ZendeskTicket.t) : string :=
  Js.toLowerCase (rawText ticket).

Definition analyzeTicket (this : t) (ticket : ZendeskTicket.t) : TicketAnalysis.t :=
  let text := ticketText ticket in
  let analysis :=
    TicketAnalysis.mk (ZendeskTicket.id ticket)
      (categorizeContent this text)
      (analyzePriority this text)
      (analyzeSentiment this text)
      (analyzeProducts this text)
      [] 0 in
  let analysis :=
    TicketAnalysis.mk (TicketAnalysis.ticketId analysis)
      (TicketAnalysis.categories analysis)
      (TicketAnalysis.priority analysis)
      (TicketAnalysis.sentiment analysis)
      (TicketAnalysis.products analysis)
      (generateTags analysis)
      (TicketAnalysis.confidence analysis) in
  TicketAnalysis.mk (TicketAnalysis.ticketId analysis)
    (TicketAnalysis.categories analysis)
    (TicketAnalysis.priority analysis)
    (TicketAnalysis.sentiment analysis)
    (TicketAnalysis.products analysis)
    (TicketAnalysis.suggestedTags analysis)
    (calculateConfidence analysis text).

End ContentAnalyzer.

(** ** Types of the tagger ([src/types/index.ts]) *)

(** The fields of [AutomationConfig] that the tagger reads. *)
Module AutomationConfig.
Record t := mk {
  dryRun : bool;
  minConfidence : Q
}.
End AutomationConfig.

(** A template literal with its numeric holes left unrendered:
    [`Confidence ${c.toFixed(2)} below threshold ${m}`] is
    [[Str "Confidence "; Fixed 2 c; Str " below threshold "; Num m]]. *)
Module Template.
Inductive part :=
| Str (s : string)
| Num (x : Q)
| Fixed (digits : nat) (x : Q).
Definition t := list part.
End Template.

(** The body of the helpdesk's answer to a ticket update. *)
Module ApiResponse.
Record t := mk {
  id : Z;
  tags : list string
}.
End ApiResponse.

Module TaggingResult.
Record t := mk {
  ticketId : Z;
  status : string;
  tags : option (list string);
  confidence : option Q;
  error : option Template.t;
  reason : option Template.t;
  response : option ApiResponse.t
}.
End TaggingResult.

Module BatchTaggingResults.
Record t := mk {
  total : nat;
  success : nat;
  skipped : nat;
  errors : nat;
  details : list TaggingResult.t
}.
End BatchTaggingResults.

(** ** The remote helpdesk behind [ZendeskClient] *)

Module ZendeskClient.

(** One [PUT /tickets/<id>.json] that was sent, and whether it went
    through. *)
Record Request := mkRequest {
  ticketId : Z;
  tags : list string;
  ok : bool
}.

(** The helpdesk as the tagger sees it: the tag list stored for each
    ticket, the update requests sent so far, and the fate of the requests
    still to come ([Some msg]: the next request is rejected with message
    [msg]; [None], or an exhausted list: it is served). *)
Record Remote := mkRemote {
  stored : gmap Z (list string);
  requests : list Request;
  faults : list (option string)
}.

(** [updateTicket(ticketId, { tags })]: the answer of the helpdesk, or
    the [Error] that the method throws. *)
Definition updateTicket (ticketId : Z) (tags : list string) (r : Remote)
  : (Template.t + ApiResponse.t) * Remote :=
  match faults r with
  | Some msg :: rest =>
      (inl [Template.Str "Failed to update ticket ";
            Template.Num (inject_Z ticketId);
            Template.Str ": "; Template.Str msg],
       mkRemote (stored r) (requests r ++ [mkRequest ticketId tags false]) rest)
  | served =>
      (inr (ApiResponse.mk ticketId tags),
       mkRemote (<[ticketId := tags]> (stored r))
         (requests r ++ [mkRequest ticketId tags true]) (tl served))
  end.

End ZendeskClient.

(** ** [AutoTagger] *)

Module AutoTagger.

(** The class keeps a client and a configuration; the client's state is
    the [ZendeskClient.Remote] threaded through the methods below. *)
Record t := mk {
  config : AutomationConfig.t
}.

Definition filterTags (suggestedTags currentTags : list string) : list string :=
  List.filter
    (fun tag =>
       if Js.arrayIncludes currentTags tag then false
       else if String.eqb tag "" || (String.length (Js.trim tag) =? 0)%nat
       then false
       else true)
    suggestedTags.

Definition applyTags (this : t) (ticket : ZendeskTicket.t)
    (analysis : TicketAnalysis.t) (r : ZendeskClient.Remote)
  : TaggingResult.t * ZendeskClient.Remote :=
  let confidence := TicketAnalysis.confidence analysis in
  let minConfidence := AutomationConfig.minConfidence (config this) in
  if Js.ltb confidence minConfidence then
    (TaggingResult.mk (ZendeskTicket.id ticket) "skipped" None (Some confidence)
       None
       (Some [Template.Str "Confidence "; Template.Fixed 2 confidence;
              Template.Str " below threshold "; Template.Num minConfidence])
       None, r)
  else
    let tagsToApply :=
      filterTags (TicketAnalysis.suggestedTags analysis) (ZendeskTicket.tags ticket) in
    if (length tagsToApply =? 0)%nat then
      (TaggingResult.mk (ZendeskTicket.id ticket) "skipped"
         (Some (TicketAnalysis.suggestedTags analysis)) (Some confidence)
         None (Some [Template.Str "No new tags to apply"]) None, r)
    else
      let newTags := Js.uniq (ZendeskTicket.tags ticket ++ tagsToApply) in
      if AutomationConfig.dryRun (config this) then
        (TaggingResult.mk (ZendeskTicket.id ticket) "dry-run"
           (Some tagsToApply) (Some confidence) None
           (Some [Template.Str "[DRY RUN] Would apply ";
                  Template.Num (Js.ofNat (length tagsToApply));
                  Template.Str " tags"])
           None, r)
      else
        match ZendeskClient.updateTicket (ZendeskTicket.id ticket) newTags r with
        | (inr updatedTicket, r') =>
            (TaggingResult.mk (ZendeskTicket.id ticket) "success"
               (Some tagsToApply) (Some confidence) None None
               (Some updatedTicket), r')
        | (inl message, r') =>
            (TaggingResult.mk (ZendeskTicket.id ticket) "error"
               None (Some confidence) (Some message)
               (Some (Template.Str "Failed to apply tags: " :: message))
               None, r')
        end.

(** [ticketMap]: a later ticket with the same id replaces an earlier one. *)
Definition ticketMap (tickets : list ZendeskTicket.t) : gmap Z ZendeskTicket.t :=
  fold_left (fun m ticket => <[ZendeskTicket.id ticket := ticket]> m) tickets ∅.

(** The variables of the loop of [batchApplyTags]. *)
Record Tally := mkTally {
  results : list TaggingResult.t;
  successCount : nat;
  skipCount : nat;
  errorCount : nat
}.

(** One turn of the loop.  [applyTags] catches what the client throws, so
    the [catch] of the loop body is never entered. *)
Definition batchStep (this : t) (ticketMap : gmap Z ZendeskTicket.t)
    (st : Tally * ZendeskClient.Remote) (analysis : TicketAnalysis.t)
  : Tally * ZendeskClient.Remote :=
  let '(tally, r) := st in
  match ticketMap !! TicketAnalysis.ticketId analysis with
  | None =>
      (mkTally (results tally) (successCount tally) (skipCount tally)
         (S (errorCount tally)), r)
  | Some ticket =>
      let '(result, r') := applyTags this ticket analysis r in
      let results' := results tally ++ [result] in
      (if String.eqb (TaggingResult.status result) "success"
       then mkTally results' (S (successCount tally)) (skipCount tally) (errorCount tally)
       else if String.eqb (TaggingResult.status result) "skipped"
               || String.eqb (TaggingResult.status result) "dry-run"
       then mkTally results' (successCount tally) (S (skipCount tally)) (errorCount tally)
       else mkTally results' (successCount tally) (skipCount tally) (S (errorCount tally)),
       r')
  end.

Definition batchApplyTags (this : t) (analysisResults : list TicketAnalysis.t)
    (tickets : list ZendeskTicket.t) (r : ZendeskClient.Remote)
  : BatchTaggingResults.t * ZendeskClient.Remote :=
  let ticketMap := ticketMap tickets in
  let '(tally, r') :=
    fold_left (batchStep this ticketMap) analysisResults (mkTally [] 0 0 0, r) in
  (BatchTaggingResults.mk (length analysisResults) (successCount tally)
     (skipCount tally) (errorCount tally) (results tally), r').

End AutoTagger.

(** ** The specification's vocabulary *)

Module Spec.

(** The length factor [min(textLength / 500, 1)]. *)
Definition lengthFactor (text : string) : Q :=
  Qmin (inject_Z (Z.of_nat (String.length text)) / 500) 1.

(** The top category's confidence, taken as 0 when no category matched. *)
Definition topCategoryConfidence (analysis : TicketAnalysis.t) : Q :=
  match TicketAnalysis.categories analysis with
  | top :: _ => CategoryAnalysis.confidence top
  | [] => 0
  end.

(** The unweighted mean of the four terms of the specification. *)
Definition meanOfFour (analysis : TicketAnalysis.t) (text : string) : Q :=
  (topCategoryConfidence analysis
   + PriorityAnalysis.confidence (TicketAnalysis.priority analysis)
   + SentimentAnalysis.confidence (TicketAnalysis.sentiment analysis)
   + lengthFactor text) / 4.

(** The terms that enter the overall confidence: the top category's
    confidence when some category matched, then the priority confidence,
    the sentiment confidence and the length factor. *)
Definition presentTerms (analysis : TicketAnalysis.t) (text : string) : list Q :=
  match TicketAnalysis.categories analysis with
  | top :: _ => [CategoryAnalysis.confidence top]
  | [] => []
  end
  ++ [PriorityAnalysis.confidence (TicketAnalysis.priority analysis);
      SentimentAnalysis.confidence (TicketAnalysis.sentiment analysis);
      lengthFactor text].

(** The unweighted mean of some terms, in exact arithmetic. *)
Definition mean (terms : list Q) : Q :=
  fold_right Qplus 0 terms / inject_Z (Z.of_nat (length terms)).

(** The same mean as double arithmetic computes it: each term is a
    double, the terms are added to 0 from left to right and the sum is
    divided by their number, every operation rounding. *)
Definition doubleMean (terms : list Q) : Q :=
  Double.div
    (fold_left (fun total term => Double.add total (Double.round term)) terms 0)
    (inject_Z (Z.of_nat (length terms))).

(** The bound [2^-50] on the distance between the two means. *)
Definition meanTolerance : Q := 1 # 1125899906842624.

(** Every keyword of the four rule tables. *)
Definition allKeywords (this : ContentAnalyzer.t) : list string :=
  flat_map (fun e => KeywordRule.keywords (snd e)) (ContentAnalyzer.categoryKeywords this)
  ++ flat_map (fun e => KeywordRule.keywords (snd e)) (ContentAnalyzer.priorityKeywords this)
  ++ SentimentKeywords.positive (ContentAnalyzer.sentimentKeywords this)
  ++ SentimentKeywords.negative (ContentAnalyzer.sentimentKeywords this)
  ++ flat_map snd (ContentAnalyzer.productKeywords this).

(** [keyword] does not occur in [text]. *)
Definition absent (text keyword : string) : Prop :=
  Js.includes text keyword = false.

(** No keyword of any dimension occurs in [text]. *)
Definition noKeywordOccurs (this : ContentAnalyzer.t) (text : string) : Prop :=
  Forall (absent text) (allKeywords this).

(** The words of a list that occur in [text], and how many they are. *)
Definition occurring (text : string) (words : list string) : list string :=
  List.filter (Js.includes text) words.

Definition count (text : string) (words : list string) : nat :=
  length (occurring text words).

(** A capital letter of the Latin-1 range, by its code: [A-Z] or an
    accented capital (U+00C0 to U+00DE, the multiplication sign apart).
    Its small letter lies 32 codes above. *)
Definition capital (n : nat) : bool :=
  ((65 <=? n) && (n <=? 90)
   || (192 <=? n) && (n <=? 222) && negb (n =? 215))%nat.

(** A word written without capital letters. *)
Fixpoint lowerCase (word : string) : bool :=
  match word with
  | EmptyString => true
  | String k word' => negb (capital (nat_of_ascii k)) && lowerCase word'
  end.

(** The character [c] of a text matches the character [k] of a word,
    letter case aside: they are equal, or [c] is the capital of [k]. *)
Definition sameLetter (c k : ascii) : bool :=
  Ascii.eqb c k
  || capital (nat_of_ascii c) && (nat_of_ascii k =? nat_of_ascii c + 32)%nat.

(** [spelling] is [word], letter case aside. *)
Fixpoint spells (spelling word : string) : Prop :=
  match spelling, word with
  | EmptyString, EmptyString => True
  | String c spelling', String k word' =>
      sameLetter c k = true /\ spells spelling' word'
  | _, _ => False
  end.

(** Case-insensitive substring match: some stretch of [text] spells
    [word]. *)
Definition occursAnyCase (text word : string) : Prop :=
  exists before spelling after,
    text = before +:+ spelling +:+ after /\ spells spelling word.

(** The same match as a test: at the start of [text], and anywhere. *)
Fixpoint startsWithAnyCase (text word : string) {struct word} : bool :=
  match word, text with
  | EmptyString, _ => true
  | String k word', String c text' =>
      sameLetter c k && startsWithAnyCase text' word'
  | String _ _, EmptyString => false
  end.

Fixpoint includesAnyCase (text word : string) : bool :=
  startsWithAnyCase text word
  || match text with
     | EmptyString => false
     | String _ text' => includesAnyCase text' word
     end.

(** The words of a list that occur in [text] in any letter case, and how
    many they are. *)
Definition occurringAnyCase (text : string) (words : list string) : list string :=
  List.filter (includesAnyCase text) words.

Definition countAnyCase (text : string) (words : list string) : nat :=
  length (occurringAnyCase text words).

(** The tag policy in the words of the specification, rule by rule. *)
Definition markerTag : string := "auto-processed".

Definition categoryRule (analysis : TicketAnalysis.t) : list string :=
  match TicketAnalysis.categories analysis with
  | top :: _ =>
      if Qlt_le_dec (3 # 10) (CategoryAnalysis.confidence top)
      then ["category-" +:+ CategoryAnalysis.category top] else []
  | [] => []
  end.

Definition priorityRule (analysis : TicketAnalysis.t) : list string :=
  let p := TicketAnalysis.priority analysis in
  if string_dec (PriorityAnalysis.level p) "normal" then []
  else if Qlt_le_dec (1 # 2) (PriorityAnalysis.confidence p)
  then ["priority-" +:+ PriorityAnalysis.level p] else [].

Definition sentimentRule (analysis : TicketAnalysis.t) : list string :=
  let s := TicketAnalysis.sentiment analysis in
  if string_dec (SentimentAnalysis.sentiment s) "neutral" then []
  else if Qlt_le_dec (4 # 10) (SentimentAnalysis.confidence s)
  then ["sentiment-" +:+ SentimentAnalysis.sentiment s] else [].

Definition productRule (analysis : TicketAnalysis.t) : list string :=
  match TicketAnalysis.products analysis with
  | top :: _ =>
      if Qlt_le_dec (3 # 10) (ProductAnalysis.confidence top)
      then ["product-" +:+ ProductAnalysis.product top] else []
  | [] => []
  end.

(** The lookup table from a category label to its secondary tag. *)
Definition secondaryTable : list (string * string) :=
  [("technical", "needs-technical-review");
   ("billing", "billing-inquiry");
   ("feature_request", "feature-request");
   ("account", "account-management")].

Fixpoint lookup (key : string) (table : list (string * string)) : option string :=
  match table with
  | [] => None
  | (k, v) :: table' => if string_dec key k then Some v else lookup key table'
  end.

Definition secondaryRule (analysis : TicketAnalysis.t) : list string :=
  flat_map
    (fun c =>
       if Qlt_le_dec (6 # 10) (CategoryAnalysis.confidence c)
       then match lookup (CategoryAnalysis.category c) secondaryTable with
            | Some tag => [tag]
            | None => []
            end
       else [])
    (TicketAnalysis.categories analysis).

(** Rules 1 to 6, in order. *)
Definition policy (analysis : TicketAnalysis.t) : list string :=
  [markerTag] ++ categoryRule analysis ++ priorityRule analysis
  ++ sentimentRule analysis ++ productRule analysis ++ secondaryRule analysis.

(** Rule 7: keep the first occurrence of every tag. *)
Fixpoint dedupFirst (l : list string) : list string :=
  match l with
  | [] => []
  | x :: l' => x :: List.filter (fun y => negb (String.eqb x y)) (dedupFirst l')
  end.

(** A string made of white space only (the empty string included). *)
Fixpoint blank (s : string) : Prop :=
  match s with
  | EmptyString => True
  | String c s' => Js.isWhiteSpace c = true /\ blank s'
  end.

(** A string of white space only, as a test. *)
Fixpoint isBlank (s : string) : bool :=
  match s with
  | EmptyString => true
  | String c s' => Js.isWhiteSpace c && isBlank s'
  end.

(** The suggested tags that are new to a ticket: those that are neither
    among its current tags nor blank, in the order of suggestion. *)
Definition newTags (suggested current : list string) : list string :=
  List.filter
    (fun tag => negb (existsb (String.eqb tag) current) && negb (isBlank tag))
    suggested.

(** The ticket of an analysis is among [tickets]. *)
Definition hasTicket (tickets : list ZendeskTicket.t)
    (analysis : TicketAnalysis.t) : bool :=
  existsb (fun ticket => Z.eqb (ZendeskTicket.id ticket)
                           (TicketAnalysis.ticketId analysis)) tickets.

(** The analyses whose ticket is not among [tickets] (lookup misses). *)
Definition misses (tickets : list ZendeskTicket.t)
    (analyses : list TicketAnalysis.t) : nat :=
  length (List.filter (fun a => negb (hasTicket tickets a)) analyses).

(** The outcomes with a given status. *)
Definition withStatus (status : string) (details : list TaggingResult.t) : nat :=
  length (List.filter (fun d => String.eqb (TaggingResult.status d) status) details).

(** The update requests that the helpdesk rejected. *)
Definition failedRequests (sent : list ZendeskClient.Request) : nat :=
  length (List.filter (fun q => negb (ZendeskClient.ok q)) sent).

(** A priority tier has at least one keyword occurring in [text]. *)
Definition tierMatches (text : string) (rule : KeywordRule.t) : Prop :=
  exists keyword,
    In keyword (KeywordRule.keywords rule) /\ Js.includes text keyword = true.

(** The keywords of a table of weighted rules, in table order. *)
Definition tableKeywords (table : list (string * KeywordRule.t)) : list string :=
  flat_map (fun e => KeywordRule.keywords (snd e)) table.

End Spec.

(** ** Loop invariants *)

Module Invariant.

(** What the scan knows after the tiers [seen]. *)
Definition scanned (text : string) (seen : list (string * KeywordRule.t))
    (st : ContentAnalyzer.PriorityScan) : Prop :=
  ContentAnalyzer.scanMatched st = List.filter (Js.includes text) (Spec.tableKeywords seen)
  /\ (forall name rule, In (name, rule) seen -> Spec.tierMatches text rule ->
      KeywordRule.weight rule <= ContentAnalyzer.scanScore st)
  /\ ((ContentAnalyzer.scanScore st = 0 /\ ContentAnalyzer.highestPriority st = "normal")
      \/ exists name rule,
          In (name, rule) seen /\ Spec.tierMatches text rule
          /\ ContentAnalyzer.highestPriority st = name /\ ContentAnalyzer.scanScore st = KeywordRule.weight rule).

(** What the loop of [batchApplyTags] has added after the analyses [l]. *)
Definition processed (tickets : list ZendeskTicket.t) (l : list TicketAnalysis.t)
    (before after : AutoTagger.Tally * ZendeskClient.Remote) : Prop :=
  exists outcomes sent,
    AutoTagger.results (fst after) = AutoTagger.results (fst before) ++ outcomes
    /\ ZendeskClient.requests (snd after) = ZendeskClient.requests (snd before) ++ sent
    /\ List.map TaggingResult.ticketId outcomes
       = List.map TicketAnalysis.ticketId (List.filter (Spec.hasTicket tickets) l)
    /\ AutoTagger.successCount (fst after)
       = (AutoTagger.successCount (fst before) + Spec.withStatus "success" outcomes)%nat
    /\ AutoTagger.skipCount (fst after)
       = (AutoTagger.skipCount (fst before) + Spec.withStatus "skipped" outcomes
          + Spec.withStatus "dry-run" outcomes)%nat
    /\ AutoTagger.errorCount (fst after)
       = (AutoTagger.errorCount (fst before) + Spec.misses tickets l
          + Spec.withStatus "error" outcomes)%nat
    /\ (AutoTagger.successCount (fst after) + AutoTagger.skipCount (fst after) + AutoTagger.errorCount (fst after)
        = AutoTagger.successCount (fst before) + AutoTagger.skipCount (fst before)
          + AutoTagger.errorCount (fst before) + length l)%nat
    /\ Spec.failedRequests sent = Spec.withStatus "error" outcomes.

End Invariant.

(** A ticket that has only an id and a subject. *)
Definition ticketWithSubject (id : Z) (subject : string) : ZendeskTicket.t :=
  ZendeskTicket.mk id subject None [] None.

(** Sample data for the examples below. *)
Module Sample.

(** A tagger that writes, with threshold 1/2. *)
Definition tagger : AutoTagger.t :=
  AutoTagger.mk (AutomationConfig.mk false (1 # 2)).

(** The same tagger in dry-run mode. *)
Definition dryTagger : AutoTagger.t :=
  AutoTagger.mk (AutomationConfig.mk true (1 # 2)).

(** A helpdesk that stores nothing yet and serves every request. *)
Definition idle : ZendeskClient.Remote := ZendeskClient.mkRemote ∅ [] [].

(** A helpdesk that rejects the second request it gets. *)
Definition flaky : ZendeskClient.Remote :=
  ZendeskClient.mkRemote ∅ [] [None; Some "Request failed with status code 429"].

Definition outage (id : Z) : ZendeskTicket.t :=
  ticketWithSubject id "URGENT: production API down, 500 errors, revenue impact".

Definition outageAnalysis (id : Z) : TicketAnalysis.t :=
  ContentAnalyzer.analyzeTicket ContentAnalyzer.constructor (outage id).

End Sample.

(** ** Closed forms of the loops *)

Module Closed.

(** The categories that the loop pushes, before sorting. *)
Definition pushedCategory (text : string) (entry : string * KeywordRule.t)
  : list CategoryAnalysis.t :=
  let '(category, config) := entry in
  let '(score, matchedKeywords) := ContentAnalyzer.scanCategory text config in
  if Js.ltb 0 score
  then [CategoryAnalysis.mk category score matchedKeywords (Js.min (score / 5) 1)]
  else [].

(** The products that the loop of [analyzeProducts] pushes, before
    sorting. *)
Definition pushedProduct (text : string) (entry : string * list string)
  : list ProductAnalysis.t :=
  let '(product, keywords) := entry in
  let matchedKeywords := List.filter (Js.includes text) keywords in
  if (0 <? length matchedKeywords)%nat
  then [ProductAnalysis.mk product matchedKeywords
          (Js.min (Js.ofNat (length matchedKeywords) / Js.ofNat (length keywords)) 1)]
  else [].

End Closed.

(** ** The requests of a batch *)

Module Sent.

(** The request that stands behind an outcome: a served one for
    "success", a rejected one for "error", none otherwise. *)
Definition requestOf (outcome : TaggingResult.t) : list (Z * bool) :=
  if String.eqb (TaggingResult.status outcome) "success"
  then [(TaggingResult.ticketId outcome, true)]
  else if String.eqb (TaggingResult.status outcome) "error"
  then [(TaggingResult.ticketId outcome, false)]
  else [].

(** What the loop of [batchApplyTags] has sent while it added the outcomes
    of [after] to those of [before]. *)
Definition accounted (dryRun : bool)
    (before after : AutoTagger.Tally * ZendeskClient.Remote) : Prop :=
  exists outcomes sent,
    AutoTagger.results (fst after) = AutoTagger.results (fst before) ++ outcomes
    /\ ZendeskClient.requests (snd after) = ZendeskClient.requests (snd before) ++ sent
    /\ List.map (fun q => (ZendeskClient.ticketId q, ZendeskClient.ok q)) sent
       = flat_map requestOf outcomes
    /\ (sent = [] -> snd after = snd before)
    /\ (dryRun = true ->
        Forall (fun o => TaggingResult.status o = "skipped"
                         \/ TaggingResult.status o = "dry-run") outcomes).

End Sent.

(** ** [ContentAnalyzer.batchAnalyze] *)

Module ContentAnalyzerBatch.

(** [batchAnalyze(tickets)] maps [analyzeTicket] over the tickets.  The
    [catch] of its callback is for a ticket that breaks its declared type
    (a missing id or a text field that is no string); [analyzeTicket]
    throws on no [ZendeskTicket.t], so the degraded analysis is never
    built here. *)
Definition batchAnalyze (this : ContentAnalyzer.t) (tickets : list ZendeskTicket.t)
  : list TicketAnalysis.t :=
  List.map (ContentAnalyzer.analyzeTicket this) tickets.

End ContentAnalyzerBatch.

(** ** Keywords without white space at their ends *)

Module Tidy.

Fixpoint lastChar (s : string) : option ascii :=
  match s with
  | EmptyString => None
  | String c EmptyString => Some c
  | String _ s' => lastChar s'
  end.

(** A keyword that is not empty and neither starts nor ends with white
    space, like every keyword of the analyzer. *)
Definition tidy (keyword : string) : bool :=
  match keyword, lastChar keyword with
  | String first _, Some last =>
      negb (Js.isWhiteSpace first) && negb (Js.isWhiteSpace last)
  | _, _ => false
  end.

End Tidy.

(** ** Numbers in template literals *)

Module JsNumber.

(** [String(n)] for a count or an index: the decimal digits. *)
Definition toString (n : nat) : string :=
  NilEmpty.string_of_uint (Nat.to_uint n).

(** The line feed of ['\n']. *)
Definition newline : string := String (Ascii.ascii_of_nat 10) EmptyString.

End JsNumber.

(** ** [TicketFetcher] ([src/services/ticketFetcher.ts]) *)

(** The fields of [ZendeskComment] that the fetcher reads. *)
Module ZendeskComment.
Record t := mk {
  body : string;
  public : bool
}.
End ZendeskComment.

Module TicketFetcher.

(** What a call of the client gives back: the value it resolves to, or
    the [Error] it throws. *)
Definition Answer (A : Type) : Type := (Template.t + A)%type.

(** [fetchNewTickets(hoursBack, excludeTags)], from the answer of
    [client.getRecentTickets(hoursBack)], whose [results] may be missing.
    An error of the client is thrown again. *)
Definition fetchNewTickets (answer : Answer (option (list ZendeskTicket.t)))
    (excludeTags : list string) : Answer (list ZendeskTicket.t) :=
  match answer with
  | inl error => inl error
  | inr None => inr []
  | inr (Some results) =>
      if (length results =? 0)%nat then inr []
      else inr (List.filter
                  (fun ticket =>
                     let hasExcludedTags :=
                       existsb (fun tag => Js.arrayIncludes (ZendeskTicket.tags ticket) tag)
                         excludeTags in
                     negb hasExcludedTags)
                  results)
  end.

(** The default value of [excludeTags]. *)
Definition defaultExcludeTags : list string := ["auto-processed"].

(** A string is truthy when it is not empty. *)
Definition truthy (s : string) : bool := negb (String.eqb s "").

(** The callback of [comments.forEach] in [extractFullText]. *)
Definition addComment (fullText : string) (entry : nat * ZendeskComment.t) : string :=
  let '(index, comment) := entry in
  if truthy (ZendeskComment.body comment) && ZendeskComment.public comment
  then fullText +:+ "Comment " +:+ JsNumber.toString (index + 1) +:+ ": "
       +:+ ZendeskComment.body comment +:+ JsNumber.newline +:+ JsNumber.newline
  else fullText.

(** The text before the final [trim]. *)
Definition untrimmedText (ticket : ZendeskTicket.t) (comments : list ZendeskComment.t)
  : string :=
  let fullText := "" in
  let fullText :=
    if truthy (ZendeskTicket.subject ticket)
    then fullText +:+ "Subject: " +:+ ZendeskTicket.subject ticket
         +:+ JsNumber.newline +:+ JsNumber.newline
    else fullText in
  let fullText :=
    match ZendeskTicket.description ticket with
    | Some description =>
        if truthy description
        then fullText +:+ "Description: " +:+ description
             +:+ JsNumber.newline +:+ JsNumber.newline
        else fullText
    | None => fullText
    end in
  fold_left addComment (combine (seq 0 (length comments)) comments) fullText.

Definition extractFullText (ticket : ZendeskTicket.t) (comments : list ZendeskComment.t)
  : string :=
  Js.trim (untrimmedText ticket comments).

(** [getDetailedTicket(ticketId)], from the answers of [client.getTicket]
    and [client.getTicketComments], which run side by side; when both fail
    the error of the first to fail is thrown, here that of the ticket.  The
    [comments] field of the result is read by nobody and is not kept. *)
Definition getDetailedTicket (ticketId : Z)
    (ticketAnswer : Answer (option ZendeskTicket.t))
    (commentsAnswer : Answer (option (list ZendeskComment.t)))
  : Answer ZendeskTicket.t :=
  match ticketAnswer, commentsAnswer with
  | inl error, _ => inl error
  | _, inl error => inl error
  | inr None, inr _ =>
      inl [Template.Str "Ticket "; Template.Num (inject_Z ticketId);
           Template.Str " not found"]
  | inr (Some ticket), inr comments =>
      inr (ZendeskTicket.mk (ZendeskTicket.id ticket) (ZendeskTicket.subject ticket)
             (ZendeskTicket.description ticket) (ZendeskTicket.tags ticket)
             (Some (extractFullText ticket
                      (match comments with Some c => c | None => [] end))))
  end.

(** [Promise.all] over a batch: the values when every call resolves. *)
Fixpoint all {A} (answers : list (Answer A)) : option (list A) :=
  match answers with
  | [] => Some []
  | inl _ :: _ => None
  | inr a :: rest =>
      match all rest with
      | Some values => Some (a :: values)
      | None => None
      end
  end.

(** The loop of [batchFetchDetailedTickets]: [rest] holds the tickets from
    index [i] on, so [tickets.slice(i, i + batchSize)] is its first
    [batchSize] elements and [i += batchSize] drops them.  [detail] is
    [this.getDetailedTicket] on the current state of the helpdesk.  The loop
    takes one unit of [fuel] per turn; [None] means that the turns ran
    out. *)
Fixpoint fetchLoop (fuel : nat) (detail : Z -> Answer ZendeskTicket.t)
    (batchSize : nat) (rest detailedTickets : list ZendeskTicket.t)
  : option (list ZendeskTicket.t) :=
  match rest with
  | [] => Some detailedTickets
  | _ :: _ =>
      match fuel with
      | O => None
      | S fuel' =>
          let batch := firstn batchSize rest in
          let detailedTickets' :=
            match all (List.map (fun ticket => detail (ZendeskTicket.id ticket)) batch) with
            | Some batchResults => detailedTickets ++ batchResults
            | None => detailedTickets
            end in
          fetchLoop fuel' detail batchSize (skipn batchSize rest) detailedTickets'
      end
  end.

Definition batchFetchDetailedTickets (fuel : nat) (detail : Z -> Answer ZendeskTicket.t)
    (tickets : list ZendeskTicket.t) (batchSize : nat)
  : option (list ZendeskTicket.t) :=
  fetchLoop fuel detail batchSize tickets [].

End TicketFetcher.

(** ** The parts of the text of a detailed ticket *)

Module FullText.

(** What one comment adds to the text. *)
Definition commentPart (entry : nat * ZendeskComment.t) : string :=
  TicketFetcher.addComment "" entry.

Definition commentsPart (entries : list (nat * ZendeskComment.t)) : string :=
  fold_right (fun entry rest => commentPart entry +:+ rest) "" entries.

(** The label of the comment at place [index] (counted from 0) among all
    comments of the ticket. *)
Definition label (index : nat) : string :=
  "Comment " +:+ JsNumber.toString (index + 1) +:+ ":".


End FullText.

(** ** The batches of [batchFetchDetailedTickets] *)

Module Batches.

(** What one batch adds to [detailedTickets]: the details of all its
    tickets, or nothing when one of them could not be fetched. *)
Definition batchResult (detail : Z -> TicketFetcher.Answer ZendeskTicket.t)
    (batch : list ZendeskTicket.t) : list ZendeskTicket.t :=
  match TicketFetcher.all
          (List.map (fun ticket => detail (ZendeskTicket.id ticket)) batch) with
  | Some batchResults => batchResults
  | None => []
  end.

End Batches.

(** ** [ErrorHandler.handleWithRetry] ([src/utils/errorHandler.ts]) *)

Module ErrorHandler.

(** What [handleWithRetry] does besides calling the operation: it records
    an error ([this.recordError(lastError, options.operation)]) and it
    waits ([this.delay(delay)], in milliseconds). *)
Inductive Event :=
| Recorded (error : Template.t) (operation : string)
| Delayed (ms : Q).

(** [{ maxRetries, baseDelay, operation }]. *)
Record RetryOptions := mkOptions {
  maxRetries : nat;
  baseDelay : Q;
  operation : string
}.

(** The loop from [attempt] on, with [remaining = maxRetries - attempt]
    further attempts allowed.  [operation k] is what the [k]-th call of
    the operation gives (calls are counted from 0). *)
Fixpoint retryFrom {T} (operation : nat -> TicketFetcher.Answer T)
    (options : RetryOptions) (attempt remaining : nat)
  : TicketFetcher.Answer T * list Event :=
  match operation attempt with
  | inr value => (inr value, [])
  | inl lastError =>
      match remaining with
      | O => (inl lastError, [Recorded lastError (ErrorHandler.operation options)])
      | S remaining' =>
          let delay := baseDelay options * 2 ^ Z.of_nat attempt in
          let '(answer, events) :=
            retryFrom operation options (S attempt) remaining' in
          (answer,
           Recorded lastError (ErrorHandler.operation options) :: Delayed delay :: events)
      end
  end.

Definition handleWithRetry {T} (operation : nat -> TicketFetcher.Answer T)
    (options : RetryOptions) : TicketFetcher.Answer T * list Event :=
  retryFrom operation options 0 (maxRetries options).

End ErrorHandler.

(** The waits and the recorded errors among the events of a retry. *)
Module Events.

Definition delays (events : list ErrorHandler.Event) : list Q :=
  flat_map (fun e => match e with
                     | ErrorHandler.Delayed ms => [ms]
                     | ErrorHandler.Recorded _ _ => []
                     end) events.

Definition recorded (events : list ErrorHandler.Event) : list Template.t :=
  flat_map (fun e => match e with
                     | ErrorHandler.Recorded error _ => [error]
                     | ErrorHandler.Delayed _ => []
                     end) events.

Definition total (delays : list Q) : Q := fold_right Qplus 0 delays.

(** The calls [first .. first + count - 1] of the operation all fail. *)
Definition allFail {T} (operation : nat -> TicketFetcher.Answer T)
    (first count : nat) : Prop :=
  forall j, (first <= j < first + count)%nat -> exists error, operation j = inl error.

(** The error of a failed call. *)
Definition errorOf {T} (answer : TicketFetcher.Answer T) : Template.t :=
  match answer with
  | inl error => error
  | inr _ => []
  end.

End Events.

(** ** The orchestrator ([src/index.ts], class [TicketAutomationSystem]) *)

Module AutomationSummary.
Record t := mk {
  ticketsProcessed : nat;
  ticketsTagged : nat;
  ticketsSkipped : nat;
  errors : nat;
  successRate : Q
}.
End AutomationSummary.

(** The report of a run.  [startTime], [endTime] and [duration] come from
    the clock, [errorStats] from the error handler, and [autoTaggerReport]
    is always [null]: they are left out. *)
Module AutomationReport.
Record t := mk {
  summary : AutomationSummary.t;
  configuration : AutomationConfig.t;
  taggingResults : option BatchTaggingResults.t
}.
End AutomationReport.

Module TicketAutomationSystem.

(** The constructor hands its own configuration object to the tagger, so
    [this.config.dryRun] and [this.config.minConfidence] are the tagger's;
    [batchSize] is [this.config.batchSize]. *)
Record t := mk {
  analyzer : ContentAnalyzer.t;
  tagger : AutoTagger.t;
  batchSize : nat
}.

Definition generateReport (this : t)
    (ticketsProcessed ticketsTagged ticketsSkipped errors : nat)
    (taggingResults : option BatchTaggingResults.t) : AutomationReport.t :=
  AutomationReport.mk
    (AutomationSummary.mk ticketsProcessed ticketsTagged ticketsSkipped errors
       (if (0 <? ticketsProcessed)%nat
        then Double.mul (Double.div (Js.ofNat ticketsTagged) (Js.ofNat ticketsProcessed))
               100
        else 0))
    (AutoTagger.config (tagger this))
    taggingResults.

(** The options of the retry around [fetchNewTickets]. *)
Definition fetchOptions : ErrorHandler.RetryOptions :=
  ErrorHandler.mkOptions 3 1000 "fetch_tickets".

(** [fetchTickets(criteria)]; [criteria] is not read.  [search k] is what
    the [k]-th call of [client.getRecentTickets(this.config.hoursBack)]
    gives, [detail] is [fetcher.getDetailedTicket] on the state of the
    helpdesk, and [fuel] bounds the turns of the batch loop ([None]: the
    turns ran out).  An error that outlives the retries is thrown. *)
Definition fetchTickets (this : t) (fuel : nat)
    (search : nat -> TicketFetcher.Answer (option (list ZendeskTicket.t)))
    (detail : Z -> TicketFetcher.Answer ZendeskTicket.t)
  : option (TicketFetcher.Answer (list ZendeskTicket.t)) :=
  match fst (ErrorHandler.handleWithRetry
               (fun k => TicketFetcher.fetchNewTickets (search k) ["auto-processed"])
               fetchOptions) with
  | inl error => Some (inl error)
  | inr tickets =>
      let limitedTickets := firstn 50 tickets in
      option_map inr
        (TicketFetcher.batchFetchDetailedTickets fuel detail limitedTickets
           (batchSize this))
  end.

Definition analyzeTickets (this : t) (tickets : list ZendeskTicket.t)
  : list TicketAnalysis.t :=
  ContentAnalyzerBatch.batchAnalyze (analyzer this) tickets.

Definition applyTags (this : t) (analysisResults : list TicketAnalysis.t)
    (tickets : list ZendeskTicket.t) (r : ZendeskClient.Remote)
  : BatchTaggingResults.t * ZendeskClient.Remote :=
  AutoTagger.batchApplyTags (tagger this) analysisResults tickets r.

(** [run(criteria)]: the report it resolves to or the error it throws,
    and the state of the helpdesk afterwards. *)
Definition run (this : t) (fuel : nat)
    (search : nat -> TicketFetcher.Answer (option (list ZendeskTicket.t)))
    (detail : Z -> TicketFetcher.Answer ZendeskTicket.t)
    (r : ZendeskClient.Remote)
  : option (TicketFetcher.Answer AutomationReport.t * ZendeskClient.Remote) :=
  match fetchTickets this fuel search detail with
  | None => None
  | Some (inl error) => Some (inl error, r)
  | Some (inr tickets) =>
      if (length tickets =? 0)%nat
      then Some (inr (generateReport this 0 0 0 0 None), r)
      else
        let ticketsProcessed := length tickets in
        let analysisResults := analyzeTickets this tickets in
        let '(taggingResults, r') := applyTags this analysisResults tickets r in
        Some (inr (generateReport this ticketsProcessed
                     (BatchTaggingResults.success taggingResults)
                     (BatchTaggingResults.skipped taggingResults)
                     (BatchTaggingResults.errors taggingResults)
                     (Some taggingResults)), r')
  end.

End TicketAutomationSystem.

(** The bound [2^-45] on the distance between the success rate of a run
    and the exact share of tagged tickets in percent. *)
Module SuccessRate.
Definition tolerance : Q := 1 # 35184372088832.
End SuccessRate.

(** Where a ticket of a run comes from. *)
Module FetchedBy.

(** [d] is the detail of a ticket that one of the first four searches
    returned without the marker tag. *)
Definition origin
    (search : nat -> TicketFetcher.Answer (option (list ZendeskTicket.t)))
    (detail : Z -> TicketFetcher.Answer ZendeskTicket.t)
    (d : ZendeskTicket.t) : Prop :=
  exists k found ticket,
    (k <= 3)%nat
    /\ search k = inr (Some found)
    /\ In ticket found
    /\ ~ In "auto-processed" (ZendeskTicket.tags ticket)
    /\ detail (ZendeskTicket.id ticket) = inr d.

End FetchedBy.

(** Sample data for the examples of a run. *)
Module SampleRun.

(** The default batch size 10, with the writing tagger of [Sample]. *)
Definition system : TicketAutomationSystem.t :=
  TicketAutomationSystem.mk ContentAnalyzer.constructor Sample.tagger 10.

(** The same system in dry-run mode. *)
Definition drySystem : TicketAutomationSystem.t :=
  TicketAutomationSystem.mk ContentAnalyzer.constructor Sample.dryTagger 10.

(** The first search times out; the next ones find three tickets, the
    second of them processed before. *)
Definition search (k : nat)
  : TicketFetcher.Answer (option (list ZendeskTicket.t)) :=
  if (k <? 1)%nat
  then inl [Template.Str "Failed to fetch recent tickets: timeout"]
  else inr (Some [Sample.outage 1;
                  ZendeskTicket.mk 2 "Thanks" None ["auto-processed"] None;
                  Sample.outage 3]).

(** Every search times out. *)
Definition down (k : nat)
  : TicketFetcher.Answer (option (list ZendeskTicket.t)) :=
  inl [Template.Str "Failed to fetch recent tickets: timeout"].

(** Every ticket is an outage report without comments. *)
Definition detail (id : Z) : TicketFetcher.Answer ZendeskTicket.t :=
  TicketFetcher.getDetailedTicket id (inr (Some (Sample.outage id))) (inr (Some [])).

End SampleRun.

(** ** The tag distribution of [AutoTagger.generateReport] *)

Module TagDistribution.

(** [tagStats.set(tag, (tagStats.get(tag) || 0) + 1)].  A [Map] is the
    list of its entries in insertion order; [set] on a key that is there
    keeps the entry in its place. *)
Fixpoint bump (tagStats : list (string * nat)) (tag : string) : list (string * nat) :=
  match tagStats with
  | [] => [(tag, 1%nat)]
  | (key, count) :: rest =>
      if String.eqb key tag then (key, S count) :: rest
      else (key, count) :: bump rest tag
  end.

(** The map after [results.details.forEach(...)]; an outcome without
    [tags] adds nothing. *)
Definition tagStats (details : list TaggingResult.t) : list (string * nat) :=
  fold_left
    (fun stats result =>
       match TaggingResult.tags result with
       | Some tags => fold_left bump tags stats
       | None => stats
       end)
    details [].

(** [[...tagStats.entries()].sort((a, b) => b[1] - a[1])]. *)
Definition sortedTags (details : list TaggingResult.t) : list (string * nat) :=
  Js.sort (fun a b => Js.ofNat (snd b) - Js.ofNat (snd a)) (tagStats details).

(** The lines under "Most Applied Tags": [sortedTags.slice(0, 10)]. *)
Definition mostAppliedTags (details : list TaggingResult.t) : list (string * nat) :=
  firstn 10 (sortedTags details).

(** [tagStats.get(tag) || 0]. *)
Fixpoint get (tagStats : list (string * nat)) (tag : string) : nat :=
  match tagStats with
  | [] => 0%nat
  | (key, count) :: rest => if String.eqb key tag then count else get rest tag
  end.

(** All tags that the outcomes carry, with repetition. *)
Definition carried (details : list TaggingResult.t) : list string :=
  flat_map (fun result => match TaggingResult.tags result with
                          | Some tags => tags
                          | None => []
                          end) details.

(** How often [tag] occurs in [tags]. *)
Definition occurrences (tag : string) (tags : list string) : nat :=
  length (List.filter (String.eqb tag) tags).

End TagDistribution.

(** * Properties *)

(** ** Numbers and strings *)

Section JsFacts.

Lemma ltb_lt (x y : Q) : Js.ltb x y = true <-> x < y.
Proof. unfold Js.ltb, Qlt. apply Z.ltb_lt. Qed.

Lemma ltb_ge (x y : Q) : Js.ltb x y = false <-> y <= x.
Proof. unfold Js.ltb, Qle. rewrite Z.ltb_ge. reflexivity. Qed.

Lemma min_Qmin (x y : Q) : Js.min x y == Qmin x y.
Proof.
  unfold Js.min. destruct (Js.ltb y x) eqn:E.
  - apply ltb_lt in E. symmetry. apply Q.min_r. apply Qlt_le_weak, E.
  - apply ltb_ge in E. symmetry. apply Q.min_l, E.
Qed.

Lemma startsWith_prefix (text keyword : string) :
  Js.startsWith text keyword = true <-> exists rest, text = keyword +:+ rest.
Proof.
  revert text. induction keyword as [|k keyword IH]; intros text; simpl.
  - split; [intros _; exists text; reflexivity | reflexivity].
  - destruct text as [|t text].
    + split; [discriminate | intros [rest H]; discriminate].
    + destruct (Ascii.eqb_spec k t) as [->|Hne].
      * rewrite IH. split; intros [rest H]; exists rest.
        -- simpl. now rewrite H.
        -- simpl in H. now inversion H.
      * split; [discriminate|]. intros [rest H]. simpl in H.
        inversion H. congruence.
Qed.

(** [includes] is the substring test. *)
Lemma includes_substring (text keyword : string) :
  Js.includes text keyword = true
  <-> exists before after, text = before +:+ keyword +:+ after.
Proof.
  induction text as [|t text IH]; simpl.
  - rewrite orb_false_r, startsWith_prefix. split.
    + intros [rest H]. exists "", rest. exact H.
    + intros [[|b before] [after H]]; [exists after; exact H | discriminate].
  - rewrite orb_true_iff, startsWith_prefix, IH. split.
    + intros [[rest H]|[before [after H]]].
      * exists "", rest. exact H.
      * exists (String t before), after. simpl. now rewrite H.
    + intros [[|b before] [after H]].
      * left. exists after. exact H.
      * right. exists before, after. simpl in H. now inversion H.
Qed.

End JsFacts.

(** ** Rounding to double precision *)

Section DoubleFacts.

Import Double.

Lemma pow2_pos (e : Z) : 0 < 2 ^ e.
Proof. apply Qpower_0_lt. reflexivity. Qed.

Lemma pow2_le (a b : Z) : (a <= b)%Z -> 2 ^ a <= 2 ^ b.
Proof. intros H. apply Qpower_le_compat_l; [exact H | discriminate]. Qed.

Lemma pow2_lt (a b : Z) : (a < b)%Z -> 2 ^ a < 2 ^ b.
Proof. intros H. apply Qpower_lt_compat_l; [exact H | reflexivity]. Qed.

Lemma pow2_plus (a b : Z) : 2 ^ (a + b) == 2 ^ a * 2 ^ b.
Proof. apply Qpower_plus. discriminate. Qed.

Lemma pow2_succ (a : Z) : 2 ^ (a + 1) == 2 ^ a * 2.
Proof. rewrite pow2_plus. reflexivity. Qed.

Lemma pow2_pred (a : Z) : 2 ^ (a - 1) * 2 == 2 ^ a.
Proof.
  rewrite <- pow2_succ. replace (a - 1 + 1)%Z with a by lia. reflexivity.
Qed.

Lemma pow2_cancel (a b : Z) : 2 ^ (a - b) * 2 ^ b == 2 ^ a.
Proof.
  rewrite <- pow2_plus. replace (a - b + b)%Z with a by lia. reflexivity.
Qed.

(** *** The nearest integer *)

Lemma floor_bounds (x : Q) :
  inject_Z (Qfloor x) <= x /\ x < inject_Z (Qfloor x) + 1.
Proof.
  split; [apply Qfloor_le|].
  pose proof (Qlt_floor x) as H. rewrite inject_Z_plus in H. exact H.
Qed.

Lemma nearestEven_cases (x : Q) :
  (nearestEven x = Qfloor x /\ x - inject_Z (Qfloor x) <= 1 # 2)
  \/ (nearestEven x = (Qfloor x + 1)%Z /\ 1 # 2 <= x - inject_Z (Qfloor x)).
Proof.
  unfold nearestEven.
  destruct (Js.ltb (x - inject_Z (Qfloor x)) (1 # 2)) eqn:E1.
  { left. apply ltb_lt in E1. split; [reflexivity | lra]. }
  apply ltb_ge in E1.
  destruct (Js.ltb (1 # 2) (x - inject_Z (Qfloor x))) eqn:E2.
  { right. split; [reflexivity | exact E1]. }
  apply ltb_ge in E2.
  destruct (Z.even (Qfloor x)); [left | right]; split; auto.
Qed.

Lemma nearestEven_error (x : Q) :
  x - (1 # 2) <= inject_Z (nearestEven x) <= x + (1 # 2).
Proof.
  destruct (floor_bounds x) as [H1 H2].
  destruct (nearestEven_cases x) as [[-> H]|[-> H]];
    rewrite ?inject_Z_plus; change (inject_Z 1) with 1; lra.
Qed.

Lemma nearestEven_mono (x y : Q) :
  x <= y -> (nearestEven x <= nearestEven y)%Z.
Proof.
  intros Hxy. pose proof (Qfloor_resp_le _ _ Hxy) as Hfloor.
  destruct (Z.eq_dec (Qfloor x) (Qfloor y)) as [E|Hne].
  - unfold nearestEven. rewrite <- E.
    set (f := Qfloor x).
    assert (Hr : x - inject_Z f <= y - inject_Z f) by lra.
    destruct (Js.ltb (x - inject_Z f) (1 # 2)) eqn:X1;
      destruct (Js.ltb (y - inject_Z f) (1 # 2)) eqn:Y1;
      destruct (Js.ltb (1 # 2) (x - inject_Z f)) eqn:X2;
      destruct (Js.ltb (1 # 2) (y - inject_Z f)) eqn:Y2;
      destruct (Z.even f);
      try lia;
      repeat match goal with
             | H : Js.ltb _ _ = true |- _ => apply ltb_lt in H
             | H : Js.ltb _ _ = false |- _ => apply ltb_ge in H
             end;
      exfalso; lra.
  - destruct (nearestEven_cases x) as [[-> _]|[-> _]];
      destruct (nearestEven_cases y) as [[-> _]|[-> _]]; lia.
Qed.

Lemma nearestEven_Z (z : Z) : nearestEven (inject_Z z) = z.
Proof.
  unfold nearestEven. rewrite Qfloor_Z.
  assert (E : Js.ltb (inject_Z z - inject_Z z) (1 # 2) = true)
    by (apply ltb_lt; lra).
  now rewrite E.
Qed.

(** *** The exponent *)

Lemma exponent_spec (x : Q) :
  0 < x -> 2 ^ exponent x <= x /\ x < 2 ^ (exponent x + 1).
Proof.
  intros Hx. unfold exponent.
  set (a := Z.log2 (Qnum x)). set (b := Z.log2 (Z.pos (Qden x))).
  assert (Hn : (0 < Qnum x)%Z).
  { destruct x as [n d]. unfold Qlt in Hx. cbn in *. lia. }
  destruct (Z.log2_spec (Qnum x) Hn) as [A1 A2]. fold a in A1, A2.
  destruct (Z.log2_spec (Z.pos (Qden x)) (Pos2Z.is_pos _)) as [B1 B2].
  fold b in B1, B2.
  assert (Ha : (0 <= a)%Z) by apply Z.log2_nonneg.
  assert (Hb : (0 <= b)%Z) by apply Z.log2_nonneg.
  set (N := inject_Z (Qnum x)). set (D := inject_Z (Z.pos (Qden x))).
  assert (Ex : x == N / D) by (unfold N, D; destruct x; apply Qmake_Qdiv).
  assert (HD : 0 < D) by (unfold D; rewrite <- (Zlt_Qlt 0); lia).
  assert (HA1 : 2 ^ a <= N).
  { unfold N. rewrite <- (Zpower_Qpower 2 a Ha), <- Zle_Qle. exact A1. }
  assert (HA2 : N < 2 ^ a * 2).
  { unfold N. rewrite <- pow2_succ, <- (Zpower_Qpower 2 (a + 1)) by lia.
    rewrite <- Zlt_Qlt. exact A2. }
  assert (HB1 : 2 ^ b <= D).
  { unfold D. rewrite <- (Zpower_Qpower 2 b Hb), <- Zle_Qle. exact B1. }
  assert (HB2 : D < 2 ^ b * 2).
  { unfold D. rewrite <- pow2_succ, <- (Zpower_Qpower 2 (b + 1)) by lia.
    rewrite <- Zlt_Qlt. exact B2. }
  pose proof (pow2_pos a) as Pa. pose proof (pow2_pos b) as Pb.
  pose proof (pow2_cancel a b) as Ec.
  pose proof (pow2_pos (a - b)) as Pe.
  set (PA := 2 ^ a) in *. set (PB := 2 ^ b) in *. set (PE := 2 ^ (a - b)) in *.
  assert (Hxd : x * D == N).
  { rewrite Ex. field. lra. }
  (* PE / 2 < x < PE * 2 *)
  assert (HPD1 : PE * PB <= PE * D).
  { rewrite !(Qmult_comm PE). apply Qmult_le_compat_r; lra. }
  assert (HPD2 : PE * D < PE * (PB * 2)).
  { rewrite !(Qmult_comm PE). apply Qmult_lt_compat_r; lra. }
  assert (Hup : x < PE * 2).
  { apply (Qmult_lt_r _ _ D HD). rewrite Hxd.
    apply Qlt_le_trans with (PA * 2); [exact HA2|].
    assert (E2 : PE * 2 * D == PE * D * 2) by ring.
    rewrite E2. lra. }
  assert (Hlow : PE < x * 2).
  { apply (Qmult_lt_r _ _ D HD).
    assert (E2 : x * 2 * D == N * 2) by (rewrite <- Hxd; ring).
    rewrite E2.
    apply Qlt_le_trans with (PA * 2); [|lra].
    assert (E3 : PE * (PB * 2) == PA * 2) by (rewrite <- Ec; ring).
    lra. }
  destruct (Js.ltb x PE) eqn:E.
  - apply ltb_lt in E.
    replace (a - b - 1 + 1)%Z with (a - b)%Z by lia. fold PE.
    pose proof (pow2_pred (a - b)) as Ep. fold PE in Ep.
    set (q := 2 ^ (a - b - 1)) in *.
    split; [lra | exact E].
  - apply ltb_ge in E. rewrite pow2_succ. fold PE.
    split; [exact E | exact Hup].
Qed.

Lemma exponent_unique (x : Q) (e : Z) :
  2 ^ e <= x -> x < 2 ^ (e + 1) -> exponent x = e.
Proof.
  intros H1 H2.
  assert (Hx : 0 < x) by (pose proof (pow2_pos e); lra).
  destruct (exponent_spec x Hx) as [S1 S2].
  destruct (Z.lt_trichotomy (exponent x) e) as [Hlt|[Heq|Hgt]]; [|exact Heq|].
  - pose proof (pow2_le (exponent x + 1) e ltac:(lia)). lra.
  - pose proof (pow2_le (e + 1) (exponent x) ltac:(lia)). lra.
Qed.

Lemma exponent_mono (x y : Q) :
  0 < x -> x <= y -> (exponent x <= exponent y)%Z.
Proof.
  intros Hx Hxy.
  destruct (exponent_spec x Hx) as [X1 X2].
  destruct (exponent_spec y ltac:(lra)) as [Y1 Y2].
  destruct (Z_le_gt_dec (exponent x) (exponent y)) as [H|H]; [exact H|].
  pose proof (pow2_le (exponent y + 1) (exponent x) ltac:(lia)). lra.
Qed.

(** *** Rounding *)

(** The scaled significand lies between [2^52] and [2^53]. *)
Lemma significand_bounds (x : Q) :
  0 < x ->
  let s := x * 2 ^ (52 - exponent x) in
  inject_Z (2 ^ 52) <= s /\ s < inject_Z (2 ^ 53)
  /\ s * 2 ^ (exponent x - 52) == x.
Proof.
  intros Hx. cbv zeta. destruct (exponent_spec x Hx) as [S1 S2].
  set (e := exponent x) in *.
  pose proof (pow2_pos (52 - e)) as P1. pose proof (pow2_pos (e - 52)) as P2.
  assert (E1 : 2 ^ e * 2 ^ (52 - e) == inject_Z (2 ^ 52)).
  { rewrite <- pow2_plus. replace (e + (52 - e))%Z with 52%Z by lia. reflexivity. }
  assert (E2 : 2 ^ (e + 1) * 2 ^ (52 - e) == inject_Z (2 ^ 53)).
  { rewrite <- pow2_plus. replace (e + 1 + (52 - e))%Z with 53%Z by lia. reflexivity. }
  assert (E3 : 2 ^ (52 - e) * 2 ^ (e - 52) == 1).
  { rewrite <- pow2_plus. replace (52 - e + (e - 52))%Z with 0%Z by lia. reflexivity. }
  split; [rewrite <- E1; apply Qmult_le_compat_r; lra|].
  split; [rewrite <- E2; apply Qmult_lt_compat_r; lra|].
  rewrite <- Qmult_assoc, E3. ring.
Qed.

Lemma roundPositive_bounds (x : Q) :
  0 < x ->
  2 ^ exponent x <= roundPositive x /\ roundPositive x <= 2 ^ (exponent x + 1).
Proof.
  intros Hx. unfold roundPositive.
  destruct (significand_bounds x Hx) as (B1 & B2 & _). cbv zeta in *.
  set (e := exponent x) in *. set (s := x * 2 ^ (52 - e)) in *.
  pose proof (nearestEven_mono _ _ B1) as M1. rewrite nearestEven_Z in M1.
  pose proof (nearestEven_mono _ _ (Qlt_le_weak _ _ B2)) as M2.
  rewrite nearestEven_Z in M2.
  pose proof (pow2_pos (e - 52)) as P.
  assert (E1 : inject_Z (2 ^ 52) * 2 ^ (e - 52) == 2 ^ e).
  { change (inject_Z (2 ^ 52)) with (2 ^ 52). rewrite <- pow2_plus.
    replace (52 + (e - 52))%Z with e by lia. reflexivity. }
  assert (E2 : inject_Z (2 ^ 53) * 2 ^ (e - 52) == 2 ^ (e + 1)).
  { change (inject_Z (2 ^ 53)) with (2 ^ 53). rewrite <- pow2_plus.
    replace (53 + (e - 52))%Z with (e + 1)%Z by lia. reflexivity. }
  rewrite Zle_Qle in M1, M2.
  split.
  - rewrite <- E1. apply Qmult_le_compat_r; lra.
  - rewrite <- E2. apply Qmult_le_compat_r; lra.
Qed.

Lemma roundPositive_error (x : Q) :
  0 < x ->
  x - unitRoundoff * x <= roundPositive x <= x + unitRoundoff * x.
Proof.
  intros Hx. unfold roundPositive.
  destruct (significand_bounds x Hx) as (B1 & B2 & B3). cbv zeta in *.
  destruct (exponent_spec x Hx) as [S1 _].
  set (e := exponent x) in *. set (s := x * 2 ^ (52 - e)) in *.
  destruct (nearestEven_error s) as [N1 N2].
  set (m := inject_Z (nearestEven s)) in *.
  pose proof (pow2_pos (e - 52)) as P.
  assert (Eu : (1 # 2) * 2 ^ (e - 52) == unitRoundoff * 2 ^ e).
  { assert (E : 2 ^ e == 2 ^ (e - 52) * 2 ^ 52).
    { rewrite <- pow2_plus. replace (e - 52 + 52)%Z with e by lia. reflexivity. }
    rewrite E. unfold unitRoundoff.
    change (2 ^ 52) with (4503599627370496 # 1). set (p := 2 ^ (e - 52)).
    field. }
  set (p := 2 ^ (e - 52)) in *.
  assert (H1 : (s - (1 # 2)) * p <= m * p) by (apply Qmult_le_compat_r; lra).
  assert (H2 : m * p <= (s + (1 # 2)) * p) by (apply Qmult_le_compat_r; lra).
  assert (Hu : unitRoundoff * 2 ^ e <= unitRoundoff * x).
  { unfold unitRoundoff. lra. }
  split; nra.
Qed.

Lemma roundPositive_mono (x y : Q) :
  0 < x -> x <= y -> roundPositive x <= roundPositive y.
Proof.
  intros Hx Hxy. assert (Hy : 0 < y) by lra.
  pose proof (exponent_mono x y Hx Hxy) as He.
  destruct (Z.eq_dec (exponent x) (exponent y)) as [E|Hne].
  - unfold roundPositive. rewrite <- E.
    pose proof (pow2_pos (52 - exponent x)) as P1.
    pose proof (pow2_pos (exponent x - 52)) as P2.
    apply Qmult_le_compat_r; [|lra].
    rewrite <- Zle_Qle. apply nearestEven_mono.
    apply Qmult_le_compat_r; lra.
  - destruct (roundPositive_bounds x Hx) as [_ Bx].
    destruct (roundPositive_bounds y Hy) as [By _].
    pose proof (pow2_le (exponent x + 1) (exponent y) ltac:(lia)). lra.
Qed.

Lemma roundPositive_pos (x : Q) : 0 < x -> 0 < roundPositive x.
Proof.
  intros Hx. destruct (roundPositive_bounds x Hx) as [B _].
  pose proof (pow2_pos (exponent x)). lra.
Qed.

Lemma round_pos (x : Q) : 0 < x -> Double.round x = roundPositive x.
Proof. intros H. unfold Double.round. apply ltb_lt in H. now rewrite H. Qed.

Lemma round_zero (x : Q) : x == 0 -> Double.round x = 0.
Proof.
  intros H. unfold Double.round.
  assert (E1 : Js.ltb 0 x = false) by (apply ltb_ge; lra).
  assert (E2 : Js.ltb x 0 = false) by (apply ltb_ge; lra).
  now rewrite E1, E2.
Qed.

Lemma round_neg (x : Q) : x < 0 -> Double.round x = - roundPositive (- x).
Proof.
  intros H. unfold Double.round.
  assert (E1 : Js.ltb 0 x = false) by (apply ltb_ge; lra).
  apply ltb_lt in H. now rewrite E1, H.
Qed.

(** Rounding keeps the order. *)
Lemma round_mono (x y : Q) : x <= y -> Double.round x <= Double.round y.
Proof.
  intros Hxy.
  destruct (Q_dec x 0) as [[Hx|Hx]|Hx]; destruct (Q_dec y 0) as [[Hy|Hy]|Hy];
    try (exfalso; lra).
  - rewrite (round_neg x Hx), (round_neg y Hy).
    pose proof (roundPositive_mono (- y) (- x) ltac:(lra) ltac:(lra)). lra.
  - rewrite (round_neg x Hx), (round_pos y Hy).
    pose proof (roundPositive_pos (- x) ltac:(lra)).
    pose proof (roundPositive_pos y Hy). lra.
  - rewrite (round_neg x Hx), (round_zero y Hy).
    pose proof (roundPositive_pos (- x) ltac:(lra)). lra.
  - rewrite (round_pos x Hx), (round_pos y Hy). now apply roundPositive_mono.
  - rewrite (round_zero x Hx), (round_pos y Hy).
    pose proof (roundPositive_pos y Hy). lra.
  - rewrite (round_zero x Hx), (round_zero y Hy). lra.
Qed.

#[global] Instance round_Proper : Proper (Qeq ==> Qeq) Double.round.
Proof.
  intros x y E. apply Qle_antisym; apply round_mono; rewrite E; lra.
Qed.

#[global] Instance add_Proper : Proper (Qeq ==> Qeq ==> Qeq) Double.add.
Proof. intros x x' Ex y y' Ey. unfold Double.add. now rewrite Ex, Ey. Qed.

#[global] Instance mul_Proper : Proper (Qeq ==> Qeq ==> Qeq) Double.mul.
Proof. intros x x' Ex y y' Ey. unfold Double.mul. now rewrite Ex, Ey. Qed.

#[global] Instance div_Proper : Proper (Qeq ==> Qeq ==> Qeq) Double.div.
Proof. intros x x' Ex y y' Ey. unfold Double.div. now rewrite Ex, Ey. Qed.

(** A positive number stays positive, and 0 stays 0. *)
Lemma round_positive (x : Q) : 0 < x -> 0 < Double.round x.
Proof. intros H. rewrite (round_pos x H). now apply roundPositive_pos. Qed.

Lemma round_nonneg (x : Q) : 0 <= x -> 0 <= Double.round x.
Proof.
  intros H. change 0 with (Double.round 0) at 1. now apply round_mono.
Qed.

(** The relative error of one rounding is at most [2^-53]. *)
Lemma round_error (x : Q) :
  0 <= x ->
  x - unitRoundoff * x <= Double.round x <= x + unitRoundoff * x.
Proof.
  intros H. destruct (Q_dec x 0) as [[Hx|Hx]|Hx]; [exfalso; lra | |].
  - rewrite (round_pos x Hx). now apply roundPositive_error.
  - rewrite (round_zero x Hx). unfold unitRoundoff. lra.
Qed.

(** Rounding below a bound [b] that is itself a double. *)
Lemma round_within (x b : Q) :
  0 <= x <= b -> Double.round b == b ->
  0 <= Double.round x <= b
  /\ x - unitRoundoff * b <= Double.round x <= x + unitRoundoff * b.
Proof.
  intros [H0 Hb] Eb.
  pose proof (round_nonneg x H0) as R0.
  pose proof (round_mono x b Hb) as R1. rewrite Eb in R1.
  destruct (round_error x H0) as [E1 E2].
  unfold unitRoundoff in *. repeat split; lra.
Qed.

End DoubleFacts.

(** ** The overall confidence ([calculateConfidence]) *)

Section Confidence.

Import ContentAnalyzer.

Lemma lengthFactor_min (text : string) :
  Js.min (Js.ofNat (String.length text) / 500) 1 == Spec.lengthFactor text.
Proof. unfold Spec.lengthFactor, Js.ofNat. apply min_Qmin. Qed.

Lemma round_one : Double.round 1 == 1.
Proof. vm_compute. reflexivity. Qed.

Lemma round_two : Double.round 2 == 2.
Proof. vm_compute. reflexivity. Qed.

Lemma round_three : Double.round 3 == 3.
Proof. vm_compute. reflexivity. Qed.

Lemma round_four : Double.round 4 == 4.
Proof. vm_compute. reflexivity. Qed.

Lemma round_half : Double.round (1 # 2) == 1 # 2.
Proof. vm_compute. reflexivity. Qed.

(** Capping at 1 and rounding commute. *)
Lemma min_one_round (q : Q) :
  Js.min (Double.round q) 1 == Double.round (Qmin q 1).
Proof.
  unfold Js.min. destruct (Qlt_le_dec 1 q) as [H|H].
  - rewrite (Q.min_r q 1) by lra. rewrite round_one.
    pose proof (round_mono 1 q ltac:(lra)) as M. rewrite round_one in M.
    destruct (Js.ltb 1 (Double.round q)) eqn:E; [reflexivity|].
    apply ltb_ge in E. lra.
  - rewrite (Q.min_l q 1) by lra.
    pose proof (round_mono q 1 H) as M. rewrite round_one in M.
    assert (E : Js.ltb 1 (Double.round q) = false) by (apply ltb_ge; exact M).
    rewrite E. reflexivity.
Qed.

(** The length factor that [calculateConfidence] adds is the double
    nearest to the exact one. *)
Lemma lengthFactor_double (text : string) :
  Js.min (Double.div (Js.ofNat (String.length text)) 500) 1
  == Double.round (Spec.lengthFactor text).
Proof. unfold Double.div, Spec.lengthFactor, Js.ofNat. apply min_one_round. Qed.

(** [calculateConfidence] is the double-precision mean of the terms that
    are present: four when some category matched, three otherwise. *)
Lemma calculateConfidence_doubleMean (analysis : TicketAnalysis.t) (text : string) :
  calculateConfidence analysis text
  == Spec.doubleMean (Spec.presentTerms analysis text).
Proof.
  unfold calculateConfidence, Spec.doubleMean, Spec.presentTerms.
  destruct (TicketAnalysis.categories analysis) as [|top rest];
    cbn [app fold_left length].
  - change (Js.ltb 0 (0 + 1 + 1 + 1)) with true. cbv iota.
    rewrite lengthFactor_double. reflexivity.
  - change (Js.ltb 0 (0 + 1 + 1 + 1 + 1)) with true. cbv iota.
    rewrite lengthFactor_double. reflexivity.
Qed.

(** The exact mean of the terms that are present. *)
Lemma mean_presentTerms (analysis : TicketAnalysis.t) (text : string) :
  Spec.mean (Spec.presentTerms analysis text)
  == match TicketAnalysis.categories analysis with
     | _ :: _ => Spec.meanOfFour analysis text
     | [] =>
         (PriorityAnalysis.confidence (TicketAnalysis.priority analysis)
          + SentimentAnalysis.confidence (TicketAnalysis.sentiment analysis)
          + Spec.lengthFactor text) / 3
     end.
Proof.
  unfold Spec.mean, Spec.presentTerms, Spec.meanOfFour, Spec.topCategoryConfidence.
  destruct (TicketAnalysis.categories analysis) as [|top rest];
    cbn [app fold_right length]; field.
Qed.

(** Three terms between 0 and 1: the double-precision mean lies between
    0 and 1 and within [2^-50] of the exact mean. *)
Lemma doubleMean_three (p s l : Q) :
  0 <= p <= 1 -> 0 <= s <= 1 -> 0 <= l <= 1 ->
  let m := Spec.doubleMean [p; s; l] in
  0 <= m <= 1
  /\ (0 < p -> 0 < m)
  /\ - Spec.meanTolerance <= m - (p + s + l) / 3 <= Spec.meanTolerance.
Proof.
  intros Hp Hs Hl. cbv zeta. unfold Spec.doubleMean, Double.add, Double.div.
  cbn [fold_left length].
  destruct (round_within p 1 Hp round_one) as [Bp Ep].
  set (p' := Double.round p) in *.
  destruct (round_within (0 + p') 1 ltac:(lra) round_one) as [B1 E1].
  set (t1 := Double.round (0 + p')) in *.
  destruct (round_within s 1 Hs round_one) as [Bs Es].
  set (s' := Double.round s) in *.
  destruct (round_within (t1 + s') 2 ltac:(lra) round_two) as [B2 E2].
  set (t2 := Double.round (t1 + s')) in *.
  destruct (round_within l 1 Hl round_one) as [Bl El].
  set (l' := Double.round l) in *.
  destruct (round_within (t2 + l') 3 ltac:(lra) round_three) as [B3 E3].
  set (t3 := Double.round (t2 + l')) in *.
  change (inject_Z (Z.of_nat 3)) with 3.
  assert (Ed : t3 / 3 * 3 == t3) by (field; discriminate).
  set (d := t3 / 3) in *.
  destruct (round_within d 1 ltac:(lra) round_one) as [Bd Edd].
  split; [exact Bd|]. split.
  - intros Hpos.
    assert (P0 : 0 < p') by (now apply round_positive).
    assert (P1 : 0 < t1) by (apply round_positive; lra).
    assert (P2 : 0 < t2) by (apply round_positive; lra).
    assert (P3 : 0 < t3) by (apply round_positive; lra).
    apply round_positive. lra.
  - assert (Ee : (p + s + l) / 3 * 3 == p + s + l) by (field; discriminate).
    set (e := (p + s + l) / 3) in *.
    unfold Double.unitRoundoff, Spec.meanTolerance in *. split; lra.
Qed.

(** The same for four terms. *)
Lemma doubleMean_four (c p s l : Q) :
  0 <= c <= 1 -> 0 <= p <= 1 -> 0 <= s <= 1 -> 0 <= l <= 1 ->
  let m := Spec.doubleMean [c; p; s; l] in
  0 <= m <= 1
  /\ (0 < p -> 0 < m)
  /\ - Spec.meanTolerance <= m - (c + p + s + l) / 4 <= Spec.meanTolerance.
Proof.
  intros Hc Hp Hs Hl. cbv zeta. unfold Spec.doubleMean, Double.add, Double.div.
  cbn [fold_left length].
  destruct (round_within c 1 Hc round_one) as [Bc Ec].
  set (c' := Double.round c) in *.
  destruct (round_within (0 + c') 1 ltac:(lra) round_one) as [B0 E0].
  set (t0 := Double.round (0 + c')) in *.
  destruct (round_within p 1 Hp round_one) as [Bp Ep].
  set (p' := Double.round p) in *.
  destruct (round_within (t0 + p') 2 ltac:(lra) round_two) as [B1 E1].
  set (t1 := Double.round (t0 + p')) in *.
  destruct (round_within s 1 Hs round_one) as [Bs Es].
  set (s' := Double.round s) in *.
  destruct (round_within (t1 + s') 3 ltac:(lra) round_three) as [B2 E2].
  set (t2 := Double.round (t1 + s')) in *.
  destruct (round_within l 1 Hl round_one) as [Bl El].
  set (l' := Double.round l) in *.
  destruct (round_within (t2 + l') 4 ltac:(lra) round_four) as [B3 E3].
  set (t3 := Double.round (t2 + l')) in *.
  change (inject_Z (Z.of_nat 4)) with 4.
  assert (Ed : t3 / 4 * 4 == t3) by (field; discriminate).
  set (d := t3 / 4) in *.
  destruct (round_within d 1 ltac:(lra) round_one) as [Bd Edd].
  split; [exact Bd|]. split.
  - intros Hpos.
    assert (P0 : 0 < p') by (now apply round_positive).
    assert (P1 : 0 < t1) by (apply round_positive; lra).
    assert (P2 : 0 < t2) by (apply round_positive; lra).
    assert (P3 : 0 < t3) by (apply round_positive; lra).
    apply round_positive. lra.
  - assert (Ee : (c + p + s + l) / 4 * 4 == c + p + s + l) by (field; discriminate).
    set (e := (c + p + s + l) / 4) in *.
    unfold Double.unitRoundoff, Spec.meanTolerance in *. split; lra.
Qed.

(** The fields that [analyzeTicket] fills in. *)
Lemma analyzeTicket_fields (this : t) (ticket : ZendeskTicket.t) :
  let a := analyzeTicket this ticket in
  let text := ticketText ticket in
  TicketAnalysis.ticketId a = ZendeskTicket.id ticket
  /\ TicketAnalysis.categories a = categorizeContent this text
  /\ TicketAnalysis.priority a = analyzePriority this text
  /\ TicketAnalysis.sentiment a = analyzeSentiment this text
  /\ TicketAnalysis.products a = analyzeProducts this text.
Proof. cbv zeta. unfold analyzeTicket. cbn. repeat split. Qed.

(** The confidence that [analyzeTicket] stores is that of
    [calculateConfidence] on the analysed text. *)
Lemma analyzeTicket_confidence (this : t) (ticket : ZendeskTicket.t) :
  TicketAnalysis.confidence (analyzeTicket this ticket)
  = calculateConfidence (analyzeTicket this ticket) (ticketText ticket).
Proof. reflexivity. Qed.

End Confidence.

(** ** Texts without any keyword *)

Section NoKeyword.

Import ContentAnalyzer.

Lemma fold_left_unchanged {A B} (f : A -> B -> A) (l : list B) (a : A) :
  Forall (fun b => forall a', f a' b = a') l -> fold_left f l a = a.
Proof.
  intros H. revert a. induction H as [|b l Hb _ IH]; intros a; simpl.
  - reflexivity.
  - rewrite Hb. apply IH.
Qed.

Lemma Forall_flat_map_entry {K V} (P : string -> Prop) (f : K * V -> list string)
    (table : list (K * V)) :
  Forall P (flat_map f table) -> Forall (fun e => Forall P (f e)) table.
Proof.
  induction table as [|e table IH]; simpl; intros H.
  - constructor.
  - apply Forall_app in H. destruct H as [He Ht]. constructor; auto.
Qed.

Variable text : string.

Local Abbreviation absent := (Spec.absent text).

Lemma scanCategory_absent (config : KeywordRule.t) :
  Forall absent (KeywordRule.keywords config) ->
  scanCategory text config = (0, []).
Proof.
  intros H. unfold scanCategory. apply fold_left_unchanged.
  eapply Forall_impl; [exact H|]. intros keyword Hk [score matched].
  unfold Spec.absent in Hk. cbv beta. now rewrite Hk.
Qed.

Lemma categorizeContent_absent (this : t) :
  Forall absent (flat_map (fun e => KeywordRule.keywords (snd e)) (categoryKeywords this)) ->
  categorizeContent this text = [].
Proof.
  intros H. apply Forall_flat_map_entry in H.
  unfold categorizeContent. rewrite fold_left_unchanged; [reflexivity|].
  eapply Forall_impl; [exact H|]. intros [category config] Hc categories.
  cbn in Hc. cbv beta iota. now rewrite (scanCategory_absent config Hc).
Qed.

Lemma scanPriority_absent (this : t) :
  Forall absent (flat_map (fun e => KeywordRule.keywords (snd e)) (priorityKeywords this)) ->
  scanPriority this text = mkScan "normal" 0 [].
Proof.
  intros H. apply Forall_flat_map_entry in H.
  unfold scanPriority. apply fold_left_unchanged.
  eapply Forall_impl; [exact H|]. intros [priority config] Hc st.
  cbn in Hc. unfold scanPriorityTier. apply fold_left_unchanged.
  eapply Forall_impl; [exact Hc|]. intros keyword Hk st'.
  unfold Spec.absent in Hk. unfold scanPriorityKeyword. now rewrite Hk.
Qed.

Lemma countWords_absent (words : list string) :
  Forall absent words -> countWords text words = (0, []).
Proof.
  intros H. unfold countWords. apply fold_left_unchanged.
  eapply Forall_impl; [exact H|]. intros word Hw [n found].
  unfold Spec.absent in Hw. cbv beta. now rewrite Hw.
Qed.

Lemma filter_absent (keywords : list string) :
  Forall absent keywords -> List.filter (Js.includes text) keywords = [].
Proof.
  induction 1 as [|k l Hk _ IH]; simpl; [reflexivity|].
  unfold Spec.absent in Hk. now rewrite Hk.
Qed.

Lemma analyzeProducts_absent (this : t) :
  Forall absent (flat_map snd (productKeywords this)) ->
  analyzeProducts this text = [].
Proof.
  intros H. apply Forall_flat_map_entry in H.
  unfold analyzeProducts. rewrite fold_left_unchanged; [reflexivity|].
  eapply Forall_impl; [exact H|]. intros [product keywords] Hc products.
  cbn in Hc. cbv beta iota zeta. now rewrite (filter_absent keywords Hc).
Qed.

End NoKeyword.

Section NoKeywordTicket.

Import ContentAnalyzer.

(** What [analyzeTicket] returns for a text without any keyword. *)
Lemma no_keyword_analysis (this : t) (ticket : ZendeskTicket.t) :
  Spec.noKeywordOccurs this (ticketText ticket) ->
  let a := analyzeTicket this ticket in
  TicketAnalysis.categories a = []
  /\ TicketAnalysis.priority a = PriorityAnalysis.mk "normal" 0 [] (1 # 2)
  /\ TicketAnalysis.sentiment a = SentimentAnalysis.mk "neutral" 0 [] [] (0 # 3)
  /\ TicketAnalysis.products a = []
  /\ TicketAnalysis.confidence a
     == Spec.doubleMean [1 # 2; 0; Spec.lengthFactor (ticketText ticket)].
Proof.
  intros H. cbv zeta.
  unfold Spec.noKeywordOccurs, Spec.allKeywords in H.
  rewrite !Forall_app in H. destruct H as (Hc & Hp & Hpos & Hneg & Hprod).
  pose proof (calculateConfidence_doubleMean (analyzeTicket this ticket)
                (ticketText ticket)) as Hconf.
  rewrite <- analyzeTicket_confidence in Hconf.
  destruct (analyzeTicket_fields this ticket) as (_ & Ecat & Epri & Esen & Eprod).
  cbv zeta in Ecat, Epri, Esen, Eprod.
  set (a := analyzeTicket this ticket) in *.
  set (text := ticketText ticket) in *.
  rewrite (categorizeContent_absent _ this Hc) in Ecat.
  rewrite (analyzeProducts_absent _ this Hprod) in Eprod.
  assert (Ep : TicketAnalysis.priority a = PriorityAnalysis.mk "normal" 0 [] (1 # 2)).
  { rewrite Epri. unfold analyzePriority.
    rewrite (scanPriority_absent _ this Hp). reflexivity. }
  assert (Es : TicketAnalysis.sentiment a
               = SentimentAnalysis.mk "neutral" 0 [] [] (0 # 3)).
  { rewrite Esen. unfold analyzeSentiment.
    rewrite (countWords_absent _ _ Hpos), (countWords_absent _ _ Hneg).
    reflexivity. }
  split; [exact Ecat|]. split; [exact Ep|]. split; [exact Es|]. split; [exact Eprod|].
  rewrite Hconf. unfold Spec.presentTerms. rewrite Ecat, Ep, Es.
  cbn [app PriorityAnalysis.confidence SentimentAnalysis.confidence].
  unfold Spec.doubleMean. cbn [fold_left length].
  assert (E0 : 0 # 3 == 0) by reflexivity.
  now rewrite E0.
Qed.

(** Without a keyword the confidence never exceeds 1/2. *)
Lemma doubleMean_no_keyword_bound (l : Q) :
  0 <= l <= 1 -> Spec.doubleMean [1 # 2; 0; l] <= 1 # 2.
Proof.
  intros Hl. unfold Spec.doubleMean, Double.add, Double.div. cbn [fold_left length].
  assert (T : Double.round (Double.round (0 + Double.round (1 # 2)) + Double.round 0)
              == 1 # 2) by (vm_compute; reflexivity).
  rewrite T.
  destruct (round_within l 1 Hl round_one) as [[_ Bl] _].
  assert (R : Double.round (3 # 2) == 3 # 2) by (vm_compute; reflexivity).
  pose proof (round_mono ((1 # 2) + Double.round l) (3 # 2) ltac:(lra)) as M.
  rewrite R in M. set (t := Double.round ((1 # 2) + Double.round l)) in *.
  change (inject_Z (Z.of_nat 3)) with 3.
  rewrite <- round_half. apply round_mono.
  apply Qle_shift_div_r; lra.
Qed.

(** The confidence of the keyword-free texts of fewer than 500 characters,
    length by length: it is at most the length factor from 125 characters
    on, whether the length factor is taken exactly or as a double. *)
Lemma no_keyword_lengths :
  forallb
    (fun n =>
       let l := Qmin (inject_Z (Z.of_nat n) / 500) 1 in
       Bool.eqb (Qle_bool (Spec.doubleMean [1 # 2; 0; l]) l) (125 <=? n)%nat
       && Bool.eqb (Qle_bool (Spec.doubleMean [1 # 2; 0; l]) (Double.round l))
            (125 <=? n)%nat)
    (seq 0 500) = true.
Proof. vm_compute. reflexivity. Qed.

Lemma no_keyword_quarter (text : string) :
  let l := Spec.lengthFactor text in
  (Spec.doubleMean [1 # 2; 0; l] <= l <-> (125 <= String.length text)%nat)
  /\ (Spec.doubleMean [1 # 2; 0; l] <= Double.round l
      <-> (125 <= String.length text)%nat).
Proof.
  cbv zeta. unfold Spec.lengthFactor. set (n := String.length text).
  destruct (Nat.lt_ge_cases n 500) as [Hn|Hn].
  - pose proof no_keyword_lengths as H. rewrite forallb_forall in H.
    specialize (H n). cbv zeta beta in H.
    assert (Hin : In n (seq 0 500)) by (apply in_seq; lia).
    apply H, andb_prop in Hin. destruct Hin as [H1 H2].
    apply eqb_prop in H1, H2. rewrite <- Qle_bool_iff, <- Qle_bool_iff, H1, H2.
    split; apply Nat.leb_le.
  - assert (E : Qmin (inject_Z (Z.of_nat n) / 500) 1 == 1).
    { apply Q.min_r. apply Qle_shift_div_l; [lra|].
      change (1 * 500) with (inject_Z 500). rewrite <- Zle_Qle. lia. }
    set (l := Qmin (inject_Z (Z.of_nat n) / 500) 1) in *.
    assert (Hl : 0 <= l <= 1) by lra.
    pose proof (doubleMean_no_keyword_bound l Hl) as B.
    assert (R : Double.round l == 1) by (rewrite E; apply round_one).
    split; split; intros _; try lia; lra.
Qed.

(** C4, as the code has it: a text without any keyword gets the neutral
    defaults, and its overall confidence is the double-precision mean of
    the three terms priority (1/2), sentiment (0) and length factor, which
    is within [2^-50] of (1/2 + length factor) / 3.  That value stays at
    or below the length factor exactly for texts of 125 characters or
    more. *)
Theorem analyzeTicket_no_keyword_defaults (this : t) (ticket : ZendeskTicket.t) :
  Spec.noKeywordOccurs this (ticketText ticket) ->
  let a := analyzeTicket this ticket in
  let text := ticketText ticket in
  PriorityAnalysis.level (TicketAnalysis.priority a) = "normal"
  /\ SentimentAnalysis.sentiment (TicketAnalysis.sentiment a) = "neutral"
  /\ TicketAnalysis.categories a = []
  /\ TicketAnalysis.products a = []
  /\ TicketAnalysis.confidence a
     == Spec.doubleMean [1 # 2; 0; Spec.lengthFactor text]
  /\ - Spec.meanTolerance
     <= TicketAnalysis.confidence a - ((1 # 2) + Spec.lengthFactor text) / 3
     <= Spec.meanTolerance
  /\ (TicketAnalysis.confidence a <= Spec.lengthFactor text
      <-> (125 <= String.length text)%nat)
  /\ (TicketAnalysis.confidence a <= Double.round (Spec.lengthFactor text)
      <-> (125 <= String.length text)%nat).
Proof.
  intros H. cbv zeta.
  destruct (no_keyword_analysis this ticket H) as (Ecat & Ep & Es & Eprod & E).
  cbv zeta in *. rewrite Ep, Es.
  cbn [PriorityAnalysis.level SentimentAnalysis.sentiment].
  split; [reflexivity|]. split; [reflexivity|]. split; [exact Ecat|].
  split; [exact Eprod|]. split; [exact E|].
  assert (Hl : 0 <= Spec.lengthFactor (ticketText ticket) <= 1).
  { unfold Spec.lengthFactor. split; [|apply Q.le_min_r].
    apply Q.min_glb; [|lra]. apply Qle_shift_div_l; [lra|].
    change (0 * 500) with (inject_Z 0). rewrite <- Zle_Qle. lia. }
  destruct (doubleMean_three (1 # 2) 0 (Spec.lengthFactor (ticketText ticket))
              ltac:(lra) ltac:(lra) Hl) as (_ & _ & Herr).
  cbv zeta in Herr.
  destruct (no_keyword_quarter (ticketText ticket)) as [Q1 Q2]. cbv zeta in Q1, Q2.
  rewrite E. split; [|split; [exact Q1 | exact Q2]].
  assert (E3 : ((1 # 2) + 0 + Spec.lengthFactor (ticketText ticket)) / 3
               == ((1 # 2) + Spec.lengthFactor (ticketText ticket)) / 3)
    by (field; discriminate).
  rewrite <- E3. exact Herr.
Qed.

(** The theorem at a ticket without any keyword. *)
Lemma analyzeTicket_no_keyword_defaults_witness :
  let ticket := ticketWithSubject 7 "Hello there" in
  Spec.noKeywordOccurs constructor (ticketText ticket)
  /\ TicketAnalysis.categories (analyzeTicket constructor ticket) = []
  /\ TicketAnalysis.confidence (analyzeTicket constructor ticket)
     == Spec.doubleMean [1 # 2; 0; Spec.lengthFactor (ticketText ticket)].
Proof.
  cbv zeta.
  assert (H : Spec.noKeywordOccurs constructor
                (ticketText (ticketWithSubject 7 "Hello there"))).
  { unfold Spec.noKeywordOccurs. vm_compute. repeat constructor. }
  split; [exact H|].
  pose proof (analyzeTicket_no_keyword_defaults constructor
                (ticketWithSubject 7 "Hello there") H) as T.
  cbv zeta in T. split; apply T.
Defined.

(** C4 fails as stated: "hello" contains no keyword, yet its confidence,
    the double nearest to 0.17, is above its length factor 5/500 = 0.01,
    because the priority term is 1/2 when nothing matched. *)
Lemma analyzeTicket_no_keyword_confidence_above_length_factor :
  let ticket := ticketWithSubject 1 "hello" in
  let a := analyzeTicket constructor ticket in
  Spec.noKeywordOccurs constructor (ticketText ticket)
  /\ Spec.lengthFactor (ticketText ticket) == 1 # 100
  /\ TicketAnalysis.confidence a == 6124895493223875 # 36028797018963968
  /\ 16 # 100 < TicketAnalysis.confidence a
  /\ ~ TicketAnalysis.confidence a <= Spec.lengthFactor (ticketText ticket).
Proof.
  cbv zeta. split; [|split; [|split; [|split]]].
  - unfold Spec.noKeywordOccurs. vm_compute. repeat constructor.
  - vm_compute. reflexivity.
  - vm_compute. reflexivity.
  - vm_compute. reflexivity.
  - vm_compute. intros H. apply H. reflexivity.
Qed.

End NoKeywordTicket.

(** ** Priority ([analyzePriority]) *)

Section Priority.

Import ContentAnalyzer.

Variable text : string.

Lemma filter_nonempty_tierMatches (rule : KeywordRule.t) :
  List.filter (Js.includes text) (KeywordRule.keywords rule) <> []
  <-> Spec.tierMatches text rule.
Proof.
  unfold Spec.tierMatches.
  induction (KeywordRule.keywords rule) as [|k l IH]; simpl.
  - split; [congruence | intros [kw [[] _]]].
  - destruct (Js.includes text k) eqn:Ek.
    + split; [|discriminate]. intros _. exists k. auto.
    + rewrite IH. split; intros [kw [Hin Hkw]]; exists kw.
      * auto.
      * destruct Hin as [->|Hin]; [congruence | auto].
Qed.

(** One tier of the scan, in closed form: nothing changes unless one of
    its keywords occurs; then every occurring keyword is recorded, and the
    tier takes the lead if its weight is above the score so far. *)
Lemma scanPriorityTier_closed (priority : string) (config : KeywordRule.t)
    (st : PriorityScan) :
  scanPriorityTier text st (priority, config) =
    match List.filter (Js.includes text) (KeywordRule.keywords config) with
    | [] => st
    | m =>
        if Js.ltb (scanScore st) (KeywordRule.weight config)
        then mkScan priority (KeywordRule.weight config) (scanMatched st ++ m)
        else mkScan (highestPriority st) (scanScore st) (scanMatched st ++ m)
    end.
Proof.
  unfold scanPriorityTier. revert st.
  induction (KeywordRule.keywords config) as [|k l IH]; intros st; simpl.
  - reflexivity.
  - unfold scanPriorityKeyword at 2. destruct (Js.includes text k) eqn:Ek.
    + rewrite IH. clear IH.
      destruct (Js.ltb (scanScore st) (KeywordRule.weight config)) eqn:El;
        cbn [scanScore highestPriority scanMatched].
      * unfold Js.ltb at 1. rewrite Z.ltb_irrefl.
        destruct (List.filter (Js.includes text) l);
          [reflexivity | now rewrite <- app_assoc].
      * rewrite El.
        destruct (List.filter (Js.includes text) l);
          [destruct st; reflexivity | now rewrite <- app_assoc].
    + apply IH.
Qed.

Lemma scanned_step seen st priority config :
  0 < KeywordRule.weight config ->
  Invariant.scanned text seen st ->
  Invariant.scanned text (seen ++ [(priority, config)]) (scanPriorityTier text st (priority, config)).
Proof.
  intros Hpos (Hm & Hbound & Horigin).
  rewrite scanPriorityTier_closed.
  pose proof (filter_nonempty_tierMatches config) as Hhit.
  assert (Hkw : List.filter (Js.includes text)
                  (Spec.tableKeywords (seen ++ [(priority, config)]))
                = scanMatched st
                  ++ List.filter (Js.includes text) (KeywordRule.keywords config)).
  { unfold Spec.tableKeywords. rewrite flat_map_app, List.filter_app. simpl.
    rewrite app_nil_r. now rewrite Hm. }
  destruct (List.filter (Js.includes text) (KeywordRule.keywords config))
    as [|k m] eqn:Em.
  - (* no keyword of this tier occurs *)
    split; [|split].
    + rewrite Hkw. now rewrite app_nil_r.
    + intros name rule Hin Hr. apply in_app_or in Hin.
      destruct Hin as [Hin|[Heq|[]]]; [eauto|].
      inversion Heq; subst. apply Hhit in Hr. congruence.
    + destruct Horigin as [H0|(name & rule & Hin & Hr & Hn & Hs)]; [now left|].
      right. exists name, rule. repeat split; auto. apply in_or_app. now left.
  - assert (Hc : Spec.tierMatches text config) by (apply Hhit; discriminate).
    destruct (Js.ltb (scanScore st) (KeywordRule.weight config)) eqn:El.
    + (* the tier takes the lead *)
      apply ltb_lt in El. split; [|split]; cbn [scanMatched scanScore highestPriority].
      * now rewrite Hkw.
      * intros name rule Hin Hr. apply in_app_or in Hin.
        destruct Hin as [Hin|[Heq|[]]].
        -- apply Qlt_le_weak. eapply Qle_lt_trans; [eapply Hbound; eauto | exact El].
        -- inversion Heq; subst. apply Qle_refl.
      * right. exists priority, config. repeat split; auto.
        apply in_or_app. right. now left.
    + (* an earlier tier keeps the lead *)
      apply ltb_ge in El. split; [|split]; cbn [scanMatched scanScore highestPriority].
      * now rewrite Hkw.
      * intros name rule Hin Hr. apply in_app_or in Hin.
        destruct Hin as [Hin|[Heq|[]]]; [eauto|].
        inversion Heq; subst. exact El.
      * destruct Horigin as [[H0 _]|(name & rule & Hin & Hr & Hn & Hs)].
        -- rewrite H0 in El. exfalso. eapply Qlt_not_le; eauto.
        -- right. exists name, rule. repeat split; auto. apply in_or_app. now left.
Qed.

Lemma scanned_fold (table seen : list (string * KeywordRule.t)) (st : PriorityScan) :
  Forall (fun e => 0 < KeywordRule.weight (snd e)) table ->
  Invariant.scanned text seen st ->
  Invariant.scanned text (seen ++ table) (fold_left (scanPriorityTier text) table st).
Proof.
  intros Hpos. revert seen st.
  induction Hpos as [|[priority config] table Hw _ IH]; intros seen st Hst; simpl.
  - now rewrite app_nil_r.
  - replace (seen ++ (priority, config) :: table)
      with ((seen ++ [(priority, config)]) ++ table)
      by now rewrite <- app_assoc.
    apply IH. now apply scanned_step.
Qed.

(** The scan over a table whose weights are all positive. *)
Lemma scanPriority_scanned (this : t) :
  Forall (fun e => 0 < KeywordRule.weight (snd e)) (priorityKeywords this) ->
  Invariant.scanned text (priorityKeywords this) (scanPriority this text).
Proof.
  intros Hpos. unfold scanPriority.
  apply (scanned_fold (priorityKeywords this) [] _ Hpos).
  split; [reflexivity|]. split; [intros ? ? []|]. now left.
Qed.

End Priority.

Section PriorityOfTheAnalyzer.

Import ContentAnalyzer.

Lemma constructor_priority_weights_positive :
  Forall (fun e => 0 < KeywordRule.weight (snd e)) (priorityKeywords constructor).
Proof. repeat constructor. Qed.

(** C3: [analyzePriority] records every occurring priority keyword of
    every tier; when none occurs the level is "normal" with confidence
    exactly 1/2; otherwise the level is that of a tier with an occurring
    keyword whose weight is the highest among such tiers (however many
    keywords the other tiers matched), and the confidence is
    min(weight / 3, 1). *)
Theorem analyzePriority_highest_matching_tier (text : string) :
  let p := analyzePriority constructor text in
  let tiers := priorityKeywords constructor in
  PriorityAnalysis.matchedKeywords p
    = List.filter (Js.includes text) (Spec.tableKeywords tiers)
  /\ ((forall name rule, In (name, rule) tiers -> ~ Spec.tierMatches text rule) ->
      PriorityAnalysis.level p = "normal"
      /\ PriorityAnalysis.confidence p = 1 # 2)
  /\ ((exists name rule, In (name, rule) tiers /\ Spec.tierMatches text rule) ->
      exists name rule,
        In (name, rule) tiers /\ Spec.tierMatches text rule
        /\ PriorityAnalysis.level p = name
        /\ (forall name' rule', In (name', rule') tiers ->
            Spec.tierMatches text rule' ->
            KeywordRule.weight rule' <= KeywordRule.weight rule)
        /\ PriorityAnalysis.confidence p == Qmin (KeywordRule.weight rule / 3) 1).
Proof.
  cbv zeta.
  destruct (scanPriority_scanned text constructor
              constructor_priority_weights_positive)
    as (Hm & Hbound & Horigin).
  unfold analyzePriority.
  cbn [PriorityAnalysis.matchedKeywords PriorityAnalysis.level
       PriorityAnalysis.confidence].
  split; [exact Hm|]. split.
  - intros Hnone.
    destruct Horigin as [[H0 Hn]|(name & rule & Hin & Hr & _)].
    + rewrite H0, Hn. split; reflexivity.
    + exfalso. eapply Hnone; eauto.
  - intros (name0 & rule0 & Hin0 & Hr0).
    assert (Hpos : 0 < scanScore (scanPriority constructor text)).
    { eapply Qlt_le_trans; [|eapply Hbound; eauto].
      pose proof constructor_priority_weights_positive as Hw.
      rewrite List.Forall_forall in Hw. apply (Hw (name0, rule0) Hin0). }
    destruct Horigin as [[H0 _]|(name & rule & Hin & Hr & Hn & Hs)].
    + rewrite H0 in Hpos. discriminate.
    + exists name, rule. repeat split; auto.
      * intros name' rule' Hin' Hr'. rewrite <- Hs. eauto.
      * apply ltb_lt in Hpos. rewrite Hpos, Hs. apply min_Qmin.
Qed.

(** The theorem at a text with one "high" keyword and three "low" ones. *)
Lemma analyzePriority_highest_matching_tier_witness :
  let text := "minor cosmetic feedback, but important" in
  (exists name rule,
      In (name, rule) (priorityKeywords constructor) /\ Spec.tierMatches text rule)
  /\ exists name rule,
      In (name, rule) (priorityKeywords constructor)
      /\ Spec.tierMatches text rule
      /\ PriorityAnalysis.level (analyzePriority constructor text) = name
      /\ (forall name' rule', In (name', rule') (priorityKeywords constructor) ->
          Spec.tierMatches text rule' ->
          KeywordRule.weight rule' <= KeywordRule.weight rule)
      /\ PriorityAnalysis.confidence (analyzePriority constructor text)
         == Qmin (KeywordRule.weight rule / 3) 1.
Proof.
  cbv zeta.
  assert (H : exists name rule,
             In (name, rule) (priorityKeywords constructor)
             /\ Spec.tierMatches "minor cosmetic feedback, but important" rule).
  { eexists "low", _. split; [right; right; left; reflexivity|].
    exists "minor". split; [right; right; left; reflexivity | reflexivity]. }
  split; [exact H|].
  apply (analyzePriority_highest_matching_tier
           "minor cosmetic feedback, but important"), H.
Defined.

(** The highest tier wins, not the tier with the most matches: three
    keywords of the "low" tier against one of the "high" tier. *)
Example analyzePriority_weight_beats_count :
  let p := analyzePriority constructor "minor cosmetic feedback, but important" in
  PriorityAnalysis.level p = "high"
  /\ PriorityAnalysis.matchedKeywords p
     = ["important"; "minor"; "cosmetic"; "feedback"]
  /\ PriorityAnalysis.confidence p == 2 # 3.
Proof. cbv zeta. split; [|split]; vm_compute; reflexivity. Qed.

Example analyzePriority_no_match :
  analyzePriority constructor "hello" = PriorityAnalysis.mk "normal" 0 [] (1 # 2).
Proof. vm_compute. reflexivity. Qed.

End PriorityOfTheAnalyzer.

(** ** Sentiment ([analyzeSentiment]) *)

Section Sentiment.

Import ContentAnalyzer.

Lemma ofNat_lt (a b : nat) : Js.ofNat a < Js.ofNat b <-> (a < b)%nat.
Proof. unfold Js.ofNat. rewrite <- Zlt_Qlt. lia. Qed.

Lemma ofNat_S (n : nat) : Js.ofNat (S n) == Js.ofNat n + 1.
Proof. unfold Js.ofNat. rewrite Nat2Z.inj_succ, <- Z.add_1_r, inject_Z_plus. reflexivity. Qed.

Ltac sentiment_fields :=
  cbn [SentimentAnalysis.sentiment SentimentAnalysis.score
       SentimentAnalysis.confidence SentimentAnalysis.positiveWords
       SentimentAnalysis.negativeWords].

Lemma countWords_from (text : string) (words : list string) (n : Q) (found : list string) :
  let r := fold_left
    (fun '(n, found) word =>
       if Js.includes text word then (n + 1, found ++ [word]) else (n, found))
    words (n, found) in
  fst r == n + Js.ofNat (Spec.count text words)
  /\ snd r = found ++ Spec.occurring text words.
Proof.
  cbv zeta. unfold Spec.count, Spec.occurring. revert n found.
  induction words as [|w words IH]; intros n found; simpl.
  - split; [unfold Js.ofNat; simpl; ring | now rewrite app_nil_r].
  - destruct (Js.includes text w).
    + destruct (IH (n + 1) (found ++ [w])) as [E1 E2]. split.
      * rewrite E1. cbn [length]. rewrite ofNat_S. ring.
      * rewrite E2. now rewrite <- app_assoc.
    + apply IH.
Qed.

Lemma countWords_count (text : string) (words : list string) :
  fst (countWords text words) == Js.ofNat (Spec.count text words)
  /\ snd (countWords text words) = Spec.occurring text words.
Proof.
  destruct (countWords_from text words 0 []) as [E1 E2]. split.
  - unfold countWords. rewrite E1. ring.
  - exact E2.
Qed.

(** [analyzeSentiment] on the text it is given: the two word lists are
    counted independently, one per word that occurs in the text; the
    larger count gives the label, their distance the score, and their sum
    over 3, capped at 1, the confidence. *)
Lemma analyzeSentiment_of_text (this : t) (text : string) :
  let s := analyzeSentiment this text in
  let positiveList := SentimentKeywords.positive (sentimentKeywords this) in
  let negativeList := SentimentKeywords.negative (sentimentKeywords this) in
  let positive := Spec.count text positiveList in
  let negative := Spec.count text negativeList in
  SentimentAnalysis.positiveWords s = Spec.occurring text positiveList
  /\ SentimentAnalysis.negativeWords s = Spec.occurring text negativeList
  /\ ((positive < negative)%nat -> SentimentAnalysis.sentiment s = "negative")
  /\ ((negative < positive)%nat -> SentimentAnalysis.sentiment s = "positive")
  /\ (positive = negative -> SentimentAnalysis.sentiment s = "neutral")
  /\ SentimentAnalysis.score s
     == Qabs (inject_Z (Z.of_nat positive) - inject_Z (Z.of_nat negative))
  /\ SentimentAnalysis.confidence s
     == Qmin ((inject_Z (Z.of_nat positive) + inject_Z (Z.of_nat negative)) / 3) 1.
Proof.
  cbv zeta. unfold analyzeSentiment.
  destruct (countWords_count text (SentimentKeywords.positive (sentimentKeywords this)))
    as [Ep Epw].
  destruct (countWords_count text (SentimentKeywords.negative (sentimentKeywords this)))
    as [En Enw].
  destruct (countWords text (SentimentKeywords.positive (sentimentKeywords this)))
    as [positiveScore positiveWords].
  destruct (countWords text (SentimentKeywords.negative (sentimentKeywords this)))
    as [negativeScore negativeWords].
  cbn [fst snd] in Ep, Epw, En, Enw.
  set (p := Spec.count text (SentimentKeywords.positive (sentimentKeywords this))) in *.
  set (n := Spec.count text (SentimentKeywords.negative (sentimentKeywords this))) in *.
  fold (Js.ofNat p) (Js.ofNat n).
  assert (Hconf : Js.min ((positiveScore + negativeScore) / 3) 1
                  == Qmin ((Js.ofNat p + Js.ofNat n) / 3) 1).
  { rewrite min_Qmin, Ep, En. reflexivity. }
  destruct (Js.ltb positiveScore negativeScore) eqn:E1.
  - (* negative *)
    apply ltb_lt in E1. assert (Hlt : (p < n)%nat).
    { apply ofNat_lt. now rewrite <- Ep, <- En. }
    sentiment_fields.
    split; [exact Epw|]. split; [exact Enw|].
    split; [reflexivity|]. split; [lia|]. split; [lia|].
    split; [|exact Hconf].
    rewrite Ep, En in *. rewrite Qabs_neg; [ring | lra].
  - apply ltb_ge in E1.
    destruct (Js.ltb negativeScore positiveScore) eqn:E2.
    + (* positive *)
      apply ltb_lt in E2. assert (Hlt : (n < p)%nat).
      { apply ofNat_lt. now rewrite <- Ep, <- En. }
      sentiment_fields.
      split; [exact Epw|]. split; [exact Enw|].
      split; [lia|]. split; [reflexivity|]. split; [lia|].
      split; [|exact Hconf].
      rewrite Ep, En in *. rewrite Qabs_pos; [ring | lra].
    + (* neutral *)
      apply ltb_ge in E2. assert (Heq : p = n).
      { rewrite Ep, En in E1, E2.
        destruct (Nat.lt_trichotomy p n) as [H|[H|H]]; [|exact H|];
          apply ofNat_lt in H; lra. }
      sentiment_fields.
      split; [exact Epw|]. split; [exact Enw|].
      split; [lia|]. split; [lia|]. split; [reflexivity|].
      split; [|exact Hconf].
      rewrite Heq. rewrite Qabs_pos; [ring | lra].
Qed.

Example analyzeSentiment_angry :
  let s := analyzeSentiment constructor "this is terrible and i hate it, great" in
  SentimentAnalysis.sentiment s = "negative"
  /\ SentimentAnalysis.score s == 1
  /\ SentimentAnalysis.confidence s == 1.
Proof. cbv zeta. split; [|split]; vm_compute; reflexivity. Qed.

(** A word that occurs several times counts once. *)
Example analyzeSentiment_repeated_word :
  let s := analyzeSentiment constructor "great great great" in
  SentimentAnalysis.sentiment s = "positive"
  /\ SentimentAnalysis.score s == 1
  /\ SentimentAnalysis.confidence s == 1 # 3.
Proof. cbv zeta. split; [|split]; vm_compute; reflexivity. Qed.

End Sentiment.

(** ** De-duplication through a [Set] *)

Section Uniq.

Lemma arrayIncludes_In (arr : list string) (x : string) :
  Js.arrayIncludes arr x = true <-> In x arr.
Proof.
  unfold Js.arrayIncludes. rewrite bool_decide_eq_true. apply list_elem_of_In.
Qed.

Lemma arrayIncludes_not_In (arr : list string) (x : string) :
  Js.arrayIncludes arr x = false <-> ~ In x arr.
Proof.
  rewrite <- arrayIncludes_In. destruct (Js.arrayIncludes arr x); split; congruence.
Qed.

Lemma filter_twice {A} (f g : A -> bool) (l : list A) :
  List.filter f (List.filter g l) = List.filter (fun y => g y && f y) l.
Proof.
  induction l as [|a l IH]; simpl; [reflexivity|].
  destruct (g a); simpl; [destruct (f a)|]; now rewrite IH.
Qed.

(** Adding the elements of [l] to a set that holds [acc] appends the
    first occurrences of the elements that [acc] does not have. *)
Lemma uniq_from (l acc : list string) :
  fold_left Js.setAdd l acc
  = acc ++ List.filter (fun y => negb (Js.arrayIncludes acc y)) (Spec.dedupFirst l).
Proof.
  revert acc. induction l as [|x l IH]; intros acc; simpl.
  - now rewrite app_nil_r.
  - rewrite IH. unfold Js.setAdd. rewrite filter_twice.
    destruct (Js.arrayIncludes acc x) eqn:E; simpl.
    + f_equal. apply List.filter_ext. intros y.
      destruct (String.eqb_spec x y) as [->|Hne]; simpl; [now rewrite E | reflexivity].
    + rewrite <- app_assoc. simpl. do 2 f_equal.
      apply List.filter_ext. intros y.
      destruct (Js.arrayIncludes (acc ++ [x]) y) eqn:E1.
      * apply arrayIncludes_In in E1. apply in_app_or in E1.
        destruct E1 as [H|[->|[]]].
        -- apply arrayIncludes_In in H. rewrite H. now rewrite andb_false_r.
        -- now rewrite String.eqb_refl.
      * apply arrayIncludes_not_In in E1.
        assert (Hy : ~ In y acc) by (intros H; apply E1, in_or_app; now left).
        apply arrayIncludes_not_In in Hy. rewrite Hy.
        destruct (String.eqb_spec x y) as [->|Hne]; [|reflexivity].
        exfalso. apply E1, in_or_app. right. now left.
Qed.

Lemma uniq_dedupFirst (l : list string) : Js.uniq l = Spec.dedupFirst l.
Proof.
  unfold Js.uniq. rewrite uniq_from. simpl.
  induction (Spec.dedupFirst l) as [|y d IH]; simpl; [reflexivity | now rewrite IH].
Qed.

Lemma dedupFirst_In (l : list string) (x : string) :
  In x (Spec.dedupFirst l) <-> In x l.
Proof.
  induction l as [|a l IH]; cbn [Spec.dedupFirst]; [reflexivity|].
  split.
  - intros [H|H]; [now left|]. apply List.filter_In in H. right. apply IH, H.
  - intros [H|H]; [now left|].
    destruct (String.eqb_spec a x) as [->|Hne]; [now left|].
    right. apply List.filter_In. split; [now apply IH|].
    destruct (String.eqb_spec a x); [contradiction | reflexivity].
Qed.

Lemma dedupFirst_NoDup (l : list string) : List.NoDup (Spec.dedupFirst l).
Proof.
  induction l as [|a l IH]; cbn [Spec.dedupFirst]; constructor.
  - intros H. apply List.filter_In in H. destruct H as [_ H].
    now rewrite String.eqb_refl in H.
  - now apply List.NoDup_filter.
Qed.

(** De-duplication changes nothing in a list without repetition. *)
Lemma dedupFirst_NoDup_id (l : list string) :
  List.NoDup l -> Spec.dedupFirst l = l.
Proof.
  induction 1 as [|a l Ha _ IH]; simpl; [reflexivity|].
  rewrite IH. f_equal.
  rewrite List.forallb_filter_id; [reflexivity|].
  apply forallb_forall. intros y Hy.
  destruct (String.eqb_spec a y) as [->|Hne]; [contradiction | reflexivity].
Qed.

End Uniq.

(** ** Tag policy ([generateTags]) *)

Section TagPolicy.

Import ContentAnalyzer.

Lemma ltb_dec (x y : Q) : Js.ltb x y = if Qlt_le_dec x y then true else false.
Proof.
  destruct (Qlt_le_dec x y) as [H|H]; [now apply ltb_lt | now apply ltb_ge].
Qed.

Lemma eqb_dec (a b : string) : String.eqb a b = if string_dec a b then true else false.
Proof.
  destruct (string_dec a b) as [->|H]; [apply String.eqb_refl | now apply String.eqb_neq].
Qed.

(** The [switch] is the lookup table. *)
Lemma secondaryTag_lookup (category : string) :
  secondaryTag category
  = match Spec.lookup category Spec.secondaryTable with
    | Some tag => [tag]
    | None => []
    end.
Proof.
  unfold secondaryTag, Spec.secondaryTable, Spec.lookup.
  rewrite !eqb_dec.
  repeat (match goal with |- context [string_dec ?a ?b] => destruct (string_dec a b) end;
          try reflexivity).
Qed.

Lemma secondary_loop (categories : list CategoryAnalysis.t) (tags : list string) :
  fold_left
    (fun tags category =>
       if Js.ltb (6 # 10) (CategoryAnalysis.confidence category)
       then tags ++ secondaryTag (CategoryAnalysis.category category)
       else tags)
    categories tags
  = tags ++ flat_map
      (fun c =>
         if Qlt_le_dec (6 # 10) (CategoryAnalysis.confidence c)
         then match Spec.lookup (CategoryAnalysis.category c) Spec.secondaryTable with
              | Some tag => [tag]
              | None => []
              end
         else [])
      categories.
Proof.
  revert tags. induction categories as [|c categories IH]; intros tags; simpl.
  - now rewrite app_nil_r.
  - rewrite IH, ltb_dec, secondaryTag_lookup.
    destruct (Qlt_le_dec (6 # 10) (CategoryAnalysis.confidence c));
      [now rewrite <- app_assoc | reflexivity].
Qed.

(** The tags that [generateTags] pushes are those of rules 1 to 6, in
    that order. *)
Lemma pushedTags_policy (analysis : TicketAnalysis.t) :
  pushedTags analysis = Spec.policy analysis.
Proof.
  unfold pushedTags, Spec.policy, Spec.categoryRule, Spec.priorityRule,
    Spec.sentimentRule, Spec.productRule, Spec.secondaryRule, Spec.markerTag.
  rewrite secondary_loop. cbv zeta.
  rewrite !eqb_dec.
  set (secondary := flat_map _ _).
  destruct (TicketAnalysis.categories analysis) as [|topCategory ?];
    destruct (TicketAnalysis.products analysis) as [|topProduct ?];
    rewrite ?ltb_dec;
    repeat (match goal with
            | |- context [Qlt_le_dec ?a ?b] => destruct (Qlt_le_dec a b)
            | |- context [string_dec ?a ?b] => destruct (string_dec a b)
            end; cbn [negb andb app]);
    reflexivity.
Qed.

(** C5: [generateTags] returns the tags of the policy rules 1 to 6 with
    every repetition after the first removed: the marker tag comes first,
    no tag occurs twice, and a tag is returned exactly when one of the
    rules prescribes it. *)
Theorem generateTags_policy (analysis : TicketAnalysis.t) :
  generateTags analysis = Spec.dedupFirst (Spec.policy analysis)
  /\ List.NoDup (generateTags analysis)
  /\ hd_error (generateTags analysis) = Some "auto-processed"
  /\ forall tag, In tag (generateTags analysis) <-> In tag (Spec.policy analysis).
Proof.
  assert (E : generateTags analysis = Spec.dedupFirst (Spec.policy analysis)).
  { unfold generateTags. now rewrite uniq_dedupFirst, pushedTags_policy. }
  rewrite E. split; [reflexivity|]. split; [apply dedupFirst_NoDup|].
  split; [reflexivity|]. intros tag. apply dedupFirst_In.
Qed.

(** Scenario A of the specification. *)
Example generateTags_outage :
  TicketAnalysis.suggestedTags
    (analyzeTicket constructor
       (ticketWithSubject 1 "URGENT: production API down, 500 errors, revenue impact"))
  = ["auto-processed"; "category-technical"; "priority-urgent";
     "needs-technical-review"].
Proof. vm_compute. reflexivity. Qed.

(** Two categories above 0.6 give two secondary tags, whichever is on top. *)
Example generateTags_two_secondary :
  TicketAnalysis.suggestedTags
    (analyzeTicket constructor
       (ticketWithSubject 2 "billing invoice charge: server error crash"))
  = ["auto-processed"; "category-technical"; "needs-technical-review";
     "billing-inquiry"].
Proof. vm_compute. reflexivity. Qed.

End TagPolicy.

(** ** Filtering the suggested tags ([filterTags]) *)

Section FilterTags.

Import AutoTagger.

Lemma trimStart_blank (s : string) : Spec.blank (Js.trimStart s) <-> Spec.blank s.
Proof.
  induction s as [|c s IH]; simpl; [reflexivity|].
  destruct (Js.isWhiteSpace c) eqn:E.
  - rewrite IH. tauto.
  - simpl. rewrite E. reflexivity.
Qed.

Lemma trimEnd_empty (s : string) : Js.trimEnd s = "" <-> Spec.blank s.
Proof.
  induction s as [|c s IH]; simpl; [tauto|].
  destruct (Js.trimEnd s) as [|c' s'].
  - destruct (Js.isWhiteSpace c).
    + tauto.
    + split; [discriminate | intros [H _]; discriminate].
  - split; [discriminate|]. intros [_ H]. apply IH in H. discriminate.
Qed.

(** [tag.trim().length === 0] holds of the strings of white space. *)
Lemma trim_length_zero (s : string) :
  (String.length (Js.trim s) =? 0)%nat = true <-> Spec.blank s.
Proof.
  rewrite Nat.eqb_eq. unfold Js.trim.
  rewrite <- trimStart_blank, <- trimEnd_empty.
  destruct (Js.trimEnd (Js.trimStart s)); simpl; split; congruence.
Qed.

Lemma filterTags_kept (suggestedTags currentTags : list string) (tag : string) :
  In tag (filterTags suggestedTags currentTags)
  <-> In tag suggestedTags /\ ~ In tag currentTags /\ ~ Spec.blank tag.
Proof.
  unfold filterTags. rewrite List.filter_In.
  destruct (Js.arrayIncludes currentTags tag) eqn:Ein.
  - apply arrayIncludes_In in Ein. split; [intros [_ H]; discriminate | tauto].
  - apply arrayIncludes_not_In in Ein.
    destruct (String.eqb_spec tag "") as [->|Hne]; simpl.
    + split; [intros [_ H]; discriminate | intros (_ & _ & H); now destruct H].
    + destruct (String.length (Js.trim tag) =? 0)%nat eqn:Et.
      * apply trim_length_zero in Et.
        split; [intros [_ H]; discriminate | tauto].
      * assert (Hnb : ~ Spec.blank tag).
        { intros H. apply trim_length_zero in H. congruence. }
        tauto.
Qed.

(** C10: [filterTags] keeps a suggested tag exactly when it is not
    already on the ticket and is not a string of white space only (the
    empty string included); so a blank tag is never among the tags to
    apply, whatever the tag generator produced. *)
Theorem filterTags_drops_present_and_blank
    (suggestedTags currentTags : list string) (tag : string) :
  (In tag (filterTags suggestedTags currentTags)
   <-> In tag suggestedTags /\ ~ In tag currentTags /\ ~ Spec.blank tag)
  /\ ~ In "" (filterTags suggestedTags currentTags)
  /\ Forall (fun kept => ~ Spec.blank kept /\ ~ In kept currentTags)
       (filterTags suggestedTags currentTags).
Proof.
  split; [apply filterTags_kept|]. split.
  - intros H. apply filterTags_kept in H. destruct H as (_ & _ & H).
    apply H. exact I.
  - apply List.Forall_forall. intros kept H. apply filterTags_kept in H. tauto.
Qed.

Example filterTags_blank :
  filterTags ["auto-processed"; ""; "   "; "vip"; "category-billing"] ["vip"]
  = ["auto-processed"; "category-billing"].
Proof. vm_compute. reflexivity. Qed.

(** Nothing is left to apply exactly when every suggested tag is on the
    ticket already or blank. *)
Lemma filterTags_nil (suggestedTags currentTags : list string) :
  filterTags suggestedTags currentTags = []
  <-> forall tag, In tag suggestedTags -> In tag currentTags \/ Spec.blank tag.
Proof.
  split.
  - intros E tag Hin.
    destruct (Js.arrayIncludes currentTags tag) eqn:Ein;
      [left; now apply arrayIncludes_In|].
    apply arrayIncludes_not_In in Ein.
    destruct (String.length (Js.trim tag) =? 0)%nat eqn:Et;
      [right; now apply trim_length_zero|].
    exfalso.
    assert (H : In tag (filterTags suggestedTags currentTags)).
    { apply filterTags_kept. repeat split; auto.
      intros Hb. apply trim_length_zero in Hb. congruence. }
    rewrite E in H. destruct H.
  - intros H. destruct (filterTags suggestedTags currentTags) as [|tag l] eqn:E;
      [reflexivity|].
    assert (Hin : In tag (filterTags suggestedTags currentTags))
      by (rewrite E; now left).
    apply filterTags_kept in Hin. destruct Hin as (Hs & Hc & Hb).
    destruct (H tag Hs); contradiction.
Qed.

Lemma isBlank_blank (s : string) : Spec.isBlank s = true <-> Spec.blank s.
Proof.
  induction s as [|c s IH]; cbn [Spec.isBlank Spec.blank]; [tauto|].
  rewrite andb_true_iff, IH. tauto.
Qed.

(** [filterTags] computes the new tags of the specification. *)
Lemma filterTags_newTags (suggestedTags currentTags : list string) :
  filterTags suggestedTags currentTags = Spec.newTags suggestedTags currentTags.
Proof.
  unfold filterTags, Spec.newTags. apply List.filter_ext. intros tag.
  assert (E1 : Js.arrayIncludes currentTags tag = existsb (String.eqb tag) currentTags).
  { destruct (existsb (String.eqb tag) currentTags) eqn:E.
    - apply arrayIncludes_In. apply existsb_exists in E.
      destruct E as (x & Hx & Ex). apply String.eqb_eq in Ex. now subst.
    - apply arrayIncludes_not_In. intros Hin.
      assert (H : existsb (String.eqb tag) currentTags = true).
      { apply existsb_exists. exists tag. split; [exact Hin | apply String.eqb_refl]. }
      congruence. }
  rewrite E1. destruct (existsb (String.eqb tag) currentTags); [reflexivity|].
  cbn [negb andb].
  destruct (Spec.isBlank tag) eqn:Eb.
  - apply isBlank_blank in Eb. pose proof Eb as Et. apply trim_length_zero in Et.
    rewrite Et, orb_true_r. reflexivity.
  - assert (Hnb : ~ Spec.blank tag).
    { intros H. apply isBlank_blank in H. congruence. }
    destruct (String.eqb_spec tag "") as [->|_]; [destruct Hnb; exact I|].
    destruct (String.length (Js.trim tag) =? 0)%nat eqn:Et; [|reflexivity].
    apply trim_length_zero in Et. contradiction.
Qed.

End FilterTags.

(** ** One ticket ([applyTags]) *)

Section ApplyTags.

Import AutoTagger.

Variable this : AutoTagger.t.
Variable ticket : ZendeskTicket.t.
Variable analysis : TicketAnalysis.t.
Variable r : ZendeskClient.Remote.

Local Abbreviation confidence := (TicketAnalysis.confidence analysis).
Local Abbreviation minConfidence := (AutomationConfig.minConfidence (config this)).
Local Abbreviation tagsToApply :=
  (filterTags (TicketAnalysis.suggestedTags analysis) (ZendeskTicket.tags ticket)).
Local Abbreviation newTags := (Js.uniq (ZendeskTicket.tags ticket ++ tagsToApply)).

Lemma length_zero {A} (l : list A) : (length l =? 0)%nat = true <-> l = [].
Proof. destruct l; simpl; split; congruence. Qed.

(** The four ways through [applyTags]. *)
Lemma applyTags_below_threshold :
  confidence < minConfidence ->
  applyTags this ticket analysis r
  = (TaggingResult.mk (ZendeskTicket.id ticket) "skipped" None (Some confidence)
       None
       (Some [Template.Str "Confidence "; Template.Fixed 2 confidence;
              Template.Str " below threshold "; Template.Num minConfidence])
       None, r).
Proof.
  intros H. apply ltb_lt in H. unfold applyTags.
  now rewrite H.
Qed.

Lemma applyTags_no_new_tags :
  ~ confidence < minConfidence ->
  tagsToApply = [] ->
  applyTags this ticket analysis r
  = (TaggingResult.mk (ZendeskTicket.id ticket) "skipped"
       (Some (TicketAnalysis.suggestedTags analysis)) (Some confidence)
       None (Some [Template.Str "No new tags to apply"]) None, r).
Proof.
  intros H E. apply Qnot_lt_le, ltb_ge in H. unfold applyTags.
  rewrite H, E. reflexivity.
Qed.

Lemma applyTags_dry_run :
  ~ confidence < minConfidence ->
  tagsToApply <> [] ->
  AutomationConfig.dryRun (config this) = true ->
  applyTags this ticket analysis r
  = (TaggingResult.mk (ZendeskTicket.id ticket) "dry-run"
       (Some tagsToApply) (Some confidence) None
       (Some [Template.Str "[DRY RUN] Would apply ";
              Template.Num (Js.ofNat (length tagsToApply));
              Template.Str " tags"])
       None, r).
Proof.
  intros H E D. apply Qnot_lt_le, ltb_ge in H. unfold applyTags.
  rewrite H, D.
  destruct (length tagsToApply =? 0)%nat eqn:El; [|reflexivity].
  apply length_zero in El. contradiction.
Qed.

Lemma applyTags_write :
  ~ confidence < minConfidence ->
  tagsToApply <> [] ->
  AutomationConfig.dryRun (config this) = false ->
  applyTags this ticket analysis r
  = match ZendeskClient.updateTicket (ZendeskTicket.id ticket) newTags r with
    | (inr updatedTicket, r') =>
        (TaggingResult.mk (ZendeskTicket.id ticket) "success"
           (Some tagsToApply) (Some confidence) None None
           (Some updatedTicket), r')
    | (inl message, r') =>
        (TaggingResult.mk (ZendeskTicket.id ticket) "error"
           None (Some confidence) (Some message)
           (Some (Template.Str "Failed to apply tags: " :: message))
           None, r')
    end.
Proof.
  intros H E D. apply Qnot_lt_le, ltb_ge in H. unfold applyTags.
  rewrite H, D.
  destruct (length tagsToApply =? 0)%nat eqn:El; [|reflexivity].
  apply length_zero in El. contradiction.
Qed.

(** What one call of [updateTicket] does to the remote side. *)
Lemma updateTicket_effect (id : Z) (tags : list string) :
  let out := ZendeskClient.updateTicket id tags r in
  (exists message,
      fst out = inl message
      /\ ZendeskClient.stored (snd out) = ZendeskClient.stored r
      /\ ZendeskClient.requests (snd out)
         = ZendeskClient.requests r ++ [ZendeskClient.mkRequest id tags false])
  \/ (fst out = inr (ApiResponse.mk id tags)
      /\ ZendeskClient.stored (snd out) = <[id := tags]> (ZendeskClient.stored r)
      /\ ZendeskClient.requests (snd out)
         = ZendeskClient.requests r ++ [ZendeskClient.mkRequest id tags true]).
Proof.
  cbv zeta. unfold ZendeskClient.updateTicket.
  destruct (ZendeskClient.faults r) as [|[msg|] rest]; simpl; eauto 6.
Qed.

(** Every outcome of [applyTags], with what it did to the remote side:
    the two skips and the dry run leave it untouched; the remaining path
    sends exactly one update, with the union of the ticket's tags and the
    tags to apply, and ends in "success" or "error" as that update is
    served or rejected. *)
Lemma applyTags_cases :
  let out := applyTags this ticket analysis r in
  let status := TaggingResult.status (fst out) in
  TaggingResult.ticketId (fst out) = ZendeskTicket.id ticket
  /\ ((snd out = r
       /\ (status = "skipped" \/ status = "dry-run"))
      \/ (~ confidence < minConfidence /\ tagsToApply <> []
          /\ AutomationConfig.dryRun (config this) = false
          /\ exists ok,
              ZendeskClient.requests (snd out)
              = ZendeskClient.requests r
                ++ [ZendeskClient.mkRequest (ZendeskTicket.id ticket) newTags ok]
              /\ (ok = true -> status = "success"
                  /\ ZendeskClient.stored (snd out)
                     = <[ZendeskTicket.id ticket := newTags]> (ZendeskClient.stored r))
              /\ (ok = false -> status = "error"
                  /\ ZendeskClient.stored (snd out) = ZendeskClient.stored r))).
Proof.
  cbv zeta.
  destruct (Qlt_le_dec confidence minConfidence) as [Hlt|Hge].
  { rewrite (applyTags_below_threshold Hlt). simpl. auto. }
  apply Qle_not_lt in Hge.
  assert (Hnil : tagsToApply = [] \/ tagsToApply <> []).
  { generalize tagsToApply. intros [|t l]; [now left | right; discriminate]. }
  destruct Hnil as [Et|Hne].
  { rewrite (applyTags_no_new_tags Hge Et). simpl. auto. }
  destruct (AutomationConfig.dryRun (config this)) eqn:Ed.
  { rewrite (applyTags_dry_run Hge Hne Ed). simpl. auto. }
  rewrite (applyTags_write Hge Hne Ed).
  destruct (updateTicket_effect (ZendeskTicket.id ticket) newTags)
    as [(message & E1 & E2 & E3)|(E1 & E2 & E3)];
    destruct (ZendeskClient.updateTicket (ZendeskTicket.id ticket) newTags r)
      as [[message'|response] r']; cbn [fst snd] in *; try discriminate.
  - split; [reflexivity|]. right. repeat split; auto.
    exists false. split; [exact E3|]. split; [discriminate | auto].
  - split; [reflexivity|]. right. repeat split; auto.
    exists true. split; [exact E3|]. split; [auto | discriminate].
Qed.

End ApplyTags.

Section ApplyTagsClaims.

Import AutoTagger.

Ltac other_reason :=
  intros Hreason; exfalso; cbn in Hreason; congruence.

(** C7: [applyTags] gives the below-threshold skip exactly when
    [analysis.confidence < config.minConfidence], and sends nothing on
    that path; a confidence equal to [minConfidence] goes on to the tag
    computation, and to the remote update when there are new tags and
    [dryRun] is off. *)
Theorem applyTags_skips_exactly_below_threshold
    (this : AutoTagger.t) (ticket : ZendeskTicket.t)
    (analysis : TicketAnalysis.t) (r : ZendeskClient.Remote) :
  let confidence := TicketAnalysis.confidence analysis in
  let minConfidence := AutomationConfig.minConfidence (config this) in
  let tagsToApply :=
    filterTags (TicketAnalysis.suggestedTags analysis) (ZendeskTicket.tags ticket) in
  let out := applyTags this ticket analysis r in
  let belowThreshold :=
    Some [Template.Str "Confidence "; Template.Fixed 2 confidence;
          Template.Str " below threshold "; Template.Num minConfidence] in
  (confidence < minConfidence <-> TaggingResult.reason (fst out) = belowThreshold)
  /\ (confidence < minConfidence ->
      TaggingResult.status (fst out) = "skipped" /\ snd out = r)
  /\ (confidence == minConfidence ->
      TaggingResult.reason (fst out) <> belowThreshold
      /\ (tagsToApply <> [] -> AutomationConfig.dryRun (config this) = false ->
          exists ok,
            ZendeskClient.requests (snd out)
            = ZendeskClient.requests r
              ++ [ZendeskClient.mkRequest (ZendeskTicket.id ticket)
                    (Js.uniq (ZendeskTicket.tags ticket ++ tagsToApply)) ok])).
Proof.
  cbv zeta.
  assert (Hiff : TicketAnalysis.confidence analysis
                 < AutomationConfig.minConfidence (config this)
                 <-> TaggingResult.reason (fst (applyTags this ticket analysis r))
                     = Some [Template.Str "Confidence ";
                             Template.Fixed 2 (TicketAnalysis.confidence analysis);
                             Template.Str " below threshold ";
                             Template.Num (AutomationConfig.minConfidence (config this))]).
  { split.
    - intros H. now rewrite (applyTags_below_threshold this ticket analysis r H).
    - destruct (Qlt_le_dec (TicketAnalysis.confidence analysis)
                  (AutomationConfig.minConfidence (config this))) as [H|H];
        [auto|].
      apply Qle_not_lt in H.
      destruct (filterTags (TicketAnalysis.suggestedTags analysis)
                  (ZendeskTicket.tags ticket)) as [|t l] eqn:Et.
      { rewrite (applyTags_no_new_tags this ticket analysis r H Et). other_reason. }
      assert (Hne : filterTags (TicketAnalysis.suggestedTags analysis)
                      (ZendeskTicket.tags ticket) <> [])
        by (rewrite Et; discriminate).
      destruct (AutomationConfig.dryRun (config this)) eqn:Ed.
      { rewrite (applyTags_dry_run this ticket analysis r H Hne Ed). other_reason. }
      rewrite (applyTags_write this ticket analysis r H Hne Ed).
      unfold ZendeskClient.updateTicket.
      destruct (ZendeskClient.faults r) as [|[msg|] rest]; other_reason. }
  split; [exact Hiff|]. split.
  - intros H. now rewrite (applyTags_below_threshold this ticket analysis r H).
  - intros Heq.
    assert (Hge : ~ TicketAnalysis.confidence analysis
                    < AutomationConfig.minConfidence (config this)).
    { rewrite Heq. apply Qlt_irrefl. }
    split; [intros H; apply Hge, Hiff, H|].
    intros Hne Hd.
    destruct (applyTags_cases this ticket analysis r)
      as (_ & [[Hr _]|(_ & _ & _ & ok & Hreq & _)]).
    + exfalso. revert Hr.
      rewrite (applyTags_write this ticket analysis r Hge Hne Hd).
      unfold ZendeskClient.updateTicket.
      destruct r as [stored requests faults].
      destruct faults as [|[msg|] rest]; cbn; intros Hr;
        apply (f_equal ZendeskClient.requests) in Hr; cbn in Hr;
        apply (f_equal (@length _)) in Hr; rewrite length_app in Hr;
        cbn in Hr; lia.
    + exists ok. exact Hreq.
Qed.

(** C9, as the code has it: with [dryRun] on, the threshold met and some
    new tag (a suggested tag that is neither on the ticket nor blank),
    nothing is sent and the result has status "dry-run" and reports
    exactly the new tags; with [dryRun] on nothing is ever sent.  An update
    request is sent only with [dryRun] off, the threshold met and some new
    tag; it carries the ticket's tags merged with the new tags, and the
    result has status "success" when the request is served and "error"
    when it is rejected, so a request that was sent does not imply status
    "success".  The stored tags change only together with status
    "success". *)
Theorem applyTags_dry_run_writes_nothing
    (this : AutoTagger.t) (ticket : ZendeskTicket.t)
    (analysis : TicketAnalysis.t) (r : ZendeskClient.Remote) :
  let confidence := TicketAnalysis.confidence analysis in
  let minConfidence := AutomationConfig.minConfidence (config this) in
  let newTags :=
    Spec.newTags (TicketAnalysis.suggestedTags analysis) (ZendeskTicket.tags ticket) in
  let out := applyTags this ticket analysis r in
  let status := TaggingResult.status (fst out) in
  (AutomationConfig.dryRun (config this) = true ->
   ~ confidence < minConfidence ->
   newTags <> [] ->
   snd out = r /\ status = "dry-run" /\ TaggingResult.tags (fst out) = Some newTags)
  /\ (AutomationConfig.dryRun (config this) = true -> snd out = r)
  /\ (ZendeskClient.requests (snd out) <> ZendeskClient.requests r ->
      AutomationConfig.dryRun (config this) = false
      /\ ~ confidence < minConfidence
      /\ newTags <> []
      /\ exists ok,
           ZendeskClient.requests (snd out)
           = ZendeskClient.requests r
             ++ [ZendeskClient.mkRequest (ZendeskTicket.id ticket)
                   (Spec.dedupFirst (ZendeskTicket.tags ticket ++ newTags)) ok]
           /\ (ok = true ->
               status = "success" /\ TaggingResult.tags (fst out) = Some newTags)
           /\ (ok = false ->
               status = "error"
               /\ ZendeskClient.stored (snd out) = ZendeskClient.stored r))
  /\ (ZendeskClient.stored (snd out) <> ZendeskClient.stored r ->
      status = "success").
Proof.
  cbv zeta. rewrite <- filterTags_newTags, <- uniq_dedupFirst.
  split; [|split; [|split]].
  - intros Hd Hge Hne.
    rewrite (applyTags_dry_run this ticket analysis r Hge Hne Hd). auto.
  - intros Hd.
    destruct (applyTags_cases this ticket analysis r)
      as (_ & [[Hr _]|(_ & _ & Hd' & _)]); [exact Hr | congruence].
  - intros Hsent.
    destruct (applyTags_cases this ticket analysis r)
      as (_ & [[Hr _]|(Hge & Hne & Hd & ok & Hreq & Hok & Hfail)]).
    { rewrite Hr in Hsent. contradiction. }
    split; [exact Hd|]. split; [exact Hge|]. split; [exact Hne|].
    exists ok. split; [exact Hreq|]. split.
    + intros ->. destruct (Hok eq_refl) as [Hs _]. split; [exact Hs|].
      revert Hs. rewrite (applyTags_write this ticket analysis r Hge Hne Hd).
      destruct (ZendeskClient.updateTicket _ _ r) as [[message|response] r'];
        cbn; [discriminate | reflexivity].
    + intros ->. now apply Hfail.
  - intros Hchanged.
    destruct (applyTags_cases this ticket analysis r)
      as (_ & [[Hr _]|(_ & _ & Hd & ok & _ & Hok & Hfail)]).
    + rewrite Hr in Hchanged. contradiction.
    + destruct ok; [now apply Hok|]. destruct (Hfail eq_refl) as [_ Hs]. contradiction.
Qed.

(** C9 fails as stated where it says that the write is issued only on the
    success path: when the helpdesk rejects the update, the request has
    been sent and the result has status "error". *)
Lemma applyTags_rejected_write_is_not_success :
  let r := ZendeskClient.mkRemote ∅ [] [Some "Request failed with status code 429"] in
  let out := applyTags Sample.tagger (Sample.outage 1) (Sample.outageAnalysis 1) r in
  AutomationConfig.dryRun (config Sample.tagger) = false
  /\ ZendeskClient.requests (snd out)
     = [ZendeskClient.mkRequest 1
          ["auto-processed"; "category-technical"; "priority-urgent";
           "needs-technical-review"] false]
  /\ ZendeskClient.requests (snd out) <> ZendeskClient.requests r
  /\ TaggingResult.status (fst out) = "error"
  /\ TaggingResult.status (fst out) <> "success".
Proof.
  cbv zeta. split; [reflexivity|]. split; [vm_compute; reflexivity|].
  split; [vm_compute; discriminate|]. split; [vm_compute; reflexivity|].
  vm_compute. discriminate.
Qed.

(** C2: when the ticket already carries every suggested tag and the
    threshold is met, [applyTags] skips with "No new tags to apply" and
    leaves the remote side as it was. *)
Theorem applyTags_second_application_skips
    (this : AutoTagger.t) (ticket : ZendeskTicket.t)
    (analysis : TicketAnalysis.t) (r : ZendeskClient.Remote) :
  (forall tag, In tag (TicketAnalysis.suggestedTags analysis) ->
               In tag (ZendeskTicket.tags ticket)) ->
  ~ TicketAnalysis.confidence analysis
    < AutomationConfig.minConfidence (config this) ->
  applyTags this ticket analysis r
  = (TaggingResult.mk (ZendeskTicket.id ticket) "skipped"
       (Some (TicketAnalysis.suggestedTags analysis))
       (Some (TicketAnalysis.confidence analysis))
       None (Some [Template.Str "No new tags to apply"]) None, r).
Proof.
  intros Hall Hge. apply applyTags_no_new_tags; [exact Hge|].
  apply filterTags_nil. intros tag Hin. left. auto.
Qed.

End ApplyTagsClaims.

(** ** A batch of tickets ([batchApplyTags]) *)

Section Batch.

Import AutoTagger.

Variable this : AutoTagger.t.

Lemma withStatus_app (status : string) (l1 l2 : list TaggingResult.t) :
  Spec.withStatus status (l1 ++ l2)
  = (Spec.withStatus status l1 + Spec.withStatus status l2)%nat.
Proof. unfold Spec.withStatus. now rewrite List.filter_app, length_app. Qed.

Lemma failedRequests_app (l1 l2 : list ZendeskClient.Request) :
  Spec.failedRequests (l1 ++ l2)
  = (Spec.failedRequests l1 + Spec.failedRequests l2)%nat.
Proof. unfold Spec.failedRequests. now rewrite List.filter_app, length_app. Qed.

(** The lookup table of the batch. *)
Lemma ticketMap_from (tickets : list ZendeskTicket.t) (m : gmap Z ZendeskTicket.t) (k : Z) :
  (forall t, m !! k = Some t -> ZendeskTicket.id t = k) ->
  let m' := fold_left (fun m ticket => <[ZendeskTicket.id ticket := ticket]> m)
              tickets m in
  (forall t, m' !! k = Some t -> ZendeskTicket.id t = k)
  /\ (m' !! k = None
      <-> m !! k = None
          /\ existsb (fun ticket => Z.eqb (ZendeskTicket.id ticket) k) tickets = false).
Proof.
  revert m. induction tickets as [|ticket tickets IH]; intros m Hm; simpl.
  - split; [exact Hm|]. tauto.
  - destruct (IH (<[ZendeskTicket.id ticket := ticket]> m)) as [IH1 IH2].
    { intros t. destruct (Z.eq_dec (ZendeskTicket.id ticket) k) as [E|E].
      - rewrite E, lookup_insert_eq. congruence.
      - rewrite lookup_insert_ne by exact E. apply Hm. }
    split; [exact IH1|]. rewrite IH2.
    destruct (Z.eqb_spec (ZendeskTicket.id ticket) k) as [E|E]; simpl.
    + rewrite E, lookup_insert_eq. split; intros [H1 H2]; discriminate.
    + rewrite lookup_insert_ne by exact E. reflexivity.
Qed.

Lemma ticketMap_lookup (tickets : list ZendeskTicket.t) (analysis : TicketAnalysis.t) :
  match ticketMap tickets !! TicketAnalysis.ticketId analysis with
  | Some ticket =>
      ZendeskTicket.id ticket = TicketAnalysis.ticketId analysis
      /\ Spec.hasTicket tickets analysis = true
  | None => Spec.hasTicket tickets analysis = false
  end.
Proof.
  unfold ticketMap, Spec.hasTicket.
  destruct (ticketMap_from tickets ∅ (TicketAnalysis.ticketId analysis)) as [H1 H2].
  { intros t. rewrite lookup_empty. discriminate. }
  cbv zeta in H1, H2.
  destruct (fold_left _ tickets ∅ !! TicketAnalysis.ticketId analysis) as [ticket|] eqn:E.
  - split; [now apply H1|].
    destruct (existsb _ tickets) eqn:Ex; [reflexivity|].
    exfalso. assert (H : Some ticket = None); [|discriminate].
    apply H2. split; [apply lookup_empty | reflexivity].
  - now apply H2.
Qed.

(** The statuses that [applyTags] returns, and the rejected request that
    comes with each "error". *)
Lemma applyTags_outcome (ticket : ZendeskTicket.t) (analysis : TicketAnalysis.t)
    (r : ZendeskClient.Remote) :
  let out := applyTags this ticket analysis r in
  let status := TaggingResult.status (fst out) in
  TaggingResult.ticketId (fst out) = ZendeskTicket.id ticket
  /\ (status = "success" \/ status = "skipped" \/ status = "dry-run" \/ status = "error")
  /\ exists sent,
      ZendeskClient.requests (snd out) = ZendeskClient.requests r ++ sent
      /\ Spec.failedRequests sent = Spec.withStatus "error" [fst out].
Proof.
  cbv zeta.
  destruct (applyTags_cases this ticket analysis r)
    as (Hid & [[Hr Hs]|(_ & _ & _ & ok & Hreq & Hok & Hfail)]).
  - split; [exact Hid|]. split; [tauto|].
    exists []. rewrite Hr, app_nil_r. split; [reflexivity|].
    unfold Spec.withStatus. cbn [List.filter].
    destruct Hs as [-> | ->]; reflexivity.
  - split; [exact Hid|]. destruct ok.
    + destruct (Hok eq_refl) as [Hs _]. split; [tauto|].
      eexists. split; [exact Hreq|].
      unfold Spec.withStatus. cbn [List.filter]. rewrite Hs. reflexivity.
    + destruct (Hfail eq_refl) as [Hs _]. split; [tauto|].
      eexists. split; [exact Hreq|].
      unfold Spec.withStatus. cbn [List.filter]. rewrite Hs. reflexivity.
Qed.

Variable tickets : list ZendeskTicket.t.

Lemma batchStep_processed (st : Tally * ZendeskClient.Remote)
    (analysis : TicketAnalysis.t) :
  Invariant.processed tickets [analysis] st (batchStep this (ticketMap tickets) st analysis).
Proof.
  destruct st as [tally r]. unfold batchStep, Invariant.processed, Spec.misses.
  pose proof (ticketMap_lookup tickets analysis) as Hlook.
  cbn [List.filter].
  destruct (ticketMap tickets !! TicketAnalysis.ticketId analysis) as [ticket|].
  - destruct Hlook as [Hid Hhas]. rewrite Hhas. cbn [negb].
    destruct (applyTags_outcome ticket analysis r)
      as (Hrid & Hstatus & sent & Hreq & Hfailed).
    destruct (applyTags this ticket analysis r) as [result r'].
    cbn [fst snd] in *.
    exists [result], sent.
    unfold Spec.withStatus in *. cbn [List.filter List.map length] in *.
    destruct Hstatus as [Hs|[Hs|[Hs|Hs]]]; rewrite Hs in *; cbn;
      rewrite Hrid, Hid; repeat split; auto; lia.
  - rewrite Hlook. cbn [negb fst snd].
    exists [], []. rewrite !app_nil_r. cbn. repeat split; lia.
Qed.

Lemma processed_app (l1 l2 : list TicketAnalysis.t)
    (st0 st1 st2 : Tally * ZendeskClient.Remote) :
  Invariant.processed tickets l1 st0 st1 ->
  Invariant.processed tickets l2 st1 st2 ->
  Invariant.processed tickets (l1 ++ l2) st0 st2.
Proof.
  intros (o1 & s1 & A1 & A2 & A3 & A4 & A5 & A6 & A7 & A8)
         (o2 & s2 & B1 & B2 & B3 & B4 & B5 & B6 & B7 & B8).
  exists (o1 ++ o2), (s1 ++ s2). unfold Spec.misses in *.
  rewrite !withStatus_app, failedRequests_app, !List.filter_app, !List.map_app,
    !length_app.
  rewrite B1, A1, B2, A2, A3, B3, <- !app_assoc.
  repeat split; lia.
Qed.

Lemma batch_loop_processed (l : list TicketAnalysis.t)
    (st : Tally * ZendeskClient.Remote) :
  Invariant.processed tickets l st (fold_left (batchStep this (ticketMap tickets)) l st).
Proof.
  revert st. induction l as [|analysis l IH]; intros st; simpl.
  - exists [], []. rewrite !app_nil_r. cbn. repeat split; lia.
  - apply (processed_app [analysis] l _ _ _ (batchStep_processed st analysis)), IH.
Qed.

End Batch.

Section BatchClaims.

Import AutoTagger.

Lemma filter_split_length {A} (f : A -> bool) (l : list A) :
  (length (List.filter f l) + length (List.filter (fun a => negb (f a)) l))%nat
  = length l.
Proof.
  induction l as [|a l IH]; simpl; [reflexivity|].
  destruct (f a); simpl; lia.
Qed.

(** C6, as the code has it: [details] holds one outcome, in order, for
    every analysis whose ticket is among the tickets; a lookup miss adds
    one to [errors] and nothing to [details], and the loop goes on.  Every
    analysis is counted once in [success], [skipped] or [errors]; the
    outcomes with status "error" are as many as the update requests that
    the helpdesk rejected, so one rejected request gives exactly one
    "error" outcome and the later analyses still get theirs. *)
Theorem batchApplyTags_outcomes
    (this : AutoTagger.t) (analysisResults : list TicketAnalysis.t)
    (tickets : list ZendeskTicket.t) (r : ZendeskClient.Remote) :
  let out := batchApplyTags this analysisResults tickets r in
  let summary := fst out in
  let details := BatchTaggingResults.details summary in
  List.map TaggingResult.ticketId details
    = List.map TicketAnalysis.ticketId
        (List.filter (Spec.hasTicket tickets) analysisResults)
  /\ BatchTaggingResults.total summary = length analysisResults
  /\ (BatchTaggingResults.success summary + BatchTaggingResults.skipped summary
      + BatchTaggingResults.errors summary = length analysisResults)%nat
  /\ BatchTaggingResults.errors summary
     = (Spec.misses tickets analysisResults + Spec.withStatus "error" details)%nat
  /\ (exists sent,
        ZendeskClient.requests (snd out) = ZendeskClient.requests r ++ sent
        /\ Spec.withStatus "error" details = Spec.failedRequests sent)
  /\ (Spec.misses tickets analysisResults = 0%nat ->
      length details = length analysisResults).
Proof.
  cbv zeta. unfold batchApplyTags.
  destruct (batch_loop_processed this tickets analysisResults (mkTally [] 0 0 0, r))
    as (outcomes & sent & H1 & H2 & H3 & H4 & H5 & H6 & H7 & H8).
  destruct (fold_left _ analysisResults _) as [tally r'].
  cbn [fst snd BatchTaggingResults.details BatchTaggingResults.total
       BatchTaggingResults.success BatchTaggingResults.skipped
       BatchTaggingResults.errors results successCount skipCount errorCount
       app] in *.
  rewrite H1.
  split; [exact H3|]. split; [reflexivity|]. split; [lia|]. split; [lia|].
  split; [exists sent; split; [exact H2 | now rewrite H8]|].
  intros Hmiss.
  rewrite <- (length_map TaggingResult.ticketId), H3, length_map.
  pose proof (filter_split_length (Spec.hasTicket tickets) analysisResults) as Hsplit.
  unfold Spec.misses in Hmiss. lia.
Qed.

(** The theorem at a batch of three tickets that are all in the list. *)
Lemma batchApplyTags_outcomes_witness :
  let out := batchApplyTags Sample.tagger
               [Sample.outageAnalysis 1; Sample.outageAnalysis 2; Sample.outageAnalysis 3]
               [Sample.outage 1; Sample.outage 2; Sample.outage 3] Sample.flaky in
  Spec.misses [Sample.outage 1; Sample.outage 2; Sample.outage 3]
    [Sample.outageAnalysis 1; Sample.outageAnalysis 2; Sample.outageAnalysis 3] = 0%nat
  /\ length (BatchTaggingResults.details (fst out)) = 3%nat.
Proof.
  cbv zeta. split; [vm_compute; reflexivity|].
  apply (batchApplyTags_outcomes Sample.tagger
           [Sample.outageAnalysis 1; Sample.outageAnalysis 2; Sample.outageAnalysis 3]
           [Sample.outage 1; Sample.outage 2; Sample.outage 3] Sample.flaky).
  vm_compute. reflexivity.
Defined.

(** One rejected request in a batch of three: one "error" outcome, and the
    third ticket is still tagged. *)
Example batchApplyTags_one_failure :
  let out := batchApplyTags Sample.tagger
               [Sample.outageAnalysis 1; Sample.outageAnalysis 2; Sample.outageAnalysis 3]
               [Sample.outage 1; Sample.outage 2; Sample.outage 3] Sample.flaky in
  List.map TaggingResult.status (BatchTaggingResults.details (fst out))
    = ["success"; "error"; "success"]
  /\ BatchTaggingResults.errors (fst out) = 1%nat
  /\ List.map ZendeskClient.ok (ZendeskClient.requests (snd out)) = [true; false; true].
Proof. cbv zeta. split; [|split]; vm_compute; reflexivity. Qed.

(** C6 fails as stated: the analysis of ticket 2 has no ticket in the
    list; it is counted as an error, but [details] has outcomes for
    tickets 1 and 3 only, so not one for every input analysis. *)
Lemma batchApplyTags_lookup_miss_leaves_no_outcome :
  let analyses :=
    [Sample.outageAnalysis 1; Sample.outageAnalysis 2; Sample.outageAnalysis 3] in
  let out := batchApplyTags Sample.tagger analyses
               [Sample.outage 1; Sample.outage 3] Sample.idle in
  List.map TaggingResult.ticketId (BatchTaggingResults.details (fst out)) = [1%Z; 3%Z]
  /\ BatchTaggingResults.errors (fst out) = 1%nat
  /\ BatchTaggingResults.total (fst out) = 3%nat
  /\ length (BatchTaggingResults.details (fst out)) <> length analyses.
Proof.
  cbv zeta. split; [|split; [|split]]; try (vm_compute; reflexivity).
  vm_compute. discriminate.
Qed.

End BatchClaims.

(** ** Applying the same analysis twice *)

Section Idempotence.

Import AutoTagger.

Lemma uniq_In (l : list string) (x : string) : In x (Js.uniq l) <-> In x l.
Proof. rewrite uniq_dedupFirst. apply dedupFirst_In. Qed.

(** After a successful application the helpdesk stores the union of the
    old tags and the applied tags; a ticket fetched again with those tags
    gets the "No new tags to apply" skip, and nothing is sent. *)
Lemma applyTags_twice (this : AutoTagger.t) (ticket : ZendeskTicket.t)
    (analysis : TicketAnalysis.t) (r : ZendeskClient.Remote) :
  let out := applyTags this ticket analysis r in
  TaggingResult.status (fst out) = "success" ->
  exists newTags,
    ZendeskClient.stored (snd out) !! ZendeskTicket.id ticket = Some newTags
    /\ applyTags this
         (ZendeskTicket.mk (ZendeskTicket.id ticket) (ZendeskTicket.subject ticket)
            (ZendeskTicket.description ticket) newTags (ZendeskTicket.fullText ticket))
         analysis (snd out)
       = (TaggingResult.mk (ZendeskTicket.id ticket) "skipped"
            (Some (TicketAnalysis.suggestedTags analysis))
            (Some (TicketAnalysis.confidence analysis))
            None (Some [Template.Str "No new tags to apply"]) None, snd out).
Proof.
  cbv zeta. intros Hs.
  destruct (applyTags_cases this ticket analysis r)
    as (_ & [[_ [H|H]]|(Hge & _ & _ & ok & _ & Hok & Hfail)]);
    try (rewrite Hs in H; discriminate).
  destruct ok; [|destruct (Hfail eq_refl) as [H _]; rewrite Hs in H; discriminate].
  destruct (Hok eq_refl) as [_ Hstored].
  eexists. split; [rewrite Hstored; apply lookup_insert_eq|].
  match goal with
  | |- applyTags _ ?ticket' _ ?r' = _ =>
      pose proof (applyTags_no_new_tags this ticket' analysis r' Hge) as T
  end.
  cbn [ZendeskTicket.id ZendeskTicket.tags] in T. apply T. clear T.
  apply filterTags_nil. intros tag Hin.
  destruct (Js.arrayIncludes (ZendeskTicket.tags ticket) tag) eqn:Ein.
  - left. apply uniq_In, in_or_app. left. now apply arrayIncludes_In.
  - apply arrayIncludes_not_In in Ein.
    destruct (String.length (Js.trim tag) =? 0)%nat eqn:Et;
      [right; now apply trim_length_zero|].
    left. apply uniq_In, in_or_app. right. apply filterTags_kept.
    repeat split; auto. intros Hb. apply trim_length_zero in Hb. congruence.
Qed.

(** A ticket that carries the four suggested tags and one more. *)
Lemma applyTags_second_application_skips_witness :
  let ticket :=
    ZendeskTicket.mk 1 "URGENT: production API down, 500 errors, revenue impact" None
      ["escalated"; "auto-processed"; "category-technical"; "priority-urgent";
       "needs-technical-review"] None in
  let analysis := Sample.outageAnalysis 1 in
  (forall tag, In tag (TicketAnalysis.suggestedTags analysis) ->
               In tag (ZendeskTicket.tags ticket))
  /\ ~ TicketAnalysis.confidence analysis
       < AutomationConfig.minConfidence (config Sample.tagger)
  /\ snd (applyTags Sample.tagger ticket analysis Sample.idle) = Sample.idle.
Proof.
  cbv zeta.
  assert (H1 : forall tag,
             In tag (TicketAnalysis.suggestedTags (Sample.outageAnalysis 1)) ->
             In tag ["escalated"; "auto-processed"; "category-technical";
                     "priority-urgent"; "needs-technical-review"]).
  { intros tag. vm_compute. tauto. }
  assert (H2 : ~ TicketAnalysis.confidence (Sample.outageAnalysis 1)
                 < AutomationConfig.minConfidence (config Sample.tagger)).
  { vm_compute. discriminate. }
  split; [exact H1|]. split; [exact H2|].
  rewrite (applyTags_second_application_skips Sample.tagger
             (ZendeskTicket.mk 1 _ None _ None) (Sample.outageAnalysis 1)
             Sample.idle H1 H2).
  reflexivity.
Defined.

(** A threshold equal to the confidence of the analysis, the double
    nearest to 0.5275. *)
Lemma applyTags_skips_exactly_below_threshold_witness :
  let this := AutoTagger.mk (AutomationConfig.mk false (4751297606875873 # 9007199254740992)) in
  let analysis := Sample.outageAnalysis 1 in
  TicketAnalysis.confidence analysis
    == AutomationConfig.minConfidence (config this)
  /\ TaggingResult.reason (fst (applyTags this (Sample.outage 1) analysis Sample.idle))
     <> Some [Template.Str "Confidence ";
              Template.Fixed 2 (TicketAnalysis.confidence analysis);
              Template.Str " below threshold "; Template.Num (4751297606875873 # 9007199254740992)].
Proof.
  cbv zeta.
  assert (H : TicketAnalysis.confidence (Sample.outageAnalysis 1) == 4751297606875873 # 9007199254740992).
  { vm_compute. reflexivity. }
  split; [exact H|].
  apply (applyTags_skips_exactly_below_threshold
           (AutoTagger.mk (AutomationConfig.mk false (4751297606875873 # 9007199254740992)))
           (Sample.outage 1) (Sample.outageAnalysis 1) Sample.idle).
  exact H.
Defined.

(** A dry run with four new tags. *)
Lemma applyTags_dry_run_writes_nothing_witness :
  let analysis := Sample.outageAnalysis 1 in
  let out := applyTags Sample.dryTagger (Sample.outage 1) analysis Sample.flaky in
  AutomationConfig.dryRun (config Sample.dryTagger) = true
  /\ ~ TicketAnalysis.confidence analysis
       < AutomationConfig.minConfidence (config Sample.dryTagger)
  /\ Spec.newTags (TicketAnalysis.suggestedTags analysis)
       (ZendeskTicket.tags (Sample.outage 1)) <> []
  /\ snd out = Sample.flaky
  /\ TaggingResult.tags (fst out)
     = Some ["auto-processed"; "category-technical"; "priority-urgent";
             "needs-technical-review"].
Proof.
  cbv zeta.
  assert (H2 : ~ TicketAnalysis.confidence (Sample.outageAnalysis 1)
                 < AutomationConfig.minConfidence (config Sample.dryTagger)).
  { vm_compute. discriminate. }
  assert (H3 : Spec.newTags (TicketAnalysis.suggestedTags (Sample.outageAnalysis 1))
                 (ZendeskTicket.tags (Sample.outage 1)) <> []).
  { vm_compute. discriminate. }
  split; [reflexivity|]. split; [exact H2|]. split; [exact H3|].
  destruct (applyTags_dry_run_writes_nothing Sample.dryTagger (Sample.outage 1)
              (Sample.outageAnalysis 1) Sample.flaky) as (T & _).
  destruct (T eq_refl H2 H3) as (Tr & _ & Tt).
  split; [exact Tr|]. rewrite Tt. vm_compute. reflexivity.
Defined.

(** The three outcomes of one ticket under the sample configurations. *)
Example applyTags_success :
  let out := applyTags Sample.tagger (Sample.outage 1) (Sample.outageAnalysis 1)
               Sample.idle in
  TaggingResult.status (fst out) = "success"
  /\ ZendeskClient.stored (snd out) !! 1%Z
     = Some ["auto-processed"; "category-technical"; "priority-urgent";
             "needs-technical-review"].
Proof. cbv zeta. split; vm_compute; reflexivity. Qed.

Example applyTags_dry :
  let out := applyTags Sample.dryTagger (Sample.outage 1) (Sample.outageAnalysis 1)
               Sample.idle in
  TaggingResult.status (fst out) = "dry-run"
  /\ ZendeskClient.requests (snd out) = [].
Proof. cbv zeta. split; vm_compute; reflexivity. Qed.

End Idempotence.

(** ** Letter case *)

Section LetterCase.

Import ContentAnalyzer.

Lemma toLowerCase_app (a b : string) :
  Js.toLowerCase (a +:+ b) = Js.toLowerCase a +:+ Js.toLowerCase b.
Proof. induction a as [|c a IH]; simpl; [reflexivity | now rewrite IH]. Qed.

(** A spelling that occurs in the raw text occurs, lower-cased, in the
    lower-cased text. *)
Lemma includes_toLowerCase (raw spelling : string) :
  Js.includes raw spelling = true ->
  Js.includes (Js.toLowerCase raw) (Js.toLowerCase spelling) = true.
Proof.
  rewrite !includes_substring. intros (before & after & ->).
  exists (Js.toLowerCase before), (Js.toLowerCase after).
  now rewrite !toLowerCase_app.
Qed.

(** The sentiment words are matched whatever their case in the ticket. *)
Lemma analyzeTicket_sentiment_any_case (this : t) (ticket : ZendeskTicket.t)
    (word spelling : string) :
  Js.toLowerCase spelling = word ->
  Js.includes (rawText ticket) spelling = true ->
  let s := TicketAnalysis.sentiment (analyzeTicket this ticket) in
  (In word (SentimentKeywords.positive (sentimentKeywords this)) ->
   In word (SentimentAnalysis.positiveWords s))
  /\ (In word (SentimentKeywords.negative (sentimentKeywords this)) ->
      In word (SentimentAnalysis.negativeWords s)).
Proof.
  intros <- Hraw. apply includes_toLowerCase in Hraw. cbv zeta.
  destruct (analyzeTicket_fields this ticket) as (_ & _ & _ & -> & _).
  unfold analyzeSentiment.
  destruct (countWords_count (ticketText ticket)
              (SentimentKeywords.positive (sentimentKeywords this))) as [_ Ep].
  destruct (countWords_count (ticketText ticket)
              (SentimentKeywords.negative (sentimentKeywords this))) as [_ En].
  destruct (countWords _ (SentimentKeywords.positive _)) as [positiveScore positiveWords].
  destruct (countWords _ (SentimentKeywords.negative _)) as [negativeScore negativeWords].
  cbn [snd] in Ep, En. subst.
  destruct (Js.ltb positiveScore negativeScore);
    [|destruct (Js.ltb negativeScore positiveScore)];
    cbn [SentimentAnalysis.positiveWords SentimentAnalysis.negativeWords];
    unfold Spec.occurring; split; intros Hin; apply List.filter_In; auto.
Qed.

(** Every character is the character of its code, and codes are below
    256: a test that holds of all 256 characters holds of every one. *)
Lemma ascii_all (P : ascii -> bool) :
  forallb P (List.map ascii_of_nat (seq 0 256)) = true -> forall c, P c = true.
Proof.
  intros H c. rewrite forallb_forall in H. apply H.
  rewrite <- (ascii_nat_embedding c). apply in_map, in_seq.
  pose proof (nat_ascii_bounded c). lia.
Qed.

(** Lower-casing a character of the text and comparing it with a
    character that is not a capital is the comparison letter case aside. *)
Lemma lowerChar_sameLetter (c k : ascii) :
  Spec.capital (nat_of_ascii k) = false ->
  Ascii.eqb k (Js.lowerChar c) = Spec.sameLetter c k.
Proof.
  intros Hk.
  assert (H : forall c k,
             implb (negb (Spec.capital (nat_of_ascii k)))
               (Bool.eqb (Ascii.eqb k (Js.lowerChar c)) (Spec.sameLetter c k)) = true).
  { intros c0. apply (ascii_all (fun k0 => implb _ _)). revert c0.
    apply (ascii_all (fun c0 => forallb _ _)). vm_compute. reflexivity. }
  specialize (H c k). rewrite Hk in H. cbn [negb implb] in H.
  now apply eqb_prop in H.
Qed.

Lemma startsWith_anyCase (text word : string) :
  Spec.lowerCase word = true ->
  Js.startsWith (Js.toLowerCase text) word = Spec.startsWithAnyCase text word.
Proof.
  revert text. induction word as [|k word IH]; intros text Hw; [reflexivity|].
  cbn [Spec.lowerCase] in Hw. apply andb_prop in Hw. destruct Hw as [Hk Hw].
  apply negb_true_iff in Hk.
  destruct text as [|c text]; [reflexivity|].
  cbn [Js.toLowerCase Js.startsWith Spec.startsWithAnyCase].
  rewrite (lowerChar_sameLetter c k Hk), (IH text Hw).
  destruct (Spec.sameLetter c k); reflexivity.
Qed.

(** On a word in lower case, the substring test on the lower-cased text
    is the case-insensitive match on the text. *)
Lemma includes_anyCase (text word : string) :
  Spec.lowerCase word = true ->
  Js.includes (Js.toLowerCase text) word = Spec.includesAnyCase text word.
Proof.
  intros Hw. induction text as [|c text IH].
  - cbn [Js.toLowerCase Js.includes Spec.includesAnyCase].
    rewrite <- (startsWith_anyCase "" word Hw). reflexivity.
  - cbn [Js.toLowerCase Js.includes Spec.includesAnyCase].
    rewrite <- (startsWith_anyCase (String c text) word Hw), <- IH. reflexivity.
Qed.

Lemma startsWithAnyCase_spells (text word : string) :
  Spec.startsWithAnyCase text word = true
  <-> exists spelling after, text = spelling +:+ after /\ Spec.spells spelling word.
Proof.
  revert text. induction word as [|k word IH]; intros text.
  - split; [|reflexivity]. intros _. exists "", text. split; [reflexivity | exact I].
  - destruct text as [|c text]; cbn [Spec.startsWithAnyCase].
    + split; [discriminate|]. intros ([|c spelling] & after & E & H);
        [destruct H | discriminate].
    + rewrite andb_true_iff, IH. split.
      * intros (Hc & spelling & after & -> & H).
        exists (String c spelling), after. split; [reflexivity|].
        cbn [Spec.spells]. auto.
      * intros ([|c' spelling] & after & E & H); [destruct H|].
        cbn [Spec.spells] in H. destruct H as [Hc H].
        change (String c text = String c' (spelling +:+ after)) in E.
        inversion E; subst. split; [exact Hc|]. now exists spelling, after.
Qed.

(** The test [includesAnyCase] is the case-insensitive substring match. *)
Lemma includesAnyCase_occurs (text word : string) :
  Spec.includesAnyCase text word = true <-> Spec.occursAnyCase text word.
Proof.
  unfold Spec.occursAnyCase. induction text as [|c text IH];
    cbn [Spec.includesAnyCase]; rewrite orb_true_iff, startsWithAnyCase_spells.
  - split.
    + intros [(spelling & after & E & H)|H]; [|discriminate].
      now exists "", spelling, after.
    + intros ([|b before] & spelling & after & E & H); [|discriminate].
      left. now exists spelling, after.
  - rewrite IH. split.
    + intros [(spelling & after & E & H)|(before & spelling & after & E & H)].
      * now exists "", spelling, after.
      * exists (String c before), spelling, after. split; [|exact H].
        change (String c text = String c (before +:+ spelling +:+ after)).
        now rewrite E.
    + intros ([|b before] & spelling & after & E & H).
      * left. now exists spelling, after.
      * right. exists before, spelling, after. split; [|exact H].
        change (String c text = String b (before +:+ spelling +:+ after)) in E.
        now inversion E.
Qed.

Lemma occurring_anyCase (text : string) (words : list string) :
  Forall (fun word => Spec.lowerCase word = true) words ->
  Spec.occurring (Js.toLowerCase text) words = Spec.occurringAnyCase text words.
Proof.
  unfold Spec.occurring, Spec.occurringAnyCase.
  induction 1 as [|word words Hw _ IH]; [reflexivity|].
  cbn [List.filter]. now rewrite (includes_anyCase text word Hw), IH.
Qed.

(** C8: whatever the letter case of the ticket text, the sentiment of
    [analyzeTicket] counts the two word lists (written in lower case, as
    the analyzer's are) independently, one per word of the list that
    occurs in the text by case-insensitive substring match; the larger
    count gives the label, their distance the score, and their sum over 3,
    capped at 1, the confidence. *)
Theorem analyzeSentiment_counts (this : t) (ticket : ZendeskTicket.t) :
  let positiveList := SentimentKeywords.positive (sentimentKeywords this) in
  let negativeList := SentimentKeywords.negative (sentimentKeywords this) in
  Forall (fun word => Spec.lowerCase word = true) positiveList ->
  Forall (fun word => Spec.lowerCase word = true) negativeList ->
  let s := TicketAnalysis.sentiment (analyzeTicket this ticket) in
  let text := rawText ticket in
  let positive := Spec.countAnyCase text positiveList in
  let negative := Spec.countAnyCase text negativeList in
  s = analyzeSentiment this (Js.toLowerCase text)
  /\ SentimentAnalysis.positiveWords s = Spec.occurringAnyCase text positiveList
  /\ SentimentAnalysis.negativeWords s = Spec.occurringAnyCase text negativeList
  /\ ((positive < negative)%nat -> SentimentAnalysis.sentiment s = "negative")
  /\ ((negative < positive)%nat -> SentimentAnalysis.sentiment s = "positive")
  /\ (positive = negative -> SentimentAnalysis.sentiment s = "neutral")
  /\ SentimentAnalysis.score s
     == Qabs (inject_Z (Z.of_nat positive) - inject_Z (Z.of_nat negative))
  /\ SentimentAnalysis.confidence s
     == Qmin ((inject_Z (Z.of_nat positive) + inject_Z (Z.of_nat negative)) / 3) 1.
Proof.
  cbv zeta. intros Hp Hn.
  destruct (analyzeTicket_fields this ticket) as (_ & _ & _ & -> & _).
  unfold ticketText, Spec.countAnyCase.
  rewrite <- (occurring_anyCase (rawText ticket) _ Hp),
          <- (occurring_anyCase (rawText ticket) _ Hn).
  split; [reflexivity|].
  exact (analyzeSentiment_of_text this (Js.toLowerCase (rawText ticket))).
Qed.

(** The theorem at a ticket written in capitals: three negative words. *)
Lemma analyzeSentiment_counts_witness :
  let ticket := ticketWithSubject 5 "TERRIBLE! I HATE this, it is AWFUL" in
  let s := TicketAnalysis.sentiment (analyzeTicket constructor ticket) in
  Forall (fun word => Spec.lowerCase word = true)
    (SentimentKeywords.positive (sentimentKeywords constructor))
  /\ Forall (fun word => Spec.lowerCase word = true)
       (SentimentKeywords.negative (sentimentKeywords constructor))
  /\ SentimentAnalysis.negativeWords s = ["terrible"; "awful"; "hate"]
  /\ SentimentAnalysis.sentiment s = "negative".
Proof.
  cbv zeta.
  assert (Hp : Forall (fun word => Spec.lowerCase word = true)
                 (SentimentKeywords.positive (sentimentKeywords constructor)))
    by (vm_compute; repeat constructor).
  assert (Hn : Forall (fun word => Spec.lowerCase word = true)
                 (SentimentKeywords.negative (sentimentKeywords constructor)))
    by (vm_compute; repeat constructor).
  split; [exact Hp|]. split; [exact Hn|].
  pose proof (analyzeSentiment_counts constructor
                (ticketWithSubject 5 "TERRIBLE! I HATE this, it is AWFUL") Hp Hn) as T.
  cbv zeta in T. destruct T as (_ & _ & Tn & Tl & _).
  split; [rewrite Tn; vm_compute; reflexivity|].
  apply Tl. vm_compute. lia.
Defined.

Example analyzeTicket_upper_case :
  SentimentAnalysis.negativeWords
    (TicketAnalysis.sentiment
       (analyzeTicket constructor (ticketWithSubject 5 "This is TERRIBLE. Fed Up!")))
  = ["terrible"; "fed up"].
Proof. vm_compute. reflexivity. Qed.

End LetterCase.

(** * Further properties of the analyzer and the tagger *)

(** ** Sorting ([Array.prototype.sort] with a numeric comparator) *)

Section Sort.

Context {A : Type} (key : A -> Q).

Local Abbreviation byKeyDescending := (fun a b : A => key b - key a).

Lemma insertSorted_Permutation (x : A) (l : list A) :
  Permutation (Js.insertSorted byKeyDescending x l) (x :: l).
Proof.
  induction l as [|y l IH]; simpl; [reflexivity|].
  destruct (Js.ltb (key x - key y) 0); [|reflexivity].
  rewrite IH. apply perm_swap.
Qed.

Lemma sort_Permutation (l : list A) : Permutation (Js.sort byKeyDescending l) l.
Proof.
  induction l as [|x l IH]; simpl; [reflexivity|].
  rewrite insertSorted_Permutation. now constructor.
Qed.

Lemma sort_In (l : list A) (x : A) : In x (Js.sort byKeyDescending l) <-> In x l.
Proof.
  split; apply Permutation_in; [|symmetry]; apply sort_Permutation.
Qed.

Lemma insertSorted_descending (x : A) (l : list A) :
  StronglySorted (fun a b => key b <= key a) l ->
  StronglySorted (fun a b => key b <= key a) (Js.insertSorted byKeyDescending x l).
Proof.
  induction 1 as [|y l Hl IH Hy]; simpl.
  - repeat constructor.
  - destruct (Js.ltb (key x - key y) 0) eqn:E.
    + apply ltb_lt in E. constructor; [exact IH|].
      apply List.Forall_forall. intros z Hz.
      apply (Permutation_in _ (insertSorted_Permutation x l)) in Hz.
      destruct Hz as [<-|Hz]; [lra|].
      rewrite List.Forall_forall in Hy. now apply Hy.
    + apply ltb_ge in E. constructor; [now constructor|].
      constructor; [lra|].
      eapply List.Forall_impl; [|exact Hy]. cbv beta. intros z Hz. lra.
Qed.

Lemma sort_descending (l : list A) :
  StronglySorted (fun a b => key b <= key a) (Js.sort byKeyDescending l).
Proof.
  induction l as [|x l IH]; simpl; [constructor | now apply insertSorted_descending].
Qed.

(** The sort is stable: the elements that share a key keep their order. *)
Lemma insertSorted_stable (k : Q) (x : A) (l : list A) :
  List.filter (fun a => Qeq_bool (key a) k) (Js.insertSorted byKeyDescending x l)
  = List.filter (fun a => Qeq_bool (key a) k) (x :: l).
Proof.
  induction l as [|y l IH]; [reflexivity|].
  cbn [Js.insertSorted]. destruct (Js.ltb (key x - key y) 0) eqn:E; [|reflexivity].
  apply ltb_lt in E. cbn [List.filter] in *. rewrite IH.
  destruct (Qeq_bool (key x) k) eqn:Ex; [|reflexivity].
  destruct (Qeq_bool (key y) k) eqn:Ey; [|reflexivity].
  apply Qeq_bool_iff in Ex, Ey. exfalso. rewrite Ex, Ey in E. lra.
Qed.

Lemma sort_stable (k : Q) (l : list A) :
  List.filter (fun a => Qeq_bool (key a) k) (Js.sort byKeyDescending l)
  = List.filter (fun a => Qeq_bool (key a) k) l.
Proof.
  induction l as [|x l IH]; [reflexivity|].
  cbn [Js.sort fold_right]. fold (Js.sort byKeyDescending l).
  rewrite insertSorted_stable. cbn [List.filter]. now rewrite IH.
Qed.

End Sort.

(** ** Categories ([categorizeContent]) *)

Section Categories.

Import ContentAnalyzer.

Variable text : string.

Lemma scanCategory_from (config : KeywordRule.t) (keywords : list string)
    (score : Q) (matched : list string) :
  let r := fold_left
    (fun '(score, matchedKeywords) keyword =>
       if Js.includes text keyword
       then (score + KeywordRule.weight config, matchedKeywords ++ [keyword])
       else (score, matchedKeywords))
    keywords (score, matched) in
  fst r == score + KeywordRule.weight config * Js.ofNat (Spec.count text keywords)
  /\ snd r = matched ++ Spec.occurring text keywords.
Proof.
  cbv zeta. unfold Spec.count, Spec.occurring. revert score matched.
  induction keywords as [|k keywords IH]; intros score matched; simpl.
  - split; [unfold Js.ofNat; simpl; ring | now rewrite app_nil_r].
  - destruct (Js.includes text k).
    + destruct (IH (score + KeywordRule.weight config) (matched ++ [k])) as [E1 E2].
      split.
      * rewrite E1. cbn [length]. rewrite ofNat_S. ring.
      * rewrite E2. now rewrite <- app_assoc.
    + apply IH.
Qed.

(** The score of a category is its weight times the number of its keywords
    that occur in the text. *)
Lemma scanCategory_closed (config : KeywordRule.t) :
  fst (scanCategory text config)
    == KeywordRule.weight config
       * Js.ofNat (Spec.count text (KeywordRule.keywords config))
  /\ snd (scanCategory text config)
     = Spec.occurring text (KeywordRule.keywords config).
Proof.
  destruct (scanCategory_from config (KeywordRule.keywords config) 0 []) as [E1 E2].
  split; [|exact E2]. unfold scanCategory. rewrite E1. ring.
Qed.

Lemma categories_loop (table : list (string * KeywordRule.t))
    (categories : list CategoryAnalysis.t) :
  fold_left
    (fun categories '(category, config) =>
       let '(score, matchedKeywords) := scanCategory text config in
       if Js.ltb 0 score
       then categories ++ [CategoryAnalysis.mk category score matchedKeywords
                             (Js.min (score / 5) 1)]
       else categories)
    table categories
  = categories ++ flat_map (Closed.pushedCategory text) table.
Proof.
  revert categories. induction table as [|[category config] table IH];
    intros categories; simpl.
  - now rewrite app_nil_r.
  - rewrite IH. destruct (scanCategory text config) as [score matched].
    destruct (Js.ltb 0 score); [now rewrite <- app_assoc | reflexivity].
Qed.

Lemma categorizeContent_sorted_pushed (this : t) :
  categorizeContent this text
  = Js.sort (fun a b => CategoryAnalysis.score b - CategoryAnalysis.score a)
      (flat_map (Closed.pushedCategory text) (categoryKeywords this)).
Proof. unfold categorizeContent. now rewrite categories_loop. Qed.

End Categories.

Section CategoriesReported.

Import ContentAnalyzer.

Lemma pushedCategory_In (text : string) (entry : string * KeywordRule.t)
    (c : CategoryAnalysis.t) :
  In c (Closed.pushedCategory text entry) <->
  CategoryAnalysis.category c = fst entry
  /\ CategoryAnalysis.score c = fst (scanCategory text (snd entry))
  /\ CategoryAnalysis.matchedKeywords c = snd (scanCategory text (snd entry))
  /\ CategoryAnalysis.confidence c = Js.min (CategoryAnalysis.score c / 5) 1
  /\ 0 < CategoryAnalysis.score c.
Proof.
  destruct entry as [category config]. unfold Closed.pushedCategory. cbn [fst snd].
  destruct (scanCategory text config) as [score matched]. cbn [fst snd].
  destruct (Js.ltb 0 score) eqn:E.
  - apply ltb_lt in E. split.
    + intros [<-|[]]. cbn. auto.
    + intros (E1 & E2 & E3 & E4 & _). left. destruct c; cbn in *. congruence.
  - apply ltb_ge in E. split; [intros []|].
    intros (_ & E2 & _ & _ & Hpos). rewrite E2 in Hpos. lra.
Qed.

(** X1: the categories that [categorizeContent] reports are those of the
    table with a positive score, where the score of a category is its
    weight times the number of its keywords that occur in the text; each
    carries exactly the occurring keywords and the confidence
    min(score / 5, 1).  A category of positive weight with an occurring
    keyword is always reported. *)
Theorem categorizeContent_reports (this : t) (text : string) :
  (forall c, In c (categorizeContent this text) ->
     exists category config,
       In (category, config) (categoryKeywords this)
       /\ CategoryAnalysis.category c = category
       /\ CategoryAnalysis.matchedKeywords c
          = Spec.occurring text (KeywordRule.keywords config)
       /\ CategoryAnalysis.score c
          == KeywordRule.weight config
             * inject_Z (Z.of_nat (Spec.count text (KeywordRule.keywords config)))
       /\ 0 < CategoryAnalysis.score c
       /\ CategoryAnalysis.confidence c == Qmin (CategoryAnalysis.score c / 5) 1)
  /\ (forall category config,
        In (category, config) (categoryKeywords this) ->
        0 < KeywordRule.weight config ->
        Spec.tierMatches text config ->
        exists c,
          In c (categorizeContent this text)
          /\ CategoryAnalysis.category c = category
          /\ CategoryAnalysis.matchedKeywords c
             = Spec.occurring text (KeywordRule.keywords config)).
Proof.
  rewrite categorizeContent_sorted_pushed. split.
  - intros c Hc. apply sort_In, in_flat_map in Hc.
    destruct Hc as ([category config] & Hin & Hc).
    apply pushedCategory_In in Hc. cbn [fst snd] in Hc.
    destruct Hc as (E1 & E2 & E3 & E4 & Hpos).
    destruct (scanCategory_closed text config) as [Es Em].
    exists category, config. split; [exact Hin|]. split; [exact E1|].
    split; [now rewrite E3|]. split; [rewrite E2; exact Es|].
    split; [exact Hpos|]. rewrite E4. apply min_Qmin.
  - intros category config Hin Hw Hhit.
    destruct (scanCategory_closed text config) as [Es Em].
    assert (Hpos : 0 < fst (scanCategory text config)).
    { rewrite Es. apply Qmult_lt_0_compat; [exact Hw|].
      apply filter_nonempty_tierMatches in Hhit.
      unfold Spec.count, Spec.occurring.
      destruct (List.filter (Js.includes text) (KeywordRule.keywords config));
        [congruence|].
      change 0 with (Js.ofNat 0). apply ofNat_lt. cbn. lia. }
    exists (CategoryAnalysis.mk category (fst (scanCategory text config))
              (snd (scanCategory text config))
              (Js.min (fst (scanCategory text config) / 5) 1)).
    split; [|split; [reflexivity | exact Em]].
    apply sort_In, in_flat_map. exists (category, config). split; [exact Hin|].
    apply pushedCategory_In. cbn. auto.
Qed.

(** X2: [categorizeContent] returns its categories by descending score,
    and categories of equal score keep the order of the table; so the top
    category used for the category tag and for the overall confidence has
    the highest score, the first of the table among equals. *)
Theorem categorizeContent_sorted (this : t) (text : string) :
  StronglySorted (fun a b => CategoryAnalysis.score b <= CategoryAnalysis.score a)
    (categorizeContent this text)
  /\ forall k,
       List.map CategoryAnalysis.category
         (List.filter (fun c => Qeq_bool (CategoryAnalysis.score c) k)
            (categorizeContent this text))
       = List.map fst
           (List.filter
              (fun e => Js.ltb 0 (fst (scanCategory text (snd e)))
                        && Qeq_bool (fst (scanCategory text (snd e))) k)
              (categoryKeywords this)).
Proof.
  rewrite categorizeContent_sorted_pushed. split; [apply sort_descending|].
  intros k. rewrite sort_stable.
  induction (categoryKeywords this) as [|[category config] table IH];
    [reflexivity|].
  cbn [flat_map List.filter]. rewrite List.filter_app, List.map_app, IH.
  unfold Closed.pushedCategory at 1. cbn [fst snd].
  destruct (scanCategory text config) as [score matched]. cbn [fst].
  destruct (Js.ltb 0 score); cbn [List.filter CategoryAnalysis.score andb];
    [|reflexivity].
  destruct (Qeq_bool score k); reflexivity.
Qed.

Example categorizeContent_tie :
  List.map (fun c => (CategoryAnalysis.category c, CategoryAnalysis.score c))
    (categorizeContent constructor "refund my account, the login page shows a bug")
  = [("account", 4); ("technical", 2); ("billing", 2)].
Proof. vm_compute. reflexivity. Qed.

End CategoriesReported.

(** ** Products ([analyzeProducts]) *)

Section Products.

Import ContentAnalyzer.

Lemma products_loop (text : string) (table : list (string * list string))
    (products : list ProductAnalysis.t) :
  fold_left
    (fun products '(product, keywords) =>
       let matchedKeywords := List.filter (Js.includes text) keywords in
       if (0 <? length matchedKeywords)%nat
       then products ++ [ProductAnalysis.mk product matchedKeywords
                           (Js.min (Js.ofNat (length matchedKeywords)
                                    / Js.ofNat (length keywords)) 1)]
       else products)
    table products
  = products ++ flat_map (Closed.pushedProduct text) table.
Proof.
  revert products. induction table as [|[product keywords] table IH];
    intros products; simpl.
  - now rewrite app_nil_r.
  - rewrite IH.
    destruct (0 <? length (List.filter (Js.includes text) keywords))%nat;
      [now rewrite <- app_assoc | reflexivity].
Qed.

Lemma analyzeProducts_sorted_pushed (this : t) (text : string) :
  analyzeProducts this text
  = Js.sort (fun a b => ProductAnalysis.confidence b - ProductAnalysis.confidence a)
      (flat_map (Closed.pushedProduct text) (productKeywords this)).
Proof. unfold analyzeProducts. now rewrite products_loop. Qed.

Lemma ofNat_ratio (m n : nat) :
  (0 < m)%nat -> (m <= n)%nat ->
  0 < Js.ofNat m / Js.ofNat n /\ Js.ofNat m / Js.ofNat n <= 1.
Proof.
  intros Hm Hmn.
  assert (Hn : 0 < Js.ofNat n) by (change 0 with (Js.ofNat 0); apply ofNat_lt; lia).
  assert (Hm' : 0 < Js.ofNat m) by (change 0 with (Js.ofNat 0); apply ofNat_lt; lia).
  assert (Hle : Js.ofNat m <= Js.ofNat n).
  { unfold Js.ofNat. rewrite <- Zle_Qle. lia. }
  split.
  - apply Qlt_shift_div_l; [exact Hn|]. lra.
  - apply Qle_shift_div_r; [exact Hn|]. lra.
Qed.

(** X3: [analyzeProducts] reports exactly the product families with an
    occurring keyword; each carries the occurring keywords of its family
    and, as confidence, their share of the family's keyword list, which
    lies in (0, 1]; the list is sorted by descending confidence. *)
Theorem analyzeProducts_reports (this : t) (text : string) :
  (forall p, In p (analyzeProducts this text) ->
     exists product keywords,
       In (product, keywords) (productKeywords this)
       /\ ProductAnalysis.product p = product
       /\ ProductAnalysis.matchedKeywords p = Spec.occurring text keywords
       /\ Spec.occurring text keywords <> []
       /\ ProductAnalysis.confidence p
          == inject_Z (Z.of_nat (Spec.count text keywords))
             / inject_Z (Z.of_nat (length keywords))
       /\ 0 < ProductAnalysis.confidence p <= 1)
  /\ (forall product keywords,
        In (product, keywords) (productKeywords this) ->
        Spec.occurring text keywords <> [] ->
        exists p,
          In p (analyzeProducts this text)
          /\ ProductAnalysis.product p = product
          /\ ProductAnalysis.matchedKeywords p = Spec.occurring text keywords)
  /\ StronglySorted
       (fun a b => ProductAnalysis.confidence b <= ProductAnalysis.confidence a)
       (analyzeProducts this text).
Proof.
  rewrite analyzeProducts_sorted_pushed.
  assert (Hin : forall p,
             In p (flat_map (Closed.pushedProduct text) (productKeywords this)) <->
             exists product keywords,
               In (product, keywords) (productKeywords this)
               /\ Spec.occurring text keywords <> []
               /\ p = ProductAnalysis.mk product (Spec.occurring text keywords)
                        (Js.min (Js.ofNat (Spec.count text keywords)
                                 / Js.ofNat (length keywords)) 1)).
  { intros p. rewrite in_flat_map. unfold Spec.count, Spec.occurring. split.
    - intros ([product keywords] & Hin & Hp). exists product, keywords.
      split; [exact Hin|]. unfold Closed.pushedProduct in Hp.
      destruct (List.filter (Js.includes text) keywords) as [|k m] eqn:E;
        [destruct Hp|].
      destruct Hp as [<-|[]]. split; [discriminate | reflexivity].
    - intros (product & keywords & Hin & Hne & ->).
      exists (product, keywords). split; [exact Hin|].
      unfold Closed.pushedProduct.
      destruct (List.filter (Js.includes text) keywords) as [|k m] eqn:E;
        [congruence|]. now left. }
  split; [|split].
  - intros p Hp. apply sort_In, Hin in Hp.
    destruct Hp as (product & keywords & H1 & H2 & ->).
    exists product, keywords. split; [exact H1|].
    cbn [ProductAnalysis.confidence ProductAnalysis.product
         ProductAnalysis.matchedKeywords].
    destruct (ofNat_ratio (Spec.count text keywords) (length keywords)) as [H0 Hle].
    { unfold Spec.count. destruct (Spec.occurring text keywords); [congruence|].
      cbn. lia. }
    { apply List.filter_length_le. }
    assert (E : Js.min (Js.ofNat (Spec.count text keywords)
                        / Js.ofNat (length keywords)) 1
                == Js.ofNat (Spec.count text keywords) / Js.ofNat (length keywords)).
    { rewrite min_Qmin. now apply Q.min_l. }
    split; [reflexivity|]. split; [reflexivity|]. split; [exact H2|].
    split; [exact E|]. rewrite E. auto.
  - intros product keywords H1 H2. eexists. split.
    + apply sort_In, Hin. exists product, keywords. eauto.
    + split; reflexivity.
  - apply sort_descending.
Qed.

Example analyzeProducts_shares :
  List.map (fun p => (ProductAnalysis.product p, ProductAnalysis.confidence p))
    (analyzeProducts constructor "the ios app crashes on my phone; the sdk webhook too")
  = [("mobile", 3 # 7); ("api", 2 # 6)].
Proof. vm_compute. reflexivity. Qed.

End Products.

(** ** Bounds of the confidences *)

Section ConfidenceBounds.

Import ContentAnalyzer.

Lemma min_one_bounds (x : Q) :
  (0 <= x -> 0 <= Js.min x 1 <= 1) /\ (0 < x -> 0 < Js.min x 1 <= 1).
Proof.
  unfold Js.min. destruct (Js.ltb 1 x) eqn:E.
  - split; intros _; lra.
  - apply ltb_ge in E. split; intros H; lra.
Qed.

Lemma scanPriorityTier_score (text : string) (st : PriorityScan)
    (entry : string * KeywordRule.t) :
  0 <= scanScore st -> 0 <= scanScore (scanPriorityTier text st entry).
Proof.
  intros H. destruct entry as [priority config]. rewrite scanPriorityTier_closed.
  destruct (List.filter (Js.includes text) (KeywordRule.keywords config));
    [exact H|].
  destruct (Js.ltb (scanScore st) (KeywordRule.weight config)) eqn:E;
    cbn [scanScore]; [|exact H].
  apply ltb_lt in E. lra.
Qed.

Lemma scanPriority_score (this : t) (text : string) :
  0 <= scanScore (scanPriority this text).
Proof.
  unfold scanPriority.
  assert (H : 0 <= scanScore (mkScan "normal" 0 [])) by (cbn; lra).
  revert H. generalize (mkScan "normal" 0 []).
  induction (priorityKeywords this) as [|entry table IH]; intros st H; simpl;
    [exact H|].
  apply IH. now apply scanPriorityTier_score.
Qed.

Lemma analyzePriority_confidence_bounds (this : t) (text : string) :
  0 < PriorityAnalysis.confidence (analyzePriority this text) <= 1.
Proof.
  unfold analyzePriority. cbn [PriorityAnalysis.confidence].
  destruct (Js.ltb 0 (scanScore (scanPriority this text))) eqn:E; [|lra].
  apply ltb_lt in E. apply min_one_bounds.
  apply Qlt_shift_div_l; lra.
Qed.

Lemma analyzeSentiment_confidence_bounds (this : t) (text : string) :
  0 <= SentimentAnalysis.confidence (analyzeSentiment this text) <= 1.
Proof.
  unfold analyzeSentiment.
  destruct (countWords_count text (SentimentKeywords.positive (sentimentKeywords this)))
    as [Ep _].
  destruct (countWords_count text (SentimentKeywords.negative (sentimentKeywords this)))
    as [En _].
  destruct (countWords text (SentimentKeywords.positive (sentimentKeywords this)))
    as [positiveScore positiveWords].
  destruct (countWords text (SentimentKeywords.negative (sentimentKeywords this)))
    as [negativeScore negativeWords].
  cbn [fst] in Ep, En.
  assert (Hp : 0 <= positiveScore).
  { rewrite Ep. unfold Js.ofNat. change 0 with (inject_Z 0). rewrite <- Zle_Qle. lia. }
  assert (Hn : 0 <= negativeScore).
  { rewrite En. unfold Js.ofNat. change 0 with (inject_Z 0). rewrite <- Zle_Qle. lia. }
  destruct (Js.ltb positiveScore negativeScore);
    [|destruct (Js.ltb negativeScore positiveScore)];
    cbn [SentimentAnalysis.confidence]; apply min_one_bounds;
    apply Qle_shift_div_l; lra.
Qed.

Lemma categorizeContent_confidence_bounds (this : t) (text : string)
    (c : CategoryAnalysis.t) :
  In c (categorizeContent this text) -> 0 < CategoryAnalysis.confidence c <= 1.
Proof.
  rewrite categorizeContent_sorted_pushed. intros Hc.
  apply sort_In, in_flat_map in Hc. destruct Hc as (entry & _ & Hc).
  apply pushedCategory_In in Hc. destruct Hc as (_ & _ & _ & -> & Hpos).
  apply min_one_bounds. apply Qlt_shift_div_l; lra.
Qed.

Lemma lengthFactor_bounds (text : string) : 0 <= Spec.lengthFactor text <= 1.
Proof.
  unfold Spec.lengthFactor. split; [|apply Q.le_min_r].
  apply Q.min_glb; [|lra]. apply Qle_shift_div_l; [lra|].
  change (0 * 500) with (inject_Z 0). rewrite <- Zle_Qle. lia.
Qed.

(** X4: whatever the rule tables and the ticket, every confidence that
    [analyzeTicket] returns is a number between 0 and 1: those of the
    reported categories, of the priority and the overall confidence are
    above 0 (the priority term alone is never 0), that of the sentiment is
    at least 0. *)
Theorem analyzeTicket_confidence_bounds (this : t) (ticket : ZendeskTicket.t) :
  let a := analyzeTicket this ticket in
  Forall (fun c => 0 < CategoryAnalysis.confidence c <= 1) (TicketAnalysis.categories a)
  /\ 0 < PriorityAnalysis.confidence (TicketAnalysis.priority a) <= 1
  /\ 0 <= SentimentAnalysis.confidence (TicketAnalysis.sentiment a) <= 1
  /\ 0 < TicketAnalysis.confidence a <= 1.
Proof.
  cbv zeta.
  destruct (analyzeTicket_fields this ticket) as (_ & Ecat & Epri & Esen & _).
  cbv zeta in Ecat, Epri, Esen.
  assert (Hcat : Forall (fun c => 0 < CategoryAnalysis.confidence c <= 1)
                   (TicketAnalysis.categories (analyzeTicket this ticket))).
  { rewrite Ecat. apply List.Forall_forall. intros c.
    apply categorizeContent_confidence_bounds. }
  assert (Hpri := analyzePriority_confidence_bounds this (ticketText ticket)).
  assert (Hsen := analyzeSentiment_confidence_bounds this (ticketText ticket)).
  rewrite <- Epri in Hpri. rewrite <- Esen in Hsen.
  split; [exact Hcat|]. split; [exact Hpri|]. split; [exact Hsen|].
  pose proof (lengthFactor_bounds (ticketText ticket)) as Hlen.
  rewrite analyzeTicket_confidence, calculateConfidence_doubleMean.
  unfold Spec.presentTerms.
  destruct (TicketAnalysis.categories (analyzeTicket this ticket)) as [|top rest];
    cbn [app].
  - assert (Hp : 0 <= PriorityAnalysis.confidence
                       (TicketAnalysis.priority (analyzeTicket this ticket)) <= 1)
      by lra.
    destruct (doubleMean_three _ _ _ Hp Hsen Hlen) as (B & P & _).
    cbv zeta in B, P. split; [apply P; lra | apply B].
  - apply List.Forall_cons_iff in Hcat. destruct Hcat as [Htop _].
    assert (Hp : 0 <= PriorityAnalysis.confidence
                       (TicketAnalysis.priority (analyzeTicket this ticket)) <= 1)
      by lra.
    assert (Hc : 0 <= CategoryAnalysis.confidence top <= 1) by lra.
    destruct (doubleMean_four _ _ _ _ Hc Hp Hsen Hlen) as (B & P & _).
    cbv zeta in B, P. split; [apply P; lra | apply B].
Qed.

End ConfidenceBounds.

(** ** The overall confidence as a mean *)

Section ConfidenceMean.

Import ContentAnalyzer.

(** C1, as the code has it: the overall confidence is the unweighted mean
    of the terms that are present, computed in double arithmetic (the
    terms are added to 0 from left to right and the sum is divided by
    their number, every operation rounding), and so within [2^-50] of their
    exact mean.  When some category matched these are the four terms of
    the specification (top category, priority, sentiment, length factor);
    when no category matched, the category term is left out and the mean
    is over the remaining three, so the divisor is 3 and not 4. *)
Theorem analyzeTicket_confidence_mean_of_present_terms
    (this : t) (ticket : ZendeskTicket.t) :
  let a := analyzeTicket this ticket in
  let text := ticketText ticket in
  let exactMean :=
    match TicketAnalysis.categories a with
    | _ :: _ => Spec.meanOfFour a text
    | [] =>
        (PriorityAnalysis.confidence (TicketAnalysis.priority a)
         + SentimentAnalysis.confidence (TicketAnalysis.sentiment a)
         + Spec.lengthFactor text) / 3
    end in
  TicketAnalysis.confidence a == Spec.doubleMean (Spec.presentTerms a text)
  /\ Spec.mean (Spec.presentTerms a text) == exactMean
  /\ - Spec.meanTolerance <= TicketAnalysis.confidence a - exactMean
     <= Spec.meanTolerance.
Proof.
  cbv zeta.
  assert (E : TicketAnalysis.confidence (analyzeTicket this ticket)
              == Spec.doubleMean
                   (Spec.presentTerms (analyzeTicket this ticket) (ticketText ticket))).
  { rewrite analyzeTicket_confidence. apply calculateConfidence_doubleMean. }
  split; [exact E|]. split; [apply mean_presentTerms|].
  rewrite E. clear E.
  destruct (analyzeTicket_fields this ticket) as (_ & Ecat & Epri & Esen & _).
  cbv zeta in Ecat, Epri, Esen.
  assert (Hcat : Forall (fun c => 0 < CategoryAnalysis.confidence c <= 1)
                   (TicketAnalysis.categories (analyzeTicket this ticket))).
  { rewrite Ecat. apply List.Forall_forall. intros c.
    apply categorizeContent_confidence_bounds. }
  assert (Hpri := analyzePriority_confidence_bounds this (ticketText ticket)).
  assert (Hsen := analyzeSentiment_confidence_bounds this (ticketText ticket)).
  rewrite <- Epri in Hpri. rewrite <- Esen in Hsen.
  pose proof (lengthFactor_bounds (ticketText ticket)) as Hlen.
  assert (Hp : 0 <= PriorityAnalysis.confidence
                     (TicketAnalysis.priority (analyzeTicket this ticket)) <= 1)
    by lra.
  unfold Spec.presentTerms, Spec.meanOfFour, Spec.topCategoryConfidence.
  destruct (TicketAnalysis.categories (analyzeTicket this ticket)) as [|top rest];
    cbn [app].
  - destruct (doubleMean_three _ _ _ Hp Hsen Hlen) as (_ & _ & Herr). exact Herr.
  - apply List.Forall_cons_iff in Hcat. destruct Hcat as [Htop _].
    assert (Hc : 0 <= CategoryAnalysis.confidence top <= 1) by lra.
    destruct (doubleMean_four _ _ _ _ Hc Hp Hsen Hlen) as (_ & _ & Herr). exact Herr.
Qed.

(** C1 fails as stated: the ticket "hello" matches no category, and its
    confidence is the double nearest to (1/2 + 0 + 5/500) / 3 = 0.17, while
    the mean of four terms with a zero category term would be 0.1275; the
    distance is far beyond any rounding. *)
Lemma analyzeTicket_confidence_not_mean_of_four :
  let ticket := ticketWithSubject 1 "hello" in
  let a := analyzeTicket constructor ticket in
  TicketAnalysis.categories a = []
  /\ TicketAnalysis.confidence a == 6124895493223875 # 36028797018963968
  /\ Spec.meanOfFour a (ticketText ticket) == 1275 # 10000
  /\ 4 # 100 < TicketAnalysis.confidence a - Spec.meanOfFour a (ticketText ticket)
  /\ ~ TicketAnalysis.confidence a == Spec.meanOfFour a (ticketText ticket).
Proof.
  cbv zeta. split; [|split; [|split; [|split]]].
  - vm_compute. reflexivity.
  - vm_compute. reflexivity.
  - vm_compute. reflexivity.
  - vm_compute. reflexivity.
  - vm_compute. discriminate.
Qed.

End ConfidenceMean.

(** ** How many tags, and which *)

Section TagBounds.

Import ContentAnalyzer.

Lemma generateTags_dedupFirst (analysis : TicketAnalysis.t) :
  generateTags analysis = Spec.dedupFirst (Spec.policy analysis).
Proof. unfold generateTags. now rewrite uniq_dedupFirst, pushedTags_policy. Qed.

Lemma generateTags_In (analysis : TicketAnalysis.t) (tag : string) :
  In tag (generateTags analysis) <-> In tag (Spec.policy analysis).
Proof. rewrite generateTags_dedupFirst. apply dedupFirst_In. Qed.

Lemma secondaryRule_incl (analysis : TicketAnalysis.t) :
  incl (Spec.secondaryRule analysis) (List.map snd Spec.secondaryTable).
Proof.
  intros tag Hin. unfold Spec.secondaryRule in Hin. apply in_flat_map in Hin.
  destruct Hin as (c & _ & Hc).
  destruct (Qlt_le_dec (6 # 10) (CategoryAnalysis.confidence c)); [|destruct Hc].
  unfold Spec.secondaryTable, Spec.lookup in Hc.
  repeat (match type of Hc with
          | context [string_dec ?a ?b] => destruct (string_dec a b)
          end;
          [destruct Hc as [<-|[]]; cbn; tauto|]).
  destruct Hc.
Qed.

(** X5: [generateTags] returns between one and nine tags for every
    analysis, however many categories it holds: the marker, at most one tag
    for each of category, priority, sentiment and product, and at most the
    four secondary tags. *)
Theorem generateTags_at_most_nine (analysis : TicketAnalysis.t) :
  (1 <= length (generateTags analysis) <= 9)%nat.
Proof.
  rewrite generateTags_dedupFirst. split.
  - unfold Spec.policy. cbn. lia.
  - set (bound := [Spec.markerTag] ++ Spec.categoryRule analysis
                  ++ Spec.priorityRule analysis ++ Spec.sentimentRule analysis
                  ++ Spec.productRule analysis ++ List.map snd Spec.secondaryTable).
    assert (Hincl : incl (Spec.dedupFirst (Spec.policy analysis)) bound).
    { intros tag Hin. apply (proj1 (dedupFirst_In _ _)) in Hin.
      unfold Spec.policy in Hin. unfold bound.
      repeat (apply in_app_or in Hin; destruct Hin as [H|Hin];
              [apply in_or_app; now left | apply in_or_app; right]).
      exact (secondaryRule_incl analysis tag Hin). }
    apply (List.NoDup_incl_length (dedupFirst_NoDup _)) in Hincl.
    assert (Hlen : (length bound <= 9)%nat).
    { unfold bound, Spec.categoryRule, Spec.priorityRule, Spec.sentimentRule,
        Spec.productRule. rewrite !length_app.
      destruct (TicketAnalysis.categories analysis) as [|top ?];
        destruct (TicketAnalysis.products analysis) as [|topProduct ?];
        repeat (match goal with
                | |- context [Qlt_le_dec ?a ?b] => destruct (Qlt_le_dec a b)
                | |- context [string_dec ?a ?b] => destruct (string_dec a b)
                end); cbn; lia. }
    lia.
Qed.

(** A ticket that gets all nine tags. *)
Example generateTags_nine :
  TicketAnalysis.suggestedTags
    (analyzeTicket constructor
       (ticketWithSubject 3
          ("Urgent: terrible, awful bug and server error in the ios app on my phone. "
           +:+ "Please refund the invoice, reset my account password, "
           +:+ "and see my feature request for an enhancement.")))
  = ["auto-processed"; "category-feature_request"; "priority-urgent";
     "sentiment-negative"; "product-mobile"; "feature-request";
     "needs-technical-review"; "billing-inquiry"; "account-management"].
Proof. vm_compute. reflexivity. Qed.

End TagBounds.

Section PriorityTags.

Import ContentAnalyzer.

(** Only the priority rule makes tags that start with "priority-". *)
Lemma policy_priority_tag (analysis : TicketAnalysis.t) (level : string) :
  In ("priority-" +:+ level) (Spec.policy analysis)
  <-> In ("priority-" +:+ level) (Spec.priorityRule analysis).
Proof.
  unfold Spec.policy. split.
  - intros Hin.
    apply in_app_or in Hin. destruct Hin as [[H|[]]|Hin]; [discriminate|].
    apply in_app_or in Hin. destruct Hin as [H|Hin].
    { unfold Spec.categoryRule in H.
      destruct (TicketAnalysis.categories analysis); [destruct H|].
      destruct (Qlt_le_dec _ _); [|destruct H]. destruct H as [H|[]]. discriminate. }
    apply in_app_or in Hin. destruct Hin as [H|Hin]; [exact H|].
    apply in_app_or in Hin. destruct Hin as [H|Hin].
    { unfold Spec.sentimentRule in H. cbv zeta in H.
      destruct (string_dec _ _); [destruct H|].
      destruct (Qlt_le_dec _ _); [|destruct H]. destruct H as [H|[]]. discriminate. }
    apply in_app_or in Hin. destruct Hin as [H|Hin].
    { unfold Spec.productRule in H.
      destruct (TicketAnalysis.products analysis); [destruct H|].
      destruct (Qlt_le_dec _ _); [|destruct H]. destruct H as [H|[]]. discriminate. }
    apply secondaryRule_incl in Hin. cbn in Hin.
    destruct Hin as [H|[H|[H|[H|[]]]]]; discriminate.
  - intros H. apply in_or_app. right. apply in_or_app. right.
    apply in_or_app. now left.
Qed.

Lemma constructor_priority_cases (text : string) :
  let p := analyzePriority constructor text in
  (PriorityAnalysis.level p = "normal" /\ PriorityAnalysis.confidence p = 1 # 2)
  \/ (PriorityAnalysis.level p = "urgent" /\ PriorityAnalysis.confidence p == 1)
  \/ (PriorityAnalysis.level p = "high" /\ PriorityAnalysis.confidence p == 2 # 3)
  \/ (PriorityAnalysis.level p = "low" /\ PriorityAnalysis.confidence p == 1 # 3).
Proof.
  cbv zeta.
  destruct (scanPriority_scanned text constructor
              constructor_priority_weights_positive) as (_ & _ & Horigin).
  unfold analyzePriority. cbn [PriorityAnalysis.level PriorityAnalysis.confidence].
  destruct Horigin as [[-> ->]|(name & rule & Hin & _ & -> & ->)].
  - left. split; reflexivity.
  - right. cbn in Hin.
    destruct Hin as [E|[E|[E|[]]]]; inversion E; subst; cbn;
      [left | right; left | right; right]; split; reflexivity.
Qed.

Lemma constructor_priorityRule (analysis : TicketAnalysis.t) (text : string) :
  TicketAnalysis.priority analysis = analyzePriority constructor text ->
  let level := PriorityAnalysis.level (TicketAnalysis.priority analysis) in
  (level = "urgent" /\ Spec.priorityRule analysis = ["priority-urgent"])
  \/ (level = "high" /\ Spec.priorityRule analysis = ["priority-high"])
  \/ ((level = "low" \/ level = "normal") /\ Spec.priorityRule analysis = []).
Proof.
  intros E. cbv zeta. unfold Spec.priorityRule. cbv zeta. rewrite E.
  destruct (constructor_priority_cases text)
    as [[El Ec]|[[El Ec]|[[El Ec]|[El Ec]]]]; cbv zeta in El, Ec; rewrite El.
  - right. right. split; [now right|].
    destruct (string_dec "normal" "normal"); [reflexivity | congruence].
  - left. split; [reflexivity|].
    destruct (string_dec "urgent" "normal"); [discriminate|].
    destruct (Qlt_le_dec (1 # 2) _) as [Hc|Hc]; [reflexivity|].
    rewrite Ec in Hc. lra.
  - right. left. split; [reflexivity|].
    destruct (string_dec "high" "normal"); [discriminate|].
    destruct (Qlt_le_dec (1 # 2) _) as [Hc|Hc]; [reflexivity|].
    rewrite Ec in Hc. lra.
  - right. right. split; [now left|].
    destruct (string_dec "low" "normal"); [discriminate|].
    destruct (Qlt_le_dec (1 # 2) _) as [Hc|Hc]; [|reflexivity].
    rewrite Ec in Hc. lra.
Qed.

(** X6: of the priority levels, the analyzer only ever suggests the tags
    "priority-urgent" and "priority-high", exactly when the level is
    "urgent" or "high".  The level "low" is found (its confidence is 1/3)
    but never tagged, since the priority rule asks for a confidence above
    1/2; "normal" is never tagged either. *)
Theorem analyzeTicket_priority_tags (ticket : ZendeskTicket.t) :
  let a := analyzeTicket constructor ticket in
  let tags := TicketAnalysis.suggestedTags a in
  let level := PriorityAnalysis.level (TicketAnalysis.priority a) in
  (In "priority-urgent" tags <-> level = "urgent")
  /\ (In "priority-high" tags <-> level = "high")
  /\ ~ In "priority-low" tags
  /\ ~ In "priority-normal" tags.
Proof.
  cbv zeta. unfold analyzeTicket.
  cbn [TicketAnalysis.suggestedTags TicketAnalysis.priority
       TicketAnalysis.ticketId TicketAnalysis.categories TicketAnalysis.sentiment
       TicketAnalysis.products TicketAnalysis.confidence].
  set (a0 := TicketAnalysis.mk _ _ _ _ _ [] 0).
  assert (Htag : forall level,
             In ("priority-" +:+ level) (generateTags a0)
             <-> In ("priority-" +:+ level) (Spec.priorityRule a0)).
  { intros level. rewrite generateTags_In. apply policy_priority_tag. }
  change "priority-urgent" with ("priority-" +:+ "urgent").
  change "priority-high" with ("priority-" +:+ "high").
  change "priority-low" with ("priority-" +:+ "low").
  change "priority-normal" with ("priority-" +:+ "normal").
  rewrite !Htag.
  destruct (constructor_priorityRule a0 (ticketText ticket) eq_refl)
    as [[El ->]|[[El ->]|[El ->]]]; cbv zeta in El;
    change (TicketAnalysis.priority a0)
      with (analyzePriority constructor (ticketText ticket)) in El.
  - rewrite El. cbn [In]. split; [|split; [|split]];
      first [ split; [intros [H|[]]; first [reflexivity | discriminate H]
                     | intros H; first [discriminate H | now left]]
            | intros [H|[]]; discriminate H ].
  - rewrite El. cbn [In]. split; [|split; [|split]];
      first [ split; [intros [H|[]]; first [reflexivity | discriminate H]
                     | intros H; first [discriminate H | now left]]
            | intros [H|[]]; discriminate H ].
  - cbn [In]. split; [|split; [|split]];
      first [ split; [intros []
                     | intros H; destruct El as [El|El]; rewrite El in H;
                       discriminate H]
            | intros [] ].
Qed.

Example analyzeTicket_low_priority_untagged :
  let a := analyzeTicket constructor
             (ticketWithSubject 4 "No rush, just a minor cosmetic issue with billing") in
  PriorityAnalysis.level (TicketAnalysis.priority a) = "low"
  /\ TicketAnalysis.suggestedTags a = ["auto-processed"; "category-billing"].
Proof. cbv zeta. split; vm_compute; reflexivity. Qed.

End PriorityTags.

Section SentimentTags.

Import ContentAnalyzer.

(** Only the sentiment rule makes tags that start with "sentiment-". *)
Lemma policy_sentiment_tag (analysis : TicketAnalysis.t) (label : string) :
  In ("sentiment-" +:+ label) (Spec.policy analysis)
  <-> In ("sentiment-" +:+ label) (Spec.sentimentRule analysis).
Proof.
  unfold Spec.policy. split.
  - intros Hin.
    apply in_app_or in Hin. destruct Hin as [[H|[]]|Hin]; [discriminate|].
    apply in_app_or in Hin. destruct Hin as [H|Hin].
    { unfold Spec.categoryRule in H.
      destruct (TicketAnalysis.categories analysis); [destruct H|].
      destruct (Qlt_le_dec _ _); [|destruct H]. destruct H as [H|[]]. discriminate. }
    apply in_app_or in Hin. destruct Hin as [H|Hin].
    { unfold Spec.priorityRule in H. cbv zeta in H.
      destruct (string_dec _ _); [destruct H|].
      destruct (Qlt_le_dec _ _); [|destruct H]. destruct H as [H|[]]. discriminate. }
    apply in_app_or in Hin. destruct Hin as [H|Hin]; [exact H|].
    apply in_app_or in Hin. destruct Hin as [H|Hin].
    { unfold Spec.productRule in H.
      destruct (TicketAnalysis.products analysis); [destruct H|].
      destruct (Qlt_le_dec _ _); [|destruct H]. destruct H as [H|[]]. discriminate. }
    apply secondaryRule_incl in Hin. cbn in Hin.
    destruct Hin as [H|[H|[H|[H|[]]]]]; discriminate.
  - intros H. do 3 (apply in_or_app; right). apply in_or_app. now left.
Qed.

(** The label and the confidence of the sentiment from the two counts. *)
Lemma analyzeSentiment_label (this : t) (text : string) :
  let s := analyzeSentiment this text in
  let p := Spec.count text (SentimentKeywords.positive (sentimentKeywords this)) in
  let n := Spec.count text (SentimentKeywords.negative (sentimentKeywords this)) in
  SentimentAnalysis.sentiment s
  = (if (p <? n)%nat then "negative" else if (n <? p)%nat then "positive" else "neutral")
  /\ SentimentAnalysis.confidence s == Qmin ((Js.ofNat p + Js.ofNat n) / 3) 1.
Proof.
  cbv zeta. unfold analyzeSentiment.
  destruct (countWords_count text (SentimentKeywords.positive (sentimentKeywords this)))
    as [Ep _].
  destruct (countWords_count text (SentimentKeywords.negative (sentimentKeywords this)))
    as [En _].
  destruct (countWords text (SentimentKeywords.positive (sentimentKeywords this)))
    as [positiveScore positiveWords].
  destruct (countWords text (SentimentKeywords.negative (sentimentKeywords this)))
    as [negativeScore negativeWords].
  cbn [fst] in Ep, En.
  set (p := Spec.count text (SentimentKeywords.positive (sentimentKeywords this))) in *.
  set (n := Spec.count text (SentimentKeywords.negative (sentimentKeywords this))) in *.
  assert (Hconf : Js.min ((positiveScore + negativeScore) / 3) 1
                  == Qmin ((Js.ofNat p + Js.ofNat n) / 3) 1).
  { rewrite min_Qmin, Ep, En. reflexivity. }
  assert (H1 : Js.ltb positiveScore negativeScore = (p <? n)%nat).
  { destruct (p <? n)%nat eqn:E.
    - apply Nat.ltb_lt, ofNat_lt in E. apply ltb_lt. now rewrite Ep, En.
    - apply Nat.ltb_ge in E. apply ltb_ge. rewrite Ep, En.
      unfold Js.ofNat. rewrite <- Zle_Qle. lia. }
  assert (H2 : Js.ltb negativeScore positiveScore = (n <? p)%nat).
  { destruct (n <? p)%nat eqn:E.
    - apply Nat.ltb_lt, ofNat_lt in E. apply ltb_lt. now rewrite Ep, En.
    - apply Nat.ltb_ge in E. apply ltb_ge. rewrite Ep, En.
      unfold Js.ofNat. rewrite <- Zle_Qle. lia. }
  rewrite H1, H2.
  destruct (p <? n)%nat; [|destruct (n <? p)%nat];
    cbn [SentimentAnalysis.sentiment SentimentAnalysis.confidence];
    split; (reflexivity || exact Hconf).
Qed.

Lemma sentiment_confidence_threshold (p n : nat) :
  4 # 10 < Qmin ((Js.ofNat p + Js.ofNat n) / 3) 1 <-> (2 <= p + n)%nat.
Proof.
  assert (E : (Js.ofNat p + Js.ofNat n) / 3 == inject_Z (Z.of_nat (p + n)) * (1 # 3)).
  { unfold Js.ofNat. rewrite Nat2Z.inj_add, inject_Z_plus. field. }
  rewrite E. rewrite Q.min_glb_lt_iff. split.
  - intros [H _]. 
    assert (H' : inject_Z 1 < inject_Z (Z.of_nat (p + n))).
    { change (inject_Z 1) with 1. lra. }
    rewrite <- Zlt_Qlt in H'. lia.
  - intros H. split; [|reflexivity].
    assert (H' : inject_Z 2 <= inject_Z (Z.of_nat (p + n))).
    { rewrite <- Zle_Qle. lia. }
    change (inject_Z 2) with 2 in H'. lra.
Qed.

(** X7: a sentiment tag needs two sentiment words.  [analyzeTicket]
    suggests "sentiment-negative" exactly when the negative words that
    occur outnumber the positive ones and at least two sentiment words
    occur in all, "sentiment-positive" in the mirrored case, and never
    "sentiment-neutral"; with a single sentiment word the label is set but
    its confidence 1/3 stays under the 0.4 of the tag rule. *)
Theorem analyzeTicket_sentiment_tags (this : t) (ticket : ZendeskTicket.t) :
  let tags := TicketAnalysis.suggestedTags (analyzeTicket this ticket) in
  let text := ticketText ticket in
  let p := Spec.count text (SentimentKeywords.positive (sentimentKeywords this)) in
  let n := Spec.count text (SentimentKeywords.negative (sentimentKeywords this)) in
  (In "sentiment-negative" tags <-> (p < n)%nat /\ (2 <= p + n)%nat)
  /\ (In "sentiment-positive" tags <-> (n < p)%nat /\ (2 <= p + n)%nat)
  /\ ~ In "sentiment-neutral" tags.
Proof.
  cbv zeta. unfold analyzeTicket.
  cbn [TicketAnalysis.suggestedTags TicketAnalysis.priority
       TicketAnalysis.ticketId TicketAnalysis.categories TicketAnalysis.sentiment
       TicketAnalysis.products TicketAnalysis.confidence].
  set (a0 := TicketAnalysis.mk _ _ _ _ _ [] 0).
  assert (Htag : forall label,
             In ("sentiment-" +:+ label) (generateTags a0)
             <-> In ("sentiment-" +:+ label) (Spec.sentimentRule a0)).
  { intros label. rewrite generateTags_In. apply policy_sentiment_tag. }
  change "sentiment-negative" with ("sentiment-" +:+ "negative").
  change "sentiment-positive" with ("sentiment-" +:+ "positive").
  change "sentiment-neutral" with ("sentiment-" +:+ "neutral").
  rewrite !Htag. unfold Spec.sentimentRule. cbv zeta.
  subst a0. cbn [TicketAnalysis.sentiment].
  destruct (analyzeSentiment_label this (ticketText ticket)) as [El Ec].
  cbv zeta in El, Ec. rewrite El.
  set (p := Spec.count _ (SentimentKeywords.positive _)) in *.
  set (n := Spec.count _ (SentimentKeywords.negative _)) in *.
  pose proof (sentiment_confidence_threshold p n) as Hth.
  destruct (p <? n)%nat eqn:E1; [|destruct (n <? p)%nat eqn:E2].
  - apply Nat.ltb_lt in E1.
    destruct (string_dec "negative" "neutral"); [discriminate|].
    destruct (Qlt_le_dec (4 # 10) _) as [Hc|Hc].
    + rewrite Ec in Hc. apply Hth in Hc. cbn [In].
      split; [|split]; [split; [intros _; split; assumption | intros _; now left]
                       | split; [intros [H|[]]; discriminate H | intros [H _]; lia]
                       | intros [H|[]]; discriminate H].
    + assert (Hlow : ~ (2 <= p + n)%nat).
      { intros H. apply Hth in H. rewrite <- Ec in H. lra. }
      cbn [In]. split; [|split]; [split; [intros [] | tauto]
                                 | split; [intros [] | intros [H _]; lia]
                                 | intros []].
  - apply Nat.ltb_ge in E1. apply Nat.ltb_lt in E2.
    destruct (string_dec "positive" "neutral"); [discriminate|].
    destruct (Qlt_le_dec (4 # 10) _) as [Hc|Hc].
    + rewrite Ec in Hc. apply Hth in Hc. cbn [In].
      split; [|split]; [split; [intros [H|[]]; discriminate H | intros [H _]; lia]
                       | split; [intros _; split; assumption | intros _; now left]
                       | intros [H|[]]; discriminate H].
    + assert (Hlow : ~ (2 <= p + n)%nat).
      { intros H. apply Hth in H. rewrite <- Ec in H. lra. }
      cbn [In]. split; [|split]; [split; [intros [] | intros [H _]; lia]
                                 | split; [intros [] | tauto]
                                 | intros []].
  - apply Nat.ltb_ge in E1, E2.
    destruct (string_dec "neutral" "neutral"); [|congruence].
    cbn [In]. split; [|split]; [split; [intros [] | intros [H _]; lia]
                               | split; [intros [] | intros [H _]; lia]
                               | intros []].
Qed.

(** One sentiment word sets the label but gives no tag. *)
Example analyzeTicket_single_sentiment_word :
  let a := analyzeTicket constructor
             (ticketWithSubject 6
                "Thanks so much, your team was amazing and fixed everything!") in
  SentimentAnalysis.sentiment (TicketAnalysis.sentiment a) = "positive"
  /\ TicketAnalysis.suggestedTags a = ["auto-processed"].
Proof. cbv zeta. split; vm_compute; reflexivity. Qed.

End SentimentTags.

(** ** Longer texts score higher *)

Section Monotone.

Import ContentAnalyzer.

Lemma append_assoc' (a b c : string) : (a +:+ b) +:+ c = a +:+ (b +:+ c).
Proof.
  induction a as [|x a IH]; [reflexivity|].
  change (String x ((a +:+ b) +:+ c) = String x (a +:+ (b +:+ c))).
  now rewrite IH.
Qed.

Lemma includes_trans (outer inner keyword : string) :
  Js.includes outer inner = true ->
  Js.includes inner keyword = true ->
  Js.includes outer keyword = true.
Proof.
  rewrite !includes_substring.
  intros (a & b & ->) (c & d & ->).
  exists (a +:+ c), (d +:+ b). now rewrite !append_assoc'.
Qed.

Lemma filter_length_mono {A} (f g : A -> bool) (l : list A) :
  (forall x, f x = true -> g x = true) ->
  (length (List.filter f l) <= length (List.filter g l))%nat.
Proof.
  intros H. induction l as [|x l IH]; simpl; [lia|].
  destruct (f x) eqn:E.
  - rewrite (H x E). simpl. lia.
  - destruct (g x); simpl; lia.
Qed.

Variables text text' : string.
Hypothesis Hinside : Js.includes text' text = true.

Lemma count_mono (words : list string) :
  (Spec.count text words <= Spec.count text' words)%nat.
Proof.
  unfold Spec.count, Spec.occurring. apply filter_length_mono.
  intros keyword. now apply includes_trans.
Qed.

Lemma tierMatches_mono (rule : KeywordRule.t) :
  Spec.tierMatches text rule -> Spec.tierMatches text' rule.
Proof.
  intros (keyword & Hin & Hk). exists keyword. split; [exact Hin|].
  now apply (includes_trans text' text).
Qed.

Lemma scanCategory_mono (config : KeywordRule.t) :
  0 <= KeywordRule.weight config ->
  fst (scanCategory text config) <= fst (scanCategory text' config).
Proof.
  intros Hw.
  destruct (scanCategory_closed text config) as [-> _].
  destruct (scanCategory_closed text' config) as [-> _].
  rewrite !(Qmult_comm (KeywordRule.weight config)).
  apply Qmult_le_compat_r; [|exact Hw].
  unfold Js.ofNat. rewrite <- Zle_Qle. apply inj_le, count_mono.
Qed.

Lemma min_one_mono (x y : Q) : x <= y -> Js.min x 1 <= Js.min y 1.
Proof.
  intros H. rewrite !min_Qmin. apply Q.min_le_compat_r, H.
Qed.

(** X8: when a text occurs inside a longer one (text was added before or
    after it), nothing is lost in the longer text: with weights that are
    not negative every reported category is reported again with a score and
    a confidence at least as high, the priority score does not drop (with
    positive priority weights), and neither of the two sentiment counts
    does. *)
Theorem scores_monotone (this : t) :
  Forall (fun e => 0 <= KeywordRule.weight (snd e)) (categoryKeywords this) ->
  Forall (fun e => 0 < KeywordRule.weight (snd e)) (priorityKeywords this) ->
  (forall c, In c (categorizeContent this text) ->
     exists c',
       In c' (categorizeContent this text')
       /\ CategoryAnalysis.category c' = CategoryAnalysis.category c
       /\ CategoryAnalysis.score c <= CategoryAnalysis.score c'
       /\ CategoryAnalysis.confidence c <= CategoryAnalysis.confidence c')
  /\ PriorityAnalysis.score (analyzePriority this text)
     <= PriorityAnalysis.score (analyzePriority this text')
  /\ (length (SentimentAnalysis.positiveWords (analyzeSentiment this text))
      <= length (SentimentAnalysis.positiveWords (analyzeSentiment this text')))%nat
  /\ (length (SentimentAnalysis.negativeWords (analyzeSentiment this text))
      <= length (SentimentAnalysis.negativeWords (analyzeSentiment this text')))%nat.
Proof.
  intros Hcw Hpw. split; [|split].
  - intros c Hc. rewrite categorizeContent_sorted_pushed in Hc.
    apply sort_In, in_flat_map in Hc. destruct Hc as ([category config] & Hin & Hc).
    apply pushedCategory_In in Hc. cbn [fst snd] in Hc.
    destruct Hc as (E1 & E2 & _ & E4 & Hpos).
    rewrite List.Forall_forall in Hcw. specialize (Hcw _ Hin). cbn [snd] in Hcw.
    pose proof (scanCategory_mono config Hcw) as Hmono.
    exists (CategoryAnalysis.mk category (fst (scanCategory text' config))
              (snd (scanCategory text' config))
              (Js.min (fst (scanCategory text' config) / 5) 1)).
    cbn [CategoryAnalysis.category CategoryAnalysis.score CategoryAnalysis.confidence].
    split; [|split; [now rewrite E1|split]].
    + rewrite categorizeContent_sorted_pushed. apply sort_In, in_flat_map.
      exists (category, config). split; [exact Hin|].
      apply pushedCategory_In. cbn. repeat split; auto. rewrite E2 in Hpos. lra.
    + now rewrite E2.
    + rewrite E4, E2. apply min_one_mono.
      apply Qmult_le_compat_r; [exact Hmono | discriminate].
  - unfold analyzePriority. cbn [PriorityAnalysis.score].
    destruct (scanPriority_scanned text this Hpw) as (_ & _ & Horigin).
    destruct (scanPriority_scanned text' this Hpw) as (_ & Hbound & _).
    destruct Horigin as [[-> _]|(name & rule & Hin & Hr & _ & ->)].
    + apply scanPriority_score.
    + apply (Hbound name rule Hin). now apply tierMatches_mono.
  - unfold analyzeSentiment.
    destruct (countWords_count text (SentimentKeywords.positive (sentimentKeywords this)))
      as [_ Ep].
    destruct (countWords_count text (SentimentKeywords.negative (sentimentKeywords this)))
      as [_ En].
    destruct (countWords_count text' (SentimentKeywords.positive (sentimentKeywords this)))
      as [_ Ep'].
    destruct (countWords_count text' (SentimentKeywords.negative (sentimentKeywords this)))
      as [_ En'].
    destruct (countWords text (SentimentKeywords.positive _)) as [ps pw].
    destruct (countWords text (SentimentKeywords.negative _)) as [ns nw].
    destruct (countWords text' (SentimentKeywords.positive _)) as [ps' pw'].
    destruct (countWords text' (SentimentKeywords.negative _)) as [ns' nw'].
    cbn [snd] in *. subst.
    destruct (Js.ltb ps ns); [|destruct (Js.ltb ns ps)];
      (destruct (Js.ltb ps' ns'); [|destruct (Js.ltb ns' ps')]);
      cbn [SentimentAnalysis.positiveWords SentimentAnalysis.negativeWords];
      split; apply count_mono.
Qed.

End Monotone.

(** The theorem for the analyzer's tables and a ticket text before and
    after a comment is added. *)
Lemma scores_monotone_witness :
  let text := "the api is down" in
  let text' := "subject: the api is down. comment: this is urgent and terrible" in
  Js.includes text' text = true
  /\ PriorityAnalysis.score (ContentAnalyzer.analyzePriority ContentAnalyzer.constructor text)
     <= PriorityAnalysis.score
          (ContentAnalyzer.analyzePriority ContentAnalyzer.constructor text').
Proof.
  cbv zeta.
  assert (H : Js.includes "subject: the api is down. comment: this is urgent and terrible"
                "the api is down" = true) by reflexivity.
  split; [exact H|].
  apply (scores_monotone _ _ H ContentAnalyzer.constructor);
    repeat constructor; discriminate.
Defined.

(** ** What a successful application writes *)

Section Merge.

Import AutoTagger.

Lemma uniq_NoDup (l : list string) : List.NoDup (Js.uniq l).
Proof. rewrite uniq_dedupFirst. apply dedupFirst_NoDup. Qed.

(** X9: a successful [applyTags] replaces the tag list stored for the
    ticket by the tags of the ticket object it was given, merged without
    repetition with the new tags (the suggested tags that are neither on
    that object nor blank); what the helpdesk stored before is not read.
    So when every tag stored before is on the ticket object, no tag is
    removed; a tag stored before that is neither on the ticket object nor
    among the new tags is lost.  The result reports the new tags, and the
    stored tags of every other ticket stay as they were. *)
Theorem applyTags_success_merges (this : AutoTagger.t) (ticket : ZendeskTicket.t)
    (analysis : TicketAnalysis.t) (r : ZendeskClient.Remote) :
  let out := applyTags this ticket analysis r in
  let newTags :=
    Spec.newTags (TicketAnalysis.suggestedTags analysis) (ZendeskTicket.tags ticket) in
  TaggingResult.status (fst out) = "success" ->
  exists merged,
    ZendeskClient.stored (snd out) !! ZendeskTicket.id ticket = Some merged
    /\ List.NoDup merged
    /\ (forall tag, In tag merged <->
                    In tag (ZendeskTicket.tags ticket) \/ In tag newTags)
    /\ (forall before,
          ZendeskClient.stored r !! ZendeskTicket.id ticket = Some before ->
          (incl before (ZendeskTicket.tags ticket) -> incl before merged)
          /\ (forall tag, In tag before -> ~ In tag (ZendeskTicket.tags ticket) ->
                          ~ In tag newTags -> ~ In tag merged))
    /\ TaggingResult.tags (fst out) = Some newTags
    /\ newTags <> []
    /\ forall other, other <> ZendeskTicket.id ticket ->
         ZendeskClient.stored (snd out) !! other = ZendeskClient.stored r !! other.
Proof.
  cbv zeta. rewrite <- filterTags_newTags. intros Hs.
  destruct (applyTags_cases this ticket analysis r)
    as (_ & [[_ [H|H]]|(Hge & Hne & Hd & ok & _ & Hok & Hfail)]);
    try (rewrite Hs in H; discriminate).
  destruct ok; [|destruct (Hfail eq_refl) as [H _]; rewrite Hs in H; discriminate].
  destruct (Hok eq_refl) as [_ Hstored].
  assert (Hin : forall tag,
             In tag (Js.uniq (ZendeskTicket.tags ticket
                              ++ filterTags (TicketAnalysis.suggestedTags analysis)
                                   (ZendeskTicket.tags ticket)))
             <-> In tag (ZendeskTicket.tags ticket)
                 \/ In tag (filterTags (TicketAnalysis.suggestedTags analysis)
                              (ZendeskTicket.tags ticket))).
  { intros tag. rewrite uniq_In. apply in_app_iff. }
  eexists. split; [rewrite Hstored; apply lookup_insert_eq|].
  split; [apply uniq_NoDup|]. split; [exact Hin|]. split.
  { intros before _. split.
    - intros Hincl tag Htag. apply Hin. left. now apply Hincl.
    - intros tag _ H1 H2 H. apply Hin in H. tauto. }
  split.
  { rewrite (applyTags_write this ticket analysis r Hge Hne Hd) in Hs |- *.
    destruct (ZendeskClient.updateTicket _ _ r) as [[message|response] r'];
      [discriminate Hs | reflexivity]. }
  split; [exact Hne|].
  intros other Hother. rewrite Hstored. now apply lookup_insert_ne.
Qed.

(** A ticket with one tag of its own gets the four suggested tags after it. *)
Lemma applyTags_success_merges_witness :
  let ticket :=
    ZendeskTicket.mk 1 "URGENT: production API down, 500 errors, revenue impact" None
      ["vip"] None in
  let out := applyTags Sample.tagger ticket (Sample.outageAnalysis 1) Sample.idle in
  TaggingResult.status (fst out) = "success"
  /\ exists merged,
       ZendeskClient.stored (snd out) !! 1%Z = Some merged /\ In "vip" merged.
Proof.
  cbv zeta.
  assert (H : TaggingResult.status
                (fst (applyTags Sample.tagger
                        (ZendeskTicket.mk 1
                           "URGENT: production API down, 500 errors, revenue impact"
                           None ["vip"] None)
                        (Sample.outageAnalysis 1) Sample.idle)) = "success").
  { vm_compute. reflexivity. }
  split; [exact H|].
  destruct (applyTags_success_merges _ _ _ _ H) as (merged & E & _ & Hin & _).
  exists merged. split; [exact E|]. apply Hin. left. now left.
Defined.

(** A stale ticket object: the helpdesk stores "manual-escalation" and
    "vip", the object passed in carries "vip" only; the update succeeds
    and "manual-escalation" is gone. *)
Example applyTags_stale_ticket_loses_tag :
  let ticket :=
    ZendeskTicket.mk 1 "URGENT: production API down, 500 errors, revenue impact" None
      ["vip"] None in
  let r := ZendeskClient.mkRemote {[ 1%Z := ["manual-escalation"; "vip"] ]} [] [] in
  let out := applyTags Sample.tagger ticket (Sample.outageAnalysis 1) r in
  TaggingResult.status (fst out) = "success"
  /\ ZendeskClient.stored (snd out) !! 1%Z
     = Some ["vip"; "auto-processed"; "category-technical"; "priority-urgent";
             "needs-technical-review"].
Proof. cbv zeta. split; vm_compute; reflexivity. Qed.

End Merge.

(** ** The requests and the counters of a batch *)

Section BatchAccounting.

Import AutoTagger.

Variable this : AutoTagger.t.
Variable tickets : list ZendeskTicket.t.

Local Abbreviation dryRun := (AutomationConfig.dryRun (config this)).

Lemma batchStep_accounted (st : Tally * ZendeskClient.Remote)
    (analysis : TicketAnalysis.t) :
  Sent.accounted dryRun st (batchStep this (ticketMap tickets) st analysis).
Proof.
  destruct st as [tally r]. unfold batchStep, Sent.accounted.
  destruct (ticketMap tickets !! TicketAnalysis.ticketId analysis) as [ticket|].
  - destruct (applyTags_cases this ticket analysis r)
      as (Hid & [[Hr Hs]|(_ & _ & Hd & ok & Hreq & Hok & Hfail)]);
      destruct (applyTags this ticket analysis r) as [result r'];
      cbn [fst snd] in *.
    + (* skipped or dry run: nothing sent *)
      exists [result], []. rewrite app_nil_r. subst r'.
      unfold Sent.requestOf. cbn [flat_map List.map].
      destruct Hs as [Hs|Hs]; rewrite Hs; cbn [String.eqb Ascii.eqb Bool.eqb orb fst snd results app];
        (split; [reflexivity|]); (split; [reflexivity|]); (split; [reflexivity|]);
        (split; [reflexivity|]); intros _; constructor; auto.
    + (* one request sent *)
      eexists [result], [_]. unfold Sent.requestOf.
      cbn [flat_map List.map ZendeskClient.ticketId ZendeskClient.ok].
      assert (Hs : TaggingResult.status result = if ok then "success" else "error").
      { destruct ok; [now apply Hok | now apply Hfail]. }
      rewrite Hs.
      split; [destruct ok; reflexivity|]. split; [exact Hreq|].
      split; [destruct ok; cbn; now rewrite Hid|].
      split; [discriminate|]. intros Hdry. congruence.
  - exists [], []. cbn [fst snd results]. rewrite !app_nil_r. repeat split; auto.
Qed.

Lemma accounted_trans (st0 st1 st2 : Tally * ZendeskClient.Remote) :
  Sent.accounted dryRun st0 st1 -> Sent.accounted dryRun st1 st2 ->
  Sent.accounted dryRun st0 st2.
Proof.
  intros (o1 & s1 & A1 & A2 & A3 & A4 & A5) (o2 & s2 & B1 & B2 & B3 & B4 & B5).
  exists (o1 ++ o2), (s1 ++ s2).
  rewrite B1, A1, B2, A2, <- !app_assoc, List.map_app, flat_map_app, A3, B3.
  repeat split; auto.
  - intros H. apply app_eq_nil in H. destruct H as [H1 H2].
    now rewrite (B4 H2), (A4 H1).
  - intros H. apply Forall_app. split; auto.
Qed.

Lemma batch_loop_accounted (l : list TicketAnalysis.t)
    (st : Tally * ZendeskClient.Remote) :
  Sent.accounted dryRun st (fold_left (batchStep this (ticketMap tickets)) l st).
Proof.
  revert st. induction l as [|analysis l IH]; intros st; simpl.
  - exists [], []. rewrite !app_nil_r. repeat split; auto.
  - eapply accounted_trans; [apply batchStep_accounted | apply IH].
Qed.

End BatchAccounting.

Section BatchExtras.

Import AutoTagger.

(** X10: the update requests that [batchApplyTags] sends are one for every
    outcome with status "success" or "error", in the order of [details] and
    for the same ticket; the request behind a "success" was served, the one
    behind an "error" was rejected, and outcomes with any other status sent
    nothing. *)
Theorem batchApplyTags_requests
    (this : AutoTagger.t) (analysisResults : list TicketAnalysis.t)
    (tickets : list ZendeskTicket.t) (r : ZendeskClient.Remote) :
  let out := batchApplyTags this analysisResults tickets r in
  exists sent,
    ZendeskClient.requests (snd out) = ZendeskClient.requests r ++ sent
    /\ List.map (fun q => (ZendeskClient.ticketId q, ZendeskClient.ok q)) sent
       = flat_map Sent.requestOf (BatchTaggingResults.details (fst out))
    /\ (length sent
        = Spec.withStatus "success" (BatchTaggingResults.details (fst out))
          + Spec.withStatus "error" (BatchTaggingResults.details (fst out)))%nat.
Proof.
  cbv zeta. unfold batchApplyTags.
  destruct (batch_loop_accounted this tickets analysisResults (mkTally [] 0 0 0, r))
    as (outcomes & sent & H1 & H2 & H3 & _).
  destruct (fold_left _ analysisResults _) as [tally r'].
  cbn [fst snd BatchTaggingResults.details results app] in *. rewrite H1.
  exists sent. split; [exact H2|]. split; [exact H3|].
  rewrite <- (length_map (fun q => (ZendeskClient.ticketId q, ZendeskClient.ok q))), H3.
  clear. unfold Spec.withStatus.
  induction outcomes as [|o outcomes IH]; [reflexivity|].
  cbn [flat_map List.filter]. rewrite length_app, IH. unfold Sent.requestOf.
  destruct (String.eqb_spec (TaggingResult.status o) "success") as [E|E].
  - rewrite E. cbn. lia.
  - destruct (String.eqb (TaggingResult.status o) "error"); cbn; lia.
Qed.

(** X11: in dry-run mode a whole batch sends nothing: the remote side is
    left exactly as it was, no outcome has status "success" or "error",
    [success] is 0 and [errors] counts the lookup misses only. *)
Theorem batchApplyTags_dry_run
    (this : AutoTagger.t) (analysisResults : list TicketAnalysis.t)
    (tickets : list ZendeskTicket.t) (r : ZendeskClient.Remote) :
  AutomationConfig.dryRun (config this) = true ->
  let out := batchApplyTags this analysisResults tickets r in
  snd out = r
  /\ BatchTaggingResults.success (fst out) = 0%nat
  /\ BatchTaggingResults.errors (fst out) = Spec.misses tickets analysisResults
  /\ Forall (fun d => TaggingResult.status d = "skipped"
                      \/ TaggingResult.status d = "dry-run")
       (BatchTaggingResults.details (fst out)).
Proof.
  intros Hdry. cbv zeta. unfold batchApplyTags.
  destruct (batch_loop_accounted this tickets analysisResults (mkTally [] 0 0 0, r))
    as (outcomes & sent & H1 & _ & H3 & H4 & H5).
  destruct (batch_loop_processed this tickets analysisResults (mkTally [] 0 0 0, r))
    as (outcomes' & _ & P1 & _ & _ & P4 & _ & P6 & _ & _).
  destruct (fold_left _ analysisResults _) as [tally r'].
  cbn [fst snd BatchTaggingResults.details BatchTaggingResults.success
       BatchTaggingResults.errors results successCount errorCount app] in *.
  rewrite H1 in P1. subst outcomes'. specialize (H5 Hdry).
  assert (Hzero : forall s, (s = "success" \/ s = "error") ->
                            Spec.withStatus s outcomes = 0%nat).
  { intros s Hs. unfold Spec.withStatus. clear - H5 Hs.
    induction H5 as [|o l Ho _ IH]; [reflexivity|].
    cbn [List.filter]. destruct (String.eqb_spec (TaggingResult.status o) s) as [E|E];
      [|exact IH].
    exfalso. destruct Hs as [-> | ->], Ho as [Ho|Ho]; rewrite Ho in E; discriminate. }
  assert (Hsent : sent = []).
  { assert (E : flat_map Sent.requestOf outcomes = []).
    { clear - H5. induction H5 as [|o l Ho _ IH]; [reflexivity|].
      cbn [flat_map]. rewrite IH, app_nil_r. unfold Sent.requestOf.
      destruct Ho as [Ho|Ho]; rewrite Ho; reflexivity. }
    rewrite E in H3. now destruct sent. }
  split; [now apply H4|]. split; [rewrite P4, Hzero; auto|].
  split; [rewrite P6, Hzero; auto; lia|].
  now rewrite H1.
Qed.

(** A dry run over three tickets, one of them missing from the list. *)
Lemma batchApplyTags_dry_run_witness :
  let out := batchApplyTags Sample.dryTagger
               [Sample.outageAnalysis 1; Sample.outageAnalysis 2; Sample.outageAnalysis 3]
               [Sample.outage 1; Sample.outage 3] Sample.flaky in
  AutomationConfig.dryRun (config Sample.dryTagger) = true
  /\ snd out = Sample.flaky
  /\ BatchTaggingResults.errors (fst out) = 1%nat.
Proof.
  cbv zeta. split; [reflexivity|].
  destruct (batchApplyTags_dry_run Sample.dryTagger
              [Sample.outageAnalysis 1; Sample.outageAnalysis 2; Sample.outageAnalysis 3]
              [Sample.outage 1; Sample.outage 3] Sample.flaky eq_refl)
    as (Hr & _ & He & _).
  split; [exact Hr|]. rewrite He. vm_compute. reflexivity.
Defined.

(** X12: the counters of the summary agree with [details]: [success] is
    the number of outcomes with status "success", [skipped] the number of
    outcomes with status "skipped" or "dry-run" (a dry run counts as
    skipped, never as success), and [total] is the number of analyses. *)
Theorem batchApplyTags_counters
    (this : AutoTagger.t) (analysisResults : list TicketAnalysis.t)
    (tickets : list ZendeskTicket.t) (r : ZendeskClient.Remote) :
  let summary := fst (batchApplyTags this analysisResults tickets r) in
  let details := BatchTaggingResults.details summary in
  BatchTaggingResults.success summary = Spec.withStatus "success" details
  /\ BatchTaggingResults.skipped summary
     = (Spec.withStatus "skipped" details + Spec.withStatus "dry-run" details)%nat
  /\ (length details
      = Spec.withStatus "success" details + Spec.withStatus "skipped" details
        + Spec.withStatus "dry-run" details + Spec.withStatus "error" details)%nat
  /\ (BatchTaggingResults.total summary
      = length details + Spec.misses tickets analysisResults)%nat.
Proof.
  cbv zeta. unfold batchApplyTags.
  destruct (batch_loop_processed this tickets analysisResults (mkTally [] 0 0 0, r))
    as (outcomes & sent & P1 & _ & P3 & P4 & P5 & P6 & P7 & _).
  destruct (fold_left _ analysisResults _) as [tally r'].
  cbn [fst snd BatchTaggingResults.details BatchTaggingResults.success
       BatchTaggingResults.skipped BatchTaggingResults.total
       BatchTaggingResults.errors results successCount skipCount errorCount app] in *.
  rewrite P1. split; [lia|]. split; [lia|].
  assert (Hlen : length outcomes
                 = (length analysisResults - Spec.misses tickets analysisResults)%nat).
  { rewrite <- (length_map TaggingResult.ticketId), P3, length_map.
    pose proof (filter_split_length (Spec.hasTicket tickets) analysisResults).
    unfold Spec.misses. lia. }
  assert (Hm : (Spec.misses tickets analysisResults <= length analysisResults)%nat).
  { unfold Spec.misses. apply List.filter_length_le. }
  lia.
Qed.

End BatchExtras.

(** ** Analysis and tagging together *)

Section Pipeline.

Import ContentAnalyzer AutoTagger.

(** X13: a ticket without any keyword has a confidence of at most 1/2, so
    under every threshold above 1/2 (the default is 0.7) [applyTags] skips
    it below threshold, whatever its length and its tags, and sends
    nothing. *)
Theorem no_keyword_ticket_is_skipped (analyzer : ContentAnalyzer.t)
    (this : AutoTagger.t) (ticket : ZendeskTicket.t) (r : ZendeskClient.Remote) :
  Spec.noKeywordOccurs analyzer (ticketText ticket) ->
  1 # 2 < AutomationConfig.minConfidence (config this) ->
  let analysis := analyzeTicket analyzer ticket in
  let out := applyTags this ticket analysis r in
  TicketAnalysis.confidence analysis <= 1 # 2
  /\ TaggingResult.status (fst out) = "skipped"
  /\ TaggingResult.tags (fst out) = None
  /\ snd out = r.
Proof.
  intros Hno Hmin. cbv zeta.
  destruct (no_keyword_analysis analyzer ticket Hno) as (_ & _ & _ & _ & E).
  cbv zeta in E.
  assert (Hc : TicketAnalysis.confidence (analyzeTicket analyzer ticket) <= 1 # 2).
  { rewrite E. apply doubleMean_no_keyword_bound, lengthFactor_bounds. }
  split; [exact Hc|].
  rewrite applyTags_below_threshold; [cbn; auto|].
  eapply Qle_lt_trans; [exact Hc | exact Hmin].
Qed.

(** A ticket without keywords under the default threshold 0.7. *)
Lemma no_keyword_ticket_is_skipped_witness :
  let this := AutoTagger.mk (AutomationConfig.mk false (7 # 10)) in
  let ticket := ticketWithSubject 8 "Hello there, just checking in on my order" in
  Spec.noKeywordOccurs constructor (ticketText ticket)
  /\ snd (applyTags this ticket (analyzeTicket constructor ticket) Sample.idle)
     = Sample.idle.
Proof.
  cbv zeta.
  assert (H : Spec.noKeywordOccurs constructor
                (ticketText (ticketWithSubject 8
                               "Hello there, just checking in on my order"))).
  { unfold Spec.noKeywordOccurs. vm_compute. repeat constructor. }
  split; [exact H|].
  apply (no_keyword_ticket_is_skipped constructor
           (AutoTagger.mk (AutomationConfig.mk false (7 # 10))) _ Sample.idle H).
  reflexivity.
Defined.

Lemma hasTicket_In (tickets : list ZendeskTicket.t) (analysis : TicketAnalysis.t) :
  In (TicketAnalysis.ticketId analysis) (List.map ZendeskTicket.id tickets) ->
  Spec.hasTicket tickets analysis = true.
Proof.
  intros H. apply in_map_iff in H. destruct H as (ticket & E & Hin).
  unfold Spec.hasTicket. apply existsb_exists. exists ticket.
  split; [exact Hin | now apply Z.eqb_eq].
Qed.

(** X14: when the analyses are those of [batchAnalyze] on the very tickets
    handed to [batchApplyTags] (as the orchestrator does), no lookup
    misses: [details] has exactly one outcome per ticket, in the order of
    the tickets, and [errors] is the number of rejected update requests. *)
Theorem batchApplyTags_after_batchAnalyze (analyzer : ContentAnalyzer.t)
    (this : AutoTagger.t) (tickets : list ZendeskTicket.t) (r : ZendeskClient.Remote) :
  let analyses := ContentAnalyzerBatch.batchAnalyze analyzer tickets in
  let out := batchApplyTags this analyses tickets r in
  let details := BatchTaggingResults.details (fst out) in
  List.map TaggingResult.ticketId details = List.map ZendeskTicket.id tickets
  /\ BatchTaggingResults.total (fst out) = length tickets
  /\ exists sent,
       ZendeskClient.requests (snd out) = ZendeskClient.requests r ++ sent
       /\ BatchTaggingResults.errors (fst out) = Spec.failedRequests sent.
Proof.
  cbv zeta. unfold batchApplyTags, ContentAnalyzerBatch.batchAnalyze.
  destruct (batch_loop_processed this tickets (List.map (analyzeTicket analyzer) tickets)
              (mkTally [] 0 0 0, r))
    as (outcomes & sent & P1 & P2 & P3 & _ & _ & P6 & _ & P8).
  destruct (fold_left _ (List.map (analyzeTicket analyzer) tickets) _) as [tally r'].
  cbn [fst snd BatchTaggingResults.details BatchTaggingResults.total
       BatchTaggingResults.errors results errorCount app] in *.
  assert (Hall : List.filter (Spec.hasTicket tickets)
                   (List.map (analyzeTicket analyzer) tickets)
                 = List.map (analyzeTicket analyzer) tickets).
  { apply List.forallb_filter_id, forallb_forall. intros a Ha.
    apply hasTicket_In. apply in_map_iff in Ha. destruct Ha as (ticket & <- & Hin).
    apply in_map_iff. exists ticket. split; [reflexivity | exact Hin]. }
  assert (Hmiss : Spec.misses tickets (List.map (analyzeTicket analyzer) tickets) = 0%nat).
  { pose proof (filter_split_length (Spec.hasTicket tickets)
                  (List.map (analyzeTicket analyzer) tickets)) as H.
    rewrite Hall in H. unfold Spec.misses. lia. }
  rewrite P1, P3, Hall, List.map_map. split; [reflexivity|].
  split; [apply length_map|].
  exists sent. split; [exact P2|]. rewrite P6, Hmiss, P8. reflexivity.
Qed.

End Pipeline.

(** ** Fetching ([TicketFetcher.fetchNewTickets]) *)

Section Fetch.

Import TicketFetcher.

Lemma fetchNewTickets_In (results : list ZendeskTicket.t) (excludeTags : list string)
    (fetched : list ZendeskTicket.t) (ticket : ZendeskTicket.t) :
  fetchNewTickets (inr (Some results)) excludeTags = inr fetched ->
  (In ticket fetched <->
   In ticket results
   /\ forall tag, In tag excludeTags -> ~ In tag (ZendeskTicket.tags ticket)).
Proof.
  unfold fetchNewTickets. intros E.
  assert (Hkeep : forall t : ZendeskTicket.t,
             negb (existsb (fun tag => Js.arrayIncludes (ZendeskTicket.tags t) tag)
                     excludeTags) = true
             <-> forall tag, In tag excludeTags -> ~ In tag (ZendeskTicket.tags t)).
  { intros t. rewrite negb_true_iff. split.
    - intros H tag Hin Htag.
      assert (Hex : existsb (fun tag => Js.arrayIncludes (ZendeskTicket.tags t) tag)
                      excludeTags = true).
      { apply existsb_exists. exists tag. split; [exact Hin|].
        now apply arrayIncludes_In. }
      congruence.
    - intros H. destruct (existsb _ excludeTags) eqn:Ex; [|reflexivity].
      apply existsb_exists in Ex. destruct Ex as (tag & Hin & Htag).
      apply arrayIncludes_In in Htag. exfalso. exact (H tag Hin Htag). }
  assert (E' : inr fetched
               = @inr Template.t _
                   (List.filter
                      (fun t : ZendeskTicket.t =>
                         negb (existsb
                                 (fun tag => Js.arrayIncludes (ZendeskTicket.tags t) tag)
                                 excludeTags))
                      results)).
  { rewrite <- E. destruct results; reflexivity. }
  injection E' as ->. split.
  - intros H. apply List.filter_In in H. destruct H as [H1 H2].
    split; [exact H1 | now apply Hkeep].
  - intros [H1 H2]. apply List.filter_In. split; [exact H1 | now apply Hkeep].
Qed.

(** X15: [fetchNewTickets] hands an error of the client on unchanged and
    gives the empty list when the answer has no results; otherwise it
    returns, in the order of the answer, exactly the tickets that carry
    none of the excluded tags, so never more tickets than the answer
    held. *)
Theorem fetchNewTickets_filters
    (answer : Answer (option (list ZendeskTicket.t))) (excludeTags : list string) :
  match answer with
  | inl error => fetchNewTickets answer excludeTags = inl error
  | inr None => fetchNewTickets answer excludeTags = inr []
  | inr (Some results) =>
      exists fetched,
        fetchNewTickets answer excludeTags = inr fetched
        /\ fetched
           = List.filter
               (fun ticket =>
                  forallb (fun tag => negb (Js.arrayIncludes (ZendeskTicket.tags ticket) tag))
                    excludeTags)
               results
        /\ (length fetched <= length results)%nat
        /\ forall ticket,
             In ticket fetched <->
             In ticket results
             /\ forall tag, In tag excludeTags -> ~ In tag (ZendeskTicket.tags ticket)
  end.
Proof.
  destruct answer as [error|[results|]]; [reflexivity| |reflexivity].
  assert (Hext : forall ticket : ZendeskTicket.t,
             negb (existsb (fun tag => Js.arrayIncludes (ZendeskTicket.tags ticket) tag)
                     excludeTags)
             = forallb (fun tag => negb (Js.arrayIncludes (ZendeskTicket.tags ticket) tag))
                 excludeTags).
  { intros ticket. induction excludeTags as [|tag l IH]; [reflexivity|].
    cbn [existsb forallb]. rewrite negb_orb. now rewrite IH. }
  assert (E : fetchNewTickets (inr (Some results)) excludeTags
              = inr (List.filter
                       (fun ticket =>
                          forallb (fun tag =>
                                     negb (Js.arrayIncludes (ZendeskTicket.tags ticket) tag))
                            excludeTags)
                       results)).
  { unfold fetchNewTickets. destruct results as [|t0 results]; [reflexivity|].
    cbn [length Nat.eqb]. f_equal. apply List.filter_ext. exact Hext. }
  eexists. split; [exact E|]. split; [reflexivity|].
  split; [apply List.filter_length_le|].
  intros ticket. now apply fetchNewTickets_In.
Qed.

End Fetch.

Section FetchAfterTagging.

Import ContentAnalyzer AutoTagger TicketFetcher.

Lemma generateTags_marker (analysis : TicketAnalysis.t) :
  In "auto-processed" (generateTags analysis).
Proof. apply generateTags_In. unfold Spec.policy. now left. Qed.

(** X16: a ticket that [applyTags] has tagged with the tags of its own
    analysis is stored with the marker tag "auto-processed", and a later
    [fetchNewTickets] with the default exclusion never returns a ticket
    that carries the stored tags: a tagged ticket is not processed a second
    time. *)
Theorem tagged_ticket_is_not_fetched_again (analyzer : ContentAnalyzer.t)
    (this : AutoTagger.t) (ticket : ZendeskTicket.t) (r : ZendeskClient.Remote) :
  let out := applyTags this ticket (analyzeTicket analyzer ticket) r in
  TaggingResult.status (fst out) = "success" ->
  exists newTags,
    ZendeskClient.stored (snd out) !! ZendeskTicket.id ticket = Some newTags
    /\ In "auto-processed" newTags
    /\ forall results fetched again,
         fetchNewTickets (inr (Some results)) defaultExcludeTags = inr fetched ->
         ZendeskTicket.tags again = newTags ->
         ~ In again fetched.
Proof.
  cbv zeta. intros Hs.
  destruct (applyTags_cases this ticket (analyzeTicket analyzer ticket) r)
    as (_ & [[_ [H|H]]|(_ & _ & _ & ok & _ & Hok & Hfail)]);
    try (rewrite Hs in H; discriminate).
  destruct ok; [|destruct (Hfail eq_refl) as [H _]; rewrite Hs in H; discriminate].
  destruct (Hok eq_refl) as [_ Hstored].
  assert (Hmarker : In "auto-processed"
                      (Js.uniq (ZendeskTicket.tags ticket
                                ++ filterTags
                                     (TicketAnalysis.suggestedTags
                                        (analyzeTicket analyzer ticket))
                                     (ZendeskTicket.tags ticket)))).
  { apply uniq_In, in_or_app.
    destruct (Js.arrayIncludes (ZendeskTicket.tags ticket) "auto-processed") eqn:E.
    - left. now apply arrayIncludes_In.
    - right. apply filterTags_kept. split; [apply generateTags_marker|].
      split; [now apply arrayIncludes_not_In|].
      cbn. intros [H _]. discriminate H. }
  eexists. split; [rewrite Hstored; apply lookup_insert_eq|].
  split; [exact Hmarker|].
  intros results fetched again Hf Htags Hin.
  apply (fetchNewTickets_In _ _ _ _ Hf) in Hin. destruct Hin as [_ Hnone].
  apply (Hnone "auto-processed"); [now left | now rewrite Htags].
Qed.

(** The outage ticket, tagged and then offered to the fetcher again. *)
Lemma tagged_ticket_is_not_fetched_again_witness :
  let out := applyTags Sample.tagger (Sample.outage 1)
               (analyzeTicket constructor (Sample.outage 1)) Sample.idle in
  TaggingResult.status (fst out) = "success"
  /\ exists newTags,
       ZendeskClient.stored (snd out) !! 1%Z = Some newTags
       /\ In "auto-processed" newTags.
Proof.
  cbv zeta.
  assert (H : TaggingResult.status
                (fst (applyTags Sample.tagger (Sample.outage 1)
                        (analyzeTicket constructor (Sample.outage 1)) Sample.idle))
              = "success").
  { vm_compute. reflexivity. }
  split; [exact H|].
  destruct (tagged_ticket_is_not_fetched_again constructor Sample.tagger
              (Sample.outage 1) Sample.idle H) as (newTags & E & Hm & _).
  exists newTags. split; [exact E | exact Hm].
Defined.

End FetchAfterTagging.

(** ** The text of a detailed ticket ([extractFullText]) *)

Section Trim.

Lemma isWhiteSpace_lowerChar (c : ascii) :
  Js.isWhiteSpace (Js.lowerChar c) = Js.isWhiteSpace c.
Proof.
  destruct c as [[] [] [] [] [] [] [] []]; vm_compute; reflexivity.
Qed.

Lemma trimStart_toLowerCase (s : string) :
  Js.trimStart (Js.toLowerCase s) = Js.toLowerCase (Js.trimStart s).
Proof.
  induction s as [|c s IH]; [reflexivity|].
  cbn [Js.toLowerCase Js.trimStart]. rewrite isWhiteSpace_lowerChar.
  destruct (Js.isWhiteSpace c); [exact IH | reflexivity].
Qed.

Lemma trimEnd_toLowerCase (s : string) :
  Js.trimEnd (Js.toLowerCase s) = Js.toLowerCase (Js.trimEnd s).
Proof.
  induction s as [|c s IH]; [reflexivity|].
  cbn [Js.toLowerCase Js.trimEnd]. rewrite IH, isWhiteSpace_lowerChar.
  destruct (Js.trimEnd s); cbn [Js.toLowerCase];
    [destruct (Js.isWhiteSpace c)|]; reflexivity.
Qed.

Lemma trim_toLowerCase (s : string) :
  Js.trim (Js.toLowerCase s) = Js.toLowerCase (Js.trim s).
Proof. unfold Js.trim. now rewrite trimStart_toLowerCase, trimEnd_toLowerCase. Qed.

Lemma trimStart_keeps (before rest : string) (c : ascii) :
  Js.isWhiteSpace c = false ->
  exists before', Js.trimStart (before +:+ String c rest) = before' +:+ String c rest.
Proof.
  intros Hc. induction before as [|b before IH].
  - exists "". change ("" +:+ String c rest) with (String c rest).
    cbn [Js.trimStart]. now rewrite Hc.
  - change (String b before +:+ String c rest) with (String b (before +:+ String c rest)).
    cbn [Js.trimStart]. destruct (Js.isWhiteSpace b); [exact IH|].
    now exists (String b before).
Qed.

Lemma trimEnd_head (c : ascii) (rest : string) :
  Js.isWhiteSpace c = false ->
  Js.trimEnd (String c rest) = String c (Js.trimEnd rest).
Proof.
  intros Hc. cbn [Js.trimEnd]. destruct (Js.trimEnd rest); [now rewrite Hc | reflexivity].
Qed.

Lemma trimEnd_keeps (before : string) (c : ascii) (rest : string) :
  Js.isWhiteSpace c = false ->
  Js.trimEnd (before +:+ String c rest) = before +:+ String c (Js.trimEnd rest).
Proof.
  intros Hc. induction before as [|b before IH]; [now apply trimEnd_head|].
  change (String b before +:+ String c rest) with (String b (before +:+ String c rest)).
  cbn [Js.trimEnd]. rewrite IH.
  destruct before; reflexivity.
Qed.

Lemma lastChar_split (s : string) (last : ascii) :
  Tidy.lastChar s = Some last -> exists front, s = front +:+ String last "".
Proof.
  induction s as [|c s IH]; [discriminate|].
  destruct s as [|c' s'].
  - intros E. injection E as ->. now exists "".
  - intros E. change (Tidy.lastChar (String c' s') = Some last) in E.
    destruct (IH E) as (front & Ef). exists (String c front).
    change (String c front +:+ String last "")
      with (String c (front +:+ String last "")).
    now rewrite <- Ef.
Qed.

Lemma tidy_ends (keyword : string) :
  Tidy.tidy keyword = true ->
  (exists first rest, keyword = String first rest /\ Js.isWhiteSpace first = false)
  /\ (exists front last, keyword = front +:+ String last ""
                         /\ Js.isWhiteSpace last = false).
Proof.
  unfold Tidy.tidy. destruct keyword as [|first rest]; [discriminate|].
  destruct (Tidy.lastChar (String first rest)) as [last|] eqn:El; [|discriminate].
  intros H. apply andb_true_iff in H. destruct H as [H1 H2].
  apply negb_true_iff in H1, H2. split; [eauto|].
  destruct (lastChar_split _ _ El) as (front & Ef). eauto.
Qed.

(** Trimming a text loses no occurrence of a tidy keyword. *)
Lemma includes_trim (text keyword : string) :
  Tidy.tidy keyword = true ->
  Js.includes text keyword = true ->
  Js.includes (Js.trim text) keyword = true.
Proof.
  intros Ht. destruct (tidy_ends keyword Ht)
    as [(first & rest & Ef & Hf) (front & last & El & Hl)].
  rewrite !includes_substring. intros (before & after & ->).
  unfold Js.trim.
  destruct (trimStart_keeps before (rest +:+ after) first Hf) as (before' & Es).
  assert (E1 : before +:+ keyword +:+ after = before +:+ String first (rest +:+ after)).
  { rewrite Ef. reflexivity. }
  rewrite E1, Es.
  assert (E2 : before' +:+ String first (rest +:+ after)
               = (before' +:+ front) +:+ String last after).
  { change (String first (rest +:+ after)) with (String first rest +:+ after).
    rewrite <- Ef, El. now rewrite !append_assoc'. }
  rewrite E2, (trimEnd_keeps _ last after Hl).
  exists before', (Js.trimEnd after).
  rewrite El. now rewrite !append_assoc'.
Qed.

End Trim.

Section FullTextFacts.

Import TicketFetcher.

Lemma append_nil_r' (s : string) : s +:+ "" = s.
Proof.
  induction s as [|c s IH]; [reflexivity|].
  change (String c (s +:+ "") = String c s). now rewrite IH.
Qed.

Lemma addComment_part (fullText : string) (entry : nat * ZendeskComment.t) :
  addComment fullText entry = fullText +:+ FullText.commentPart entry.
Proof.
  unfold FullText.commentPart, addComment. destruct entry as [index comment].
  destruct (truthy (ZendeskComment.body comment) && ZendeskComment.public comment);
    [reflexivity | now rewrite append_nil_r'].
Qed.

Lemma addComment_loop (entries : list (nat * ZendeskComment.t)) (fullText : string) :
  fold_left addComment entries fullText = fullText +:+ FullText.commentsPart entries.
Proof.
  revert fullText. induction entries as [|entry entries IH]; intros fullText.
  - cbn [fold_left FullText.commentsPart fold_right]. now rewrite append_nil_r'.
  - cbn [fold_left FullText.commentsPart fold_right]. rewrite IH, addComment_part.
    apply append_assoc'.
Qed.


Example extractFullText_sample :
  extractFullText
    (ZendeskTicket.mk 1 "Login fails" (Some "I cannot log in.") [] None)
    [ZendeskComment.mk "internal note" false; ZendeskComment.mk "Still broken" true]
  = "Subject: Login fails" +:+ JsNumber.newline +:+ JsNumber.newline
    +:+ "Description: I cannot log in." +:+ JsNumber.newline +:+ JsNumber.newline
    +:+ "Comment 2: Still broken".
Proof. vm_compute. reflexivity. Qed.

End FullTextFacts.

Section DetailedTicket.

Import TicketFetcher.

Lemma includes_app_l (a b keyword : string) :
  Js.includes a keyword = true -> Js.includes (a +:+ b) keyword = true.
Proof.
  rewrite !includes_substring. intros (before & after & ->).
  exists before, (after +:+ b). now rewrite !append_assoc'.
Qed.

Lemma includes_app_r (a b keyword : string) :
  Js.includes b keyword = true -> Js.includes (a +:+ b) keyword = true.
Proof.
  rewrite !includes_substring. intros (before & after & ->).
  exists (a +:+ before), after. now rewrite !append_assoc'.
Qed.

Lemma includes_empty_text (keyword : string) :
  Tidy.tidy keyword = true -> Js.includes "" keyword = false.
Proof. destruct keyword; [discriminate | reflexivity]. Qed.

Lemma lower_truthy (s keyword : string) :
  Tidy.tidy keyword = true ->
  Js.includes (Js.toLowerCase s) keyword = true -> truthy s = true.
Proof.
  intros Ht H. destruct s; [|reflexivity].
  cbn [Js.toLowerCase] in H. rewrite (includes_empty_text _ Ht) in H. discriminate.
Qed.

Lemma commentsPart_includes (keyword : string) (comment : ZendeskComment.t)
    (comments : list ZendeskComment.t) (start : nat) :
  Tidy.tidy keyword = true ->
  In comment comments ->
  ZendeskComment.public comment = true ->
  Js.includes (Js.toLowerCase (ZendeskComment.body comment)) keyword = true ->
  Js.includes
    (Js.toLowerCase (FullText.commentsPart (combine (seq start (length comments)) comments)))
    keyword = true.
Proof.
  intros Ht Hin Hp Hk. revert start.
  induction comments as [|c comments IH]; intros start; [destruct Hin|].
  cbn [length seq combine FullText.commentsPart fold_right].
  fold (FullText.commentsPart (combine (seq (S start) (length comments)) comments)).
  rewrite toLowerCase_app. destruct Hin as [->|Hin].
  - apply includes_app_l. unfold FullText.commentPart, addComment.
    rewrite (lower_truthy _ _ Ht Hk), Hp. cbn [andb].
    rewrite !toLowerCase_app.
    apply includes_app_r, includes_app_r, includes_app_r, includes_app_r.
    now apply includes_app_l.
  - apply includes_app_r. now apply IH.
Qed.

(** X18: nothing is lost on the way to the analyzer.  A keyword without
    white space at its ends that occurs (in any letter case) in the
    subject, in the description or in the body of a public comment occurs
    in the text that [analyzeTicket] analyses for the detailed ticket; the
    detailed ticket keeps the id and the tags of the ticket.  Every keyword
    of the analyzer is such a keyword. *)
Theorem detailed_ticket_keeps_keywords (ticketId : Z) (ticket : ZendeskTicket.t)
    (comments : list ZendeskComment.t) (keyword : string) :
  Tidy.tidy keyword = true ->
  Js.includes (Js.toLowerCase (ZendeskTicket.subject ticket)) keyword = true
  \/ (exists description,
        ZendeskTicket.description ticket = Some description
        /\ Js.includes (Js.toLowerCase description) keyword = true)
  \/ (exists comment,
        In comment comments /\ ZendeskComment.public comment = true
        /\ Js.includes (Js.toLowerCase (ZendeskComment.body comment)) keyword = true) ->
  exists detailed,
    getDetailedTicket ticketId (inr (Some ticket)) (inr (Some comments)) = inr detailed
    /\ ZendeskTicket.id detailed = ZendeskTicket.id ticket
    /\ ZendeskTicket.tags detailed = ZendeskTicket.tags ticket
    /\ Js.includes (ContentAnalyzer.ticketText detailed) keyword = true.
Proof.
  intros Ht Hocc. eexists. split; [reflexivity|]. split; [reflexivity|].
  split; [reflexivity|].
  assert (Hfull : Js.includes (Js.toLowerCase (extractFullText ticket comments)) keyword
                  = true).
  { unfold extractFullText. rewrite <- trim_toLowerCase. apply includes_trim; [exact Ht|].
    unfold untrimmedText. rewrite addComment_loop, toLowerCase_app.
    destruct Hocc as [Hs|[(description & Ed & Hd)|(comment & Hin & Hp & Hc)]].
    - apply includes_app_l. rewrite (lower_truthy _ _ Ht Hs).
      destruct (ZendeskTicket.description ticket) as [d|];
        [destruct (truthy d); [rewrite toLowerCase_app; apply includes_app_l|]|];
        rewrite !toLowerCase_app;
        apply includes_app_r, includes_app_r; now apply includes_app_l.
    - apply includes_app_l. rewrite Ed, (lower_truthy _ _ Ht Hd).
      rewrite !toLowerCase_app.
      apply includes_app_r, includes_app_r. now apply includes_app_l.
    - apply includes_app_r. now apply (commentsPart_includes keyword comment). }
  unfold ContentAnalyzer.ticketText, ContentAnalyzer.rawText.
  cbn [ZendeskTicket.fullText].
  destruct (extractFullText ticket comments) as [|c s] eqn:E.
  - cbn [Js.toLowerCase] in Hfull. rewrite (includes_empty_text _ Ht) in Hfull.
    discriminate.
  - exact Hfull.
Qed.

Lemma constructor_keywords_tidy :
  Forall (fun keyword => Tidy.tidy keyword = true)
    (Spec.allKeywords ContentAnalyzer.constructor).
Proof. vm_compute. repeat constructor. Qed.

(** The keyword "refund" in a public comment of a ticket about something
    else. *)
Lemma detailed_ticket_keeps_keywords_witness :
  let ticket := ZendeskTicket.mk 4 "Order 1182" (Some "Where is it?") ["vip"] None in
  let comments := [ZendeskComment.mk "Please REFUND me" true] in
  Tidy.tidy "refund" = true
  /\ exists detailed,
       getDetailedTicket 4 (inr (Some ticket)) (inr (Some comments)) = inr detailed
       /\ Js.includes (ContentAnalyzer.ticketText detailed) "refund" = true.
Proof.
  cbv zeta. split; [reflexivity|].
  destruct (detailed_ticket_keeps_keywords 4
              (ZendeskTicket.mk 4 "Order 1182" (Some "Where is it?") ["vip"] None)
              [ZendeskComment.mk "Please REFUND me" true] "refund" eq_refl)
    as (detailed & E & _ & _ & H).
  { right. right. exists (ZendeskComment.mk "Please REFUND me" true).
    split; [now left|]. split; reflexivity. }
  exists detailed. split; [exact E | exact H].
Defined.

End DetailedTicket.

(** ** The place of a comment in the text *)

Section FullTextPlaces.

Import TicketFetcher.






(** Removing the private comment in front renumbers the public one. *)
Example extractFullText_renumbers :
  let ticket := ticketWithSubject 1 "Login fails" in
  let shown := ZendeskComment.mk "Still broken today" true in
  extractFullText ticket [ZendeskComment.mk "internal note" false; shown]
  = "Subject: Login fails" +:+ JsNumber.newline +:+ JsNumber.newline
    +:+ "Comment 2: Still broken today"
  /\ extractFullText ticket [shown]
     = "Subject: Login fails" +:+ JsNumber.newline +:+ JsNumber.newline
       +:+ "Comment 1: Still broken today".
Proof. cbv zeta. split; vm_compute; reflexivity. Qed.

End FullTextPlaces.

(** ** Fetching the details in batches ([batchFetchDetailedTickets]) *)

Section BatchFetch.

Import TicketFetcher.

Variable detail : Z -> Answer ZendeskTicket.t.

Local Abbreviation detailOf := (fun ticket => detail (ZendeskTicket.id ticket)).

Lemma all_app {A} (l1 l2 : list (Answer A)) :
  all (l1 ++ l2)
  = match all l1, all l2 with
    | Some a, Some b => Some (a ++ b)
    | _, _ => None
    end.
Proof.
  induction l1 as [|[e|a] l1 IH]; cbn [all app].
  - destruct (all l2); reflexivity.
  - reflexivity.
  - rewrite IH. destruct (all l1), (all l2); reflexivity.
Qed.

Lemma all_length {A} (l : list (Answer A)) (values : list A) :
  all l = Some values -> length values = length l.
Proof.
  revert values. induction l as [|[e|a] l IH]; intros values; cbn [all].
  - intros E. now inversion E.
  - discriminate.
  - destruct (all l) as [vs|]; [|discriminate]. intros E. inversion E; subst.
    cbn. now rewrite (IH vs eq_refl).
Qed.

Lemma all_In {A} (l : list (Answer A)) (values : list A) (a : A) :
  all l = Some values -> In a values -> In (inr a) l.
Proof.
  revert values. induction l as [|[e|a'] l IH]; intros values; cbn [all].
  - intros E. inversion E. intros [].
  - discriminate.
  - destruct (all l) as [vs|]; [|discriminate]. intros E. inversion E; subst.
    intros [->|H]; [now left | right; eauto].
Qed.

Lemma all_failed {A} (l : list (Answer A)) (error : Template.t) :
  In (inl error) l -> all l = None.
Proof.
  induction l as [|[e|a] l IH]; cbn [all]; [intros [] | reflexivity |].
  intros [H|H]; [discriminate|]. now rewrite (IH H).
Qed.

(** The loop only ever appends to what it has collected. *)
Lemma fetchLoop_acc (fuel batchSize : nat) (rest acc : list ZendeskTicket.t) :
  fetchLoop fuel detail batchSize rest acc
  = option_map (app acc) (fetchLoop fuel detail batchSize rest []).
Proof.
  revert rest acc. induction fuel as [|fuel IH]; intros rest acc.
  - destruct rest; cbn; [now rewrite app_nil_r | reflexivity].
  - destruct rest as [|t rest]; [cbn; now rewrite app_nil_r|].
    cbn [fetchLoop]. rewrite IH.
    rewrite (IH _ (match all _ with Some b => [] ++ b | None => [] end)).
    destruct (fetchLoop fuel detail batchSize (skipn batchSize (t :: rest)) [])
      as [result|]; [|reflexivity].
    cbn [option_map]. destruct (all _); cbn [app]; now rewrite ?app_nil_r, ?app_assoc.
Qed.

(** One turn of the loop on a first batch of full size. *)
Lemma fetchLoop_batch (fuel batchSize : nat) (batch rest : list ZendeskTicket.t) :
  (0 < batchSize)%nat -> length batch = batchSize ->
  fetchLoop (S fuel) detail batchSize (batch ++ rest) []
  = option_map (app (Batches.batchResult detail batch))
      (fetchLoop fuel detail batchSize rest []).
Proof.
  intros Hpos Hlen. destruct batch as [|t batch]; [cbn in Hlen; lia|].
  change ((t :: batch) ++ rest) with (t :: (batch ++ rest)).
  cbn [fetchLoop].
  change (t :: (batch ++ rest)) with ((t :: batch) ++ rest).
  rewrite <- Hlen, List.firstn_app, List.skipn_app, Nat.sub_diag.
  rewrite List.firstn_all, List.skipn_all. cbn [firstn skipn app].
  rewrite app_nil_r, fetchLoop_acc. unfold Batches.batchResult.
  destruct (all (List.map detailOf (t :: batch))); reflexivity.
Qed.

(** With a positive batch size the loop ends within one turn per ticket. *)
Lemma fetchLoop_terminates (batchSize : nat) (fuel : nat) (rest : list ZendeskTicket.t) :
  (0 < batchSize)%nat -> (length rest <= fuel)%nat ->
  exists result,
    fetchLoop fuel detail batchSize rest [] = Some result
    /\ (length result <= length rest)%nat
    /\ Forall (fun d => exists ticket, In ticket rest /\ detailOf ticket = inr d) result
    /\ (forall values, all (List.map detailOf rest) = Some values -> result = values).
Proof.
  intros Hpos. revert rest. induction fuel as [|fuel IH]; intros rest Hfuel.
  - destruct rest; [|cbn in Hfuel; lia]. exists []. cbn. repeat split; auto.
    intros values E. now inversion E.
  - destruct rest as [|t rest].
    { exists []. cbn. repeat split; auto. intros values E. now inversion E. }
    set (l := t :: rest) in *.
    assert (Hsplit : l = firstn batchSize l ++ skipn batchSize l)
      by (symmetry; apply List.firstn_skipn).
    assert (Hskip : (length (skipn batchSize l) <= fuel)%nat).
    { rewrite List.length_skipn. subst l. cbn [length] in *. lia. }
    destruct (IH _ Hskip) as (restResult & Er & Hlen & Hfrom & Hall).
    exists (Batches.batchResult detail (firstn batchSize l) ++ restResult).
    split; [|split; [|split]].
    + subst l. cbn [fetchLoop]. rewrite fetchLoop_acc, Er. unfold Batches.batchResult.
      destruct (all _); reflexivity.
    + rewrite length_app. rewrite Hsplit at 2. rewrite length_app.
      assert (Hb : (length (Batches.batchResult detail (firstn batchSize l))
                    <= length (firstn batchSize l))%nat).
      { unfold Batches.batchResult.
        destruct (all (List.map detailOf (firstn batchSize l))) as [vs|] eqn:E;
          [|cbn; lia].
        apply all_length in E. rewrite length_map in E. lia. }
      lia.
    + apply Forall_app. split.
      * apply List.Forall_forall. intros d Hd. unfold Batches.batchResult in Hd.
        destruct (all (List.map detailOf (firstn batchSize l))) as [vs|] eqn:E;
          [|destruct Hd].
        apply (all_In _ _ _ E) in Hd. apply in_map_iff in Hd.
        destruct Hd as (ticket & Ed & Hin). exists ticket. split; [|exact Ed].
        rewrite Hsplit. apply in_or_app. now left.
      * eapply List.Forall_impl; [|exact Hfrom]. cbv beta.
        intros d (ticket & Hin & Ed). exists ticket. split; [|exact Ed].
        rewrite Hsplit. apply in_or_app. now right.
    + intros values E. rewrite Hsplit, List.map_app, all_app in E.
      unfold Batches.batchResult.
      destruct (all (List.map detailOf (firstn batchSize l))) as [vs|];
        [|discriminate].
      destruct (all (List.map detailOf (skipn batchSize l))) as [ws|] eqn:Ew;
        [|discriminate].
      inversion E; subst. now rewrite (Hall ws eq_refl).
Qed.

(** With batch size 0 the loop never gets past its first ticket. *)
Lemma fetchLoop_zero (fuel : nat) (rest acc : list ZendeskTicket.t) :
  rest <> [] -> fetchLoop fuel detail 0 rest acc = None.
Proof.
  revert acc. induction fuel as [|fuel IH]; intros acc Hne;
    destruct rest as [|t rest]; try congruence; [reflexivity|].
  cbn [fetchLoop firstn skipn List.map all]. apply IH. discriminate.
Qed.

End BatchFetch.

Section BatchFetchExtras.

Import TicketFetcher.

(** X19: [batchFetchDetailedTickets] comes to an end exactly when the batch
    size is positive or there is no ticket; with batch size 0 and a ticket
    to fetch its loop never ends.  When it ends it needs at most one turn
    per ticket, returns at most as many tickets as it was given, each the
    detail of one of them, and when every ticket can be fetched it returns
    the details of all tickets in their order, whatever the batch size. *)
Theorem batchFetchDetailedTickets_terminates
    (detail : Z -> Answer ZendeskTicket.t) (tickets : list ZendeskTicket.t)
    (batchSize : nat) :
  ((exists fuel, batchFetchDetailedTickets fuel detail tickets batchSize <> None)
   <-> tickets = [] \/ (0 < batchSize)%nat)
  /\ ((0 < batchSize)%nat ->
      forall fuel, (length tickets <= fuel)%nat ->
      exists result,
        batchFetchDetailedTickets fuel detail tickets batchSize = Some result
        /\ (length result <= length tickets)%nat
        /\ Forall (fun d => exists ticket,
                      In ticket tickets /\ detail (ZendeskTicket.id ticket) = inr d)
             result
        /\ (forall values,
              all (List.map (fun ticket => detail (ZendeskTicket.id ticket)) tickets)
              = Some values ->
              result = values)).
Proof.
  split.
  - split.
    + intros (fuel & Hf). destruct tickets as [|t rest]; [now left|]. right.
      destruct batchSize; [|lia]. exfalso. apply Hf.
      apply fetchLoop_zero. discriminate.
    + intros [->|Hpos].
      * exists 0%nat. discriminate.
      * exists (length tickets).
        destruct (fetchLoop_terminates detail batchSize (length tickets) tickets Hpos
                    (Nat.le_refl _)) as (result & E & _).
        unfold batchFetchDetailedTickets. rewrite E. discriminate.
  - intros Hpos fuel Hfuel. now apply fetchLoop_terminates.
Qed.

(** Three tickets that can all be fetched, in batches of two. *)
Lemma batchFetchDetailedTickets_terminates_witness :
  let detail := fun id : Z => @inr Template.t _ (Sample.outage id) in
  let tickets := [Sample.outage 1; Sample.outage 2; Sample.outage 3] in
  (0 < 2)%nat
  /\ exists result,
       batchFetchDetailedTickets 3 detail tickets 2 = Some result
       /\ (length result <= 3)%nat.
Proof.
  cbv zeta. split; [lia|].
  destruct (batchFetchDetailedTickets_terminates
              (fun id : Z => @inr Template.t _ (Sample.outage id))
              [Sample.outage 1; Sample.outage 2; Sample.outage 3] 2) as [_ H].
  destruct (H ltac:(lia) 3%nat ltac:(cbn; lia)) as (result & E & Hlen & _).
  exists result. split; [exact E | exact Hlen].
Defined.

(** X20: a batch is kept or dropped as a whole.  When the tickets start
    with a full batch, the result is what that batch gives followed by the
    result for the remaining tickets; the batch gives the details of all
    its tickets, or nothing at all as soon as one of its tickets cannot be
    fetched, although the others could. *)
Theorem batchFetchDetailedTickets_drops_failed_batch
    (detail : Z -> Answer ZendeskTicket.t) (batch rest : list ZendeskTicket.t)
    (batchSize fuel : nat) :
  (0 < batchSize)%nat ->
  length batch = batchSize ->
  (length (batch ++ rest) <= fuel)%nat ->
  exists restResult,
    batchFetchDetailedTickets fuel detail rest batchSize = Some restResult
    /\ batchFetchDetailedTickets fuel detail (batch ++ rest) batchSize
       = Some (Batches.batchResult detail batch ++ restResult)
    /\ ((exists ticket error,
           In ticket batch /\ detail (ZendeskTicket.id ticket) = inl error) ->
        Batches.batchResult detail batch = [])
    /\ (forall values,
          all (List.map (fun ticket => detail (ZendeskTicket.id ticket)) batch)
          = Some values ->
          Batches.batchResult detail batch = values).
Proof.
  intros Hpos Hlen Hfuel. rewrite length_app in Hfuel.
  destruct fuel as [|fuel]; [lia|].
  destruct (fetchLoop_terminates detail batchSize fuel rest Hpos ltac:(lia))
    as (restResult & Er & _).
  destruct (fetchLoop_terminates detail batchSize (S fuel) rest Hpos ltac:(lia))
    as (restResult' & Er' & _ & _ & _).
  assert (Esame : restResult' = restResult).
  { clear - Er Er' Hpos.
    revert restResult restResult' Er Er'. generalize (@nil ZendeskTicket.t).
    revert rest. induction fuel as [|fuel IH]; intros rest acc r1 r2 E1 E2.
    - destruct rest; cbn in E1, E2; congruence.
    - destruct rest as [|t rest]; [cbn in E1, E2; congruence|].
      cbn [fetchLoop] in E1. 
      change (fetchLoop (S (S fuel)) detail batchSize (t :: rest) acc)
        with (fetchLoop (S fuel) detail batchSize (skipn batchSize (t :: rest))
                match all (List.map (fun ticket => detail (ZendeskTicket.id ticket))
                             (firstn batchSize (t :: rest))) with
                | Some b => acc ++ b
                | None => acc
                end) in E2.
      eapply IH; eassumption. }
  subst restResult'.
  exists restResult. unfold batchFetchDetailedTickets.
  split; [exact Er'|]. split.
  - rewrite (fetchLoop_batch detail fuel batchSize batch rest Hpos Hlen), Er.
    reflexivity.
  - split.
    + intros (ticket & error & Hin & E). unfold Batches.batchResult.
      rewrite (all_failed _ error); [reflexivity|].
      apply in_map_iff. exists ticket. split; [exact E | exact Hin].
    + intros values E. unfold Batches.batchResult. now rewrite E.
Qed.

(** Batches of two: the second ticket cannot be fetched, so the first is
    lost with it and only the third comes back. *)
Lemma batchFetchDetailedTickets_drops_failed_batch_witness :
  let detail := fun id : Z =>
    if (id =? 2)%Z then inl [Template.Str "Failed to fetch ticket 2"]
    else inr (Sample.outage id) in
  batchFetchDetailedTickets 3 detail
    ([Sample.outage 1; Sample.outage 2] ++ [Sample.outage 3]) 2
  = Some [Sample.outage 3].
Proof.
  cbv zeta.
  destruct (batchFetchDetailedTickets_drops_failed_batch
              (fun id : Z =>
                 if (id =? 2)%Z then inl [Template.Str "Failed to fetch ticket 2"]
                 else inr (Sample.outage id))
              [Sample.outage 1; Sample.outage 2] [Sample.outage 3] 2 3
              ltac:(lia) eq_refl ltac:(cbn; lia))
    as (restResult & Er & E & _).
  vm_compute in Er. injection Er as <-.
  etransitivity; [exact E|]. vm_compute. reflexivity.
Defined.

End BatchFetchExtras.

(** ** Retrying ([ErrorHandler.handleWithRetry]) *)

Section Retry.

Import ErrorHandler.

Context {T : Type} (operation : nat -> TicketFetcher.Answer T) (options : RetryOptions).

Lemma retryFrom_success (failures attempt remaining : nat) (value : T) :
  (failures <= remaining)%nat ->
  Events.allFail operation attempt failures ->
  operation (attempt + failures)%nat = inr value ->
  let out := retryFrom operation options attempt remaining in
  fst out = inr value
  /\ Events.recorded (snd out)
     = List.map (fun j => Events.errorOf (operation j)) (seq attempt failures)
  /\ Events.delays (snd out)
     = List.map (fun j => baseDelay options * 2 ^ Z.of_nat j) (seq attempt failures).
Proof.
  cbv zeta. revert attempt remaining.
  induction failures as [|failures IH]; intros attempt remaining Hle Hfail Hok.
  - rewrite Nat.add_0_r in Hok. destruct remaining; cbn [retryFrom]; rewrite Hok;
      repeat split.
  - destruct remaining as [|remaining]; [lia|].
    destruct (Hfail attempt ltac:(lia)) as (error & Ee).
    cbn [retryFrom]. rewrite Ee.
    destruct (IH (S attempt) remaining ltac:(lia)) as (E1 & E2 & E3).
    { intros j Hj. apply Hfail. lia. }
    { now rewrite <- Nat.add_succ_comm in Hok. }
    destruct (retryFrom operation options (S attempt) remaining) as [answer events].
    cbn [fst snd] in *. split; [exact E1|].
    cbn [Events.recorded Events.delays flat_map app seq List.map].
    fold (Events.recorded events). fold (Events.delays events).
    rewrite E2, E3, Ee. split; reflexivity.
Qed.

Lemma retryFrom_exhausted (attempt remaining : nat) :
  Events.allFail operation attempt (S remaining) ->
  let out := retryFrom operation options attempt remaining in
  fst out = inl (Events.errorOf (operation (attempt + remaining)%nat))
  /\ Events.recorded (snd out)
     = List.map (fun j => Events.errorOf (operation j)) (seq attempt (S remaining))
  /\ Events.delays (snd out)
     = List.map (fun j => baseDelay options * 2 ^ Z.of_nat j) (seq attempt remaining).
Proof.
  cbv zeta. revert attempt. induction remaining as [|remaining IH]; intros attempt Hfail.
  - destruct (Hfail attempt ltac:(lia)) as (error & Ee).
    cbn [retryFrom seq List.map]. rewrite Nat.add_0_r, Ee. repeat split.
  - destruct (Hfail attempt ltac:(lia)) as (error & Ee).
    cbn [retryFrom]. rewrite Ee.
    destruct (IH (S attempt)) as (E1 & E2 & E3).
    { intros j Hj. apply Hfail. lia. }
    destruct (retryFrom operation options (S attempt) remaining) as [answer events].
    cbn [fst snd] in *. rewrite <- Nat.add_succ_comm. split; [exact E1|].
    cbn [Events.recorded Events.delays flat_map app].
    fold (Events.recorded events). fold (Events.delays events).
    rewrite E2, E3. cbn [seq List.map]. rewrite Ee. split; reflexivity.
Qed.

(** The waits double from one attempt to the next, so the first [n] of
    them add up to [baseDelay * (2^n - 1)]. *)
Lemma backoff_total (n : nat) :
  Events.total (List.map (fun j => baseDelay options * 2 ^ Z.of_nat j) (seq 0 n))
  == baseDelay options * (2 ^ Z.of_nat n - 1).
Proof.
  induction n as [|n IH].
  { unfold Events.total. cbn [seq List.map fold_right].
    change (2 ^ Z.of_nat 0) with 1. ring. }
  rewrite seq_S, List.map_app. cbn [List.map Nat.add].
  unfold Events.total in *. rewrite fold_right_app. cbn [fold_right].
  assert (Hshift : forall (l : list Q) (x : Q),
             fold_right Qplus (x + 0) l == fold_right Qplus 0 l + x).
  { induction l as [|y l IHl]; intros x; cbn [fold_right]; [ring|].
    rewrite IHl. ring. }
  rewrite Hshift, IH, Nat2Z.inj_succ. unfold Z.succ.
  rewrite Qpower_plus by discriminate.
  change (2 ^ 1) with 2. ring.
Qed.

End Retry.

Section RetryExtras.

Import ErrorHandler.

(** X21: [handleWithRetry] returns the value of the first call of the
    operation that succeeds, when that call is among the first
    [maxRetries + 1]; it has then recorded the error of every failed call
    before it, in order, and waited [baseDelay * 2^j] after the failed call
    number [j], that is [baseDelay * (2^n - 1)] in all after [n] failures.
    A success at the first call records nothing and waits for nothing. *)
Theorem handleWithRetry_first_success {T} (operation : nat -> TicketFetcher.Answer T)
    (options : RetryOptions) (failures : nat) (value : T) :
  (failures <= maxRetries options)%nat ->
  Events.allFail operation 0 failures ->
  operation failures = inr value ->
  let out := handleWithRetry operation options in
  fst out = inr value
  /\ Events.recorded (snd out)
     = List.map (fun j => Events.errorOf (operation j)) (seq 0 failures)
  /\ Events.delays (snd out)
     = List.map (fun j => baseDelay options * 2 ^ Z.of_nat j) (seq 0 failures)
  /\ Events.total (Events.delays (snd out))
     == baseDelay options * (2 ^ Z.of_nat failures - 1).
Proof.
  intros Hle Hfail Hok. cbv zeta. unfold handleWithRetry.
  destruct (retryFrom_success operation options failures 0 (maxRetries options) value
              Hle Hfail Hok) as (E1 & E2 & E3).
  split; [exact E1|]. split; [exact E2|]. split; [exact E3|].
  rewrite E3. apply backoff_total.
Qed.

(** The fetch of the orchestrator (3 retries, 1000 ms): two failures, then
    an answer; the waits are 1000 and 2000 ms. *)
Lemma handleWithRetry_first_success_witness :
  let operation := fun k : nat =>
    if (k <? 2)%nat then inl [Template.Str "Failed to fetch recent tickets: timeout"]
    else @inr Template.t (list Z) [4%Z; 7%Z] in
  let options := mkOptions 3 1000 "fetch_tickets" in
  (2 <= maxRetries options)%nat
  /\ fst (handleWithRetry operation options) = inr [4%Z; 7%Z]
  /\ Events.delays (snd (handleWithRetry operation options)) = [1000 * 2 ^ 0; 1000 * 2 ^ 1].
Proof.
  cbv zeta.
  assert (Hle : (2 <= maxRetries (mkOptions 3 1000 "fetch_tickets"))%nat) by (cbn; lia).
  split; [exact Hle|].
  destruct (handleWithRetry_first_success
              (fun k : nat =>
                 if (k <? 2)%nat
                 then inl [Template.Str "Failed to fetch recent tickets: timeout"]
                 else @inr Template.t (list Z) [4%Z; 7%Z])
              (mkOptions 3 1000 "fetch_tickets") 2 [4%Z; 7%Z] Hle)
    as (E1 & _ & E3 & _).
  - intros j Hj. assert (Hj2 : (j <? 2)%nat = true) by (apply Nat.ltb_lt; lia).
    cbv beta. rewrite Hj2. eauto.
  - reflexivity.
  - split; [exact E1 | exact E3].
Defined.

(** X22: when the first [maxRetries + 1] calls of the operation all fail,
    [handleWithRetry] throws the error of the last of them; it has called
    the operation [maxRetries + 1] times and not once more, recorded each
    of those errors, and waited [maxRetries] times, [baseDelay *
    (2^maxRetries - 1)] in all; it does not wait after the last failure. *)
Theorem handleWithRetry_gives_up {T} (operation : nat -> TicketFetcher.Answer T)
    (options : RetryOptions) :
  Events.allFail operation 0 (S (maxRetries options)) ->
  let out := handleWithRetry operation options in
  fst out = inl (Events.errorOf (operation (maxRetries options)))
  /\ Events.recorded (snd out)
     = List.map (fun j => Events.errorOf (operation j)) (seq 0 (S (maxRetries options)))
  /\ length (Events.delays (snd out)) = maxRetries options
  /\ Events.total (Events.delays (snd out))
     == baseDelay options * (2 ^ Z.of_nat (maxRetries options) - 1).
Proof.
  intros Hfail. cbv zeta. unfold handleWithRetry.
  destruct (retryFrom_exhausted operation options 0 (maxRetries options) Hfail)
    as (E1 & E2 & E3).
  split; [exact E1|]. split; [exact E2|].
  rewrite E3. split; [now rewrite length_map, length_seq | apply backoff_total].
Qed.

(** The fetch of the orchestrator when the helpdesk stays down: four
    calls, three waits of 1000, 2000 and 4000 ms. *)
Lemma handleWithRetry_gives_up_witness :
  let operation := fun _ : nat =>
    @inl Template.t (list Z) [Template.Str "Failed to fetch recent tickets: timeout"] in
  let options := mkOptions 3 1000 "fetch_tickets" in
  Events.allFail operation 0 4
  /\ length (Events.recorded (snd (handleWithRetry operation options))) = 4%nat
  /\ Events.total (Events.delays (snd (handleWithRetry operation options))) == 7000.
Proof.
  cbv zeta.
  assert (H : Events.allFail
                (fun _ : nat =>
                   @inl Template.t (list Z)
                     [Template.Str "Failed to fetch recent tickets: timeout"]) 0 4).
  { intros j _. eauto. }
  split; [exact H|].
  destruct (handleWithRetry_gives_up _ (mkOptions 3 1000 "fetch_tickets") H)
    as (_ & E2 & _ & E4).
  split; [rewrite E2; reflexivity|]. rewrite E4. reflexivity.
Defined.

End RetryExtras.

(** ** A run of the orchestrator *)

Section RunFacts.

Import TicketFetcher TicketAutomationSystem.

Lemma In_firstn_or_skipn {A} (n : nat) (l : list A) (a : A) :
  In a (firstn n l) \/ In a (skipn n l) -> In a l.
Proof.
  intros H. rewrite <- (firstn_skipn n l). apply in_or_app, H.
Qed.

Lemma fetchLoop_length (detail : Z -> Answer ZendeskTicket.t) (fuel batchSize : nat)
    (rest acc result : list ZendeskTicket.t) :
  fetchLoop fuel detail batchSize rest acc = Some result ->
  (length result <= length acc + length rest)%nat.
Proof.
  revert rest acc. induction fuel as [|fuel IH]; intros rest acc.
  - destruct rest; cbn [fetchLoop]; [|discriminate].
    intros E. inversion E. cbn. lia.
  - destruct rest as [|t rest]; [cbn [fetchLoop]; intros E; inversion E; cbn; lia|].
    set (l := t :: rest). cbn [fetchLoop]. fold l. intros E. apply IH in E.
    pose proof (firstn_skipn batchSize l) as Hsplit.
    apply (f_equal (@length _)) in Hsplit. rewrite length_app in Hsplit.
    destruct (all (List.map (fun ticket => detail (ZendeskTicket.id ticket))
                            (firstn batchSize l))) as [values|] eqn:Ea.
    + apply all_length in Ea. rewrite length_map in Ea.
      rewrite length_app in E. lia.
    + lia.
Qed.

Lemma fetchTickets_at_most_50 (this : t) (fuel : nat)
    (search : nat -> Answer (option (list ZendeskTicket.t)))
    (detail : Z -> Answer ZendeskTicket.t) (tickets : list ZendeskTicket.t) :
  fetchTickets this fuel search detail = Some (inr tickets) ->
  (length tickets <= 50)%nat.
Proof.
  unfold fetchTickets.
  destruct (fst (ErrorHandler.handleWithRetry _ fetchOptions)) as [error|found];
    [discriminate|].
  cbv zeta. unfold batchFetchDetailedTickets.
  destruct (fetchLoop fuel detail (batchSize this) (firstn 50 found) []) as [result|] eqn:E;
    [|discriminate].
  intros H. inversion H; subst. apply fetchLoop_length in E.
  pose proof (firstn_le_length 50 found). cbn [length] in E.
  rewrite length_firstn in E. lia.
Qed.

(** The counters of a batch over the analyses of its own tickets. *)
Lemma batch_of_own_analyses (this : t) (tickets : list ZendeskTicket.t)
    (r : ZendeskClient.Remote) :
  let out := applyTags this (analyzeTickets this tickets) tickets r in
  (BatchTaggingResults.success (fst out) + BatchTaggingResults.skipped (fst out)
   + BatchTaggingResults.errors (fst out) = length tickets)%nat
  /\ (AutomationConfig.dryRun (AutoTagger.config (tagger this)) = true ->
      snd out = r
      /\ BatchTaggingResults.success (fst out) = 0%nat
      /\ BatchTaggingResults.errors (fst out) = 0%nat).
Proof.
  cbv zeta. unfold applyTags, analyzeTickets, ContentAnalyzerBatch.batchAnalyze,
    AutoTagger.batchApplyTags.
  set (analyses := List.map (ContentAnalyzer.analyzeTicket (analyzer this)) tickets).
  destruct (batch_loop_processed (tagger this) tickets analyses
              (AutoTagger.mkTally [] 0 0 0, r))
    as (outcomes & sent & P1 & _ & _ & P4 & _ & P6 & P7 & _).
  destruct (batch_loop_accounted (tagger this) tickets analyses
              (AutoTagger.mkTally [] 0 0 0, r))
    as (outcomes' & sent' & A1 & _ & A3 & A4 & A5).
  destruct (fold_left _ analyses _) as [tally r'].
  cbn [fst snd BatchTaggingResults.success BatchTaggingResults.skipped
       BatchTaggingResults.errors AutoTagger.results AutoTagger.successCount
       AutoTagger.skipCount AutoTagger.errorCount app] in *.
  split; [rewrite P7; unfold analyses; rewrite length_map; lia|].
  intros Hdry. specialize (A5 Hdry). rewrite A1 in P1. subst outcomes'.
  assert (Hmiss : Spec.misses tickets analyses = 0%nat).
  { assert (Hall : List.filter (Spec.hasTicket tickets) analyses = analyses).
    { apply List.forallb_filter_id, forallb_forall. intros a Ha.
      apply hasTicket_In. apply in_map_iff in Ha. destruct Ha as (ticket & <- & Hin).
      apply in_map_iff. exists ticket. split; [reflexivity | exact Hin]. }
    pose proof (filter_split_length (Spec.hasTicket tickets) analyses) as H.
    rewrite Hall in H. unfold Spec.misses. lia. }
  assert (Hzero : forall s, (s = "success" \/ s = "error") ->
                            Spec.withStatus s outcomes = 0%nat).
  { intros s Hs. unfold Spec.withStatus. clear - A5 Hs.
    induction A5 as [|o l Ho _ IH]; [reflexivity|].
    cbn [List.filter]. destruct (String.eqb_spec (TaggingResult.status o) s) as [E|E];
      [|exact IH].
    exfalso. destruct Hs as [-> | ->], Ho as [Ho|Ho]; rewrite Ho in E; discriminate. }
  assert (Hsent : sent' = []).
  { assert (E : flat_map Sent.requestOf outcomes = []).
    { clear - A5. induction A5 as [|o l Ho _ IH]; [reflexivity|].
      cbn [flat_map]. rewrite IH, app_nil_r. unfold Sent.requestOf.
      destruct Ho as [Ho|Ho]; rewrite Ho; reflexivity. }
    rewrite E in A3. now destruct sent'. }
  split; [now apply A4|]. split; [rewrite P4, Hzero; auto|].
  rewrite P6, Hmiss, Hzero; auto.
Qed.

(** The calls of an operation either all fail or have a first success. *)
Lemma retry_cases {T} (operation : nat -> Answer T) (count : nat) :
  (exists failures value,
      (failures < count)%nat /\ Events.allFail operation 0 failures
      /\ operation (0 + failures)%nat = inr value)
  \/ Events.allFail operation 0 count.
Proof.
  induction count as [|count [(failures & value & Hlt & Hfail & Hok)|Hall]].
  - right. intros j Hj. lia.
  - left. exists failures, value. split; [lia | now split].
  - destruct (operation count) as [error|value] eqn:E.
    + right. intros j Hj. destruct (Nat.eq_dec j count) as [->|Hne]; [eauto|].
      apply Hall. lia.
    + left. exists count, value. split; [lia|]. split; [exact Hall | exact E].
Qed.

(** A value that the retry returns is the value of one of its calls. *)
Lemma retryFrom_value {T} (operation : nat -> Answer T)
    (options : ErrorHandler.RetryOptions) (attempt remaining : nat) (value : T) :
  fst (ErrorHandler.retryFrom operation options attempt remaining) = inr value ->
  exists k, (attempt <= k <= attempt + remaining)%nat /\ operation k = inr value.
Proof.
  revert attempt. induction remaining as [|remaining IH]; intros attempt;
    cbn [ErrorHandler.retryFrom]; destruct (operation attempt) as [error|v] eqn:E.
  - discriminate.
  - cbn [fst]. intros H. exists attempt. split; [lia | congruence].
  - specialize (IH (S attempt)).
    destruct (ErrorHandler.retryFrom operation options (S attempt) remaining)
      as [answer events].
    cbn [fst] in *. intros H. destruct (IH H) as (k & Hk & Ek).
    exists k. split; [lia | exact Ek].
  - cbn [fst]. intros H. exists attempt. split; [lia | congruence].
Qed.

(** Whatever the batch loop collects is the detail of one of its tickets. *)
Lemma fetchLoop_from (detail : Z -> Answer ZendeskTicket.t) (fuel batchSize : nat)
    (rest acc result : list ZendeskTicket.t) (d : ZendeskTicket.t) :
  fetchLoop fuel detail batchSize rest acc = Some result ->
  In d result ->
  In d acc \/ exists ticket, In ticket rest /\ detail (ZendeskTicket.id ticket) = inr d.
Proof.
  revert rest acc. induction fuel as [|fuel IH]; intros rest acc.
  - destruct rest; cbn [fetchLoop]; [|discriminate].
    intros E Hd. inversion E; subst. now left.
  - destruct rest as [|t rest];
      [cbn [fetchLoop]; intros E Hd; inversion E; subst; now left|].
    set (l := t :: rest). cbn [fetchLoop]. fold l. intros E Hd.
    destruct (IH _ _ E Hd) as [Hacc|(ticket & Hin & Edet)].
    + destruct (all (List.map (fun ticket => detail (ZendeskTicket.id ticket))
                              (firstn batchSize l))) as [values|] eqn:Ea;
        [|now left].
      apply in_app_or in Hacc. destruct Hacc as [Hacc|Hval]; [now left|]. right.
      pose proof (all_In _ _ _ Ea Hval) as Hmap. apply in_map_iff in Hmap.
      destruct Hmap as (ticket & Edet & Hin). exists ticket.
      split; [|exact Edet]. apply (In_firstn_or_skipn batchSize). now left.
    + right. exists ticket. split; [|exact Edet].
      apply (In_firstn_or_skipn batchSize). now right.
Qed.

(** Every ticket that [fetchTickets] returns is the detail of a ticket
    that one of the four searches found without the marker tag. *)
Lemma fetchTickets_origin (this : t) (fuel : nat)
    (search : nat -> Answer (option (list ZendeskTicket.t)))
    (detail : Z -> Answer ZendeskTicket.t) (tickets : list ZendeskTicket.t) :
  fetchTickets this fuel search detail = Some (inr tickets) ->
  Forall (FetchedBy.origin search detail) tickets.
Proof.
  unfold fetchTickets.
  destruct (fst (ErrorHandler.handleWithRetry _ fetchOptions)) as [error|found] eqn:Er;
    [discriminate|].
  apply retryFrom_value in Er. destruct Er as (k & Hk & Ek).
  change (ErrorHandler.maxRetries fetchOptions) with 3%nat in Hk.
  cbv zeta. unfold batchFetchDetailedTickets.
  destruct (fetchLoop fuel detail (batchSize this) (firstn 50 found) []) as [result|] eqn:E;
    [|discriminate].
  intros H. inversion H; subst. apply List.Forall_forall. intros d Hd.
  destruct (fetchLoop_from _ _ _ _ _ _ _ E Hd) as [[]|(ticket & Hin & Edet)].
  assert (Hfound : In ticket found) by (apply (In_firstn_or_skipn 50); now left).
  destruct (search k) as [e|[results|]] eqn:Es;
    [discriminate| |cbn in Ek; inversion Ek; subst; destruct Hfound].
  apply (fetchNewTickets_In results ["auto-processed"] found ticket Ek) in Hfound.
  destruct Hfound as [Hres Htags].
  exists k, results, ticket. split; [lia|]. split; [exact Es|]. split; [exact Hres|].
  split; [apply Htags; now left | exact Edet].
Qed.

(** A batch over the analyses of its own tickets has one outcome per
    ticket, and sends requests for those tickets only. *)
Lemma batch_of_own_analyses_ids (this : t) (tickets : list ZendeskTicket.t)
    (r : ZendeskClient.Remote) :
  let out := applyTags this (analyzeTickets this tickets) tickets r in
  List.map TaggingResult.ticketId (BatchTaggingResults.details (fst out))
  = List.map ZendeskTicket.id tickets
  /\ exists sent,
       ZendeskClient.requests (snd out) = ZendeskClient.requests r ++ sent
       /\ Forall (fun q => In (ZendeskClient.ticketId q)
                              (List.map ZendeskTicket.id tickets)) sent.
Proof.
  cbv zeta. unfold applyTags, analyzeTickets, ContentAnalyzerBatch.batchAnalyze,
    AutoTagger.batchApplyTags.
  set (analyses := List.map (ContentAnalyzer.analyzeTicket (analyzer this)) tickets).
  destruct (batch_loop_processed (tagger this) tickets analyses
              (AutoTagger.mkTally [] 0 0 0, r))
    as (outcomes & _ & P1 & _ & P3 & _).
  destruct (batch_loop_accounted (tagger this) tickets analyses
              (AutoTagger.mkTally [] 0 0 0, r))
    as (outcomes' & sent & A1 & A2 & A3 & _).
  destruct (fold_left _ analyses _) as [tally r'].
  cbn [fst snd BatchTaggingResults.details AutoTagger.results app] in *.
  rewrite A1 in P1. subst outcomes'.
  assert (Hall : List.filter (Spec.hasTicket tickets) analyses = analyses).
  { apply List.forallb_filter_id, forallb_forall. intros a Ha.
    apply hasTicket_In. apply in_map_iff in Ha. destruct Ha as (ticket & <- & Hin).
    apply in_map_iff. exists ticket. split; [reflexivity | exact Hin]. }
  assert (Hids : List.map TaggingResult.ticketId outcomes = List.map ZendeskTicket.id tickets).
  { rewrite P3, Hall. unfold analyses. rewrite List.map_map. reflexivity. }
  rewrite A1. split; [exact Hids|]. exists sent. split; [exact A2|].
  apply List.Forall_forall. intros q Hq. rewrite <- Hids.
  assert (Hpair : In (ZendeskClient.ticketId q, ZendeskClient.ok q)
                     (flat_map Sent.requestOf outcomes)).
  { rewrite <- A3. apply in_map_iff. now exists q. }
  apply in_flat_map in Hpair. destruct Hpair as (o & Ho & Hreq).
  apply in_map_iff. exists o. split; [|exact Ho].
  unfold Sent.requestOf in Hreq.
  destruct (String.eqb (TaggingResult.status o) "success");
    [destruct Hreq as [Hreq|[]]; now inversion Hreq|].
  destruct (String.eqb (TaggingResult.status o) "error");
    [destruct Hreq as [Hreq|[]]; now inversion Hreq | destruct Hreq].
Qed.

Lemma round_hundred : Double.round 100 == 100.
Proof. vm_compute. reflexivity. Qed.

(** The success rate [(tagged / processed) * 100] in double arithmetic. *)
Lemma successRate_bounds (this : t) (processed tagged skipped errors : nat)
    (results : option BatchTaggingResults.t) :
  (tagged <= processed)%nat ->
  let rate := AutomationSummary.successRate
                (AutomationReport.summary
                   (generateReport this processed tagged skipped errors results)) in
  0 <= rate <= 100
  /\ (rate == 0 <-> tagged = 0%nat)
  /\ ((processed <= 50)%nat ->
      (rate == 100 <-> (0 < processed)%nat /\ tagged = processed))
  /\ - (SuccessRate.tolerance * Js.ofNat processed)
     <= rate * Js.ofNat processed - 100 * Js.ofNat tagged
     <= SuccessRate.tolerance * Js.ofNat processed.
Proof.
  intros Hle. cbv zeta. unfold generateReport.
  cbn [AutomationReport.summary AutomationSummary.successRate].
  destruct (0 <? processed)%nat eqn:E.
  - apply Nat.ltb_lt in E. unfold Js.ofNat, Double.mul, Double.div.
    assert (Hp : 0 < inject_Z (Z.of_nat processed)).
    { rewrite <- (Zlt_Qlt 0). lia. }
    assert (Ht : 0 <= inject_Z (Z.of_nat tagged)).
    { rewrite <- (Zle_Qle 0). lia. }
    assert (Htp : inject_Z (Z.of_nat tagged) <= inject_Z (Z.of_nat processed)).
    { rewrite <- Zle_Qle. lia. }
    assert (Ht0 : 0 < inject_Z (Z.of_nat tagged) <-> tagged <> 0%nat).
    { rewrite <- (Zlt_Qlt 0). lia. }
    assert (Hlt : (tagged < processed)%nat -> (processed <= 50)%nat ->
                  inject_Z (Z.of_nat tagged) * 50
                  <= inject_Z (Z.of_nat processed) * 49).
    { intros H1 H2. change 50 with (inject_Z 50). change 49 with (inject_Z 49).
      rewrite <- !inject_Z_mult, <- Zle_Qle. lia. }
    set (p := inject_Z (Z.of_nat processed)) in *.
    set (g := inject_Z (Z.of_nat tagged)) in *.
    assert (Eq : g / p * p == g) by (field; lra).
    assert (Hq : 0 <= g / p <= 1).
    { split.
      - apply Qle_shift_div_l; [exact Hp|]. lra.
      - apply Qle_shift_div_r; [exact Hp|]. lra. }
    set (q := g / p) in *.
    destruct (round_within q 1 Hq round_one) as [Bq Eq'].
    set (q' := Double.round q) in *.
    destruct (round_within (q' * 100) 100 ltac:(lra) round_hundred) as [Br Er].
    set (rate := Double.round (q' * 100)) in *.
    split; [exact Br|]. split; [|split].
    + split.
      * intros Hz. destruct (Nat.eq_dec tagged 0%nat) as [H0|H0]; [exact H0|].
        exfalso. apply Ht0 in H0.
        assert (Pq : 0 < q) by (apply Qlt_shift_div_l; lra).
        assert (Pq' : 0 < q') by (now apply round_positive).
        assert (Pr : 0 < rate) by (apply round_positive; lra).
        lra.
      * intros H0. assert (Eg : g == 0) by (unfold g; now rewrite H0).
        assert (Ez : q == 0) by (unfold q; rewrite Eg; field; lra).
        unfold rate, q'. rewrite Ez. vm_compute. reflexivity.
    + intros H50. split.
      * intros Hr. split; [exact E|].
        destruct (Nat.eq_dec tagged processed) as [He|Hne]; [exact He|].
        exfalso. specialize (Hlt ltac:(lia) H50).
        assert (Hq49 : q <= 49 # 50).
        { unfold q. apply Qle_shift_div_r; [exact Hp|]. lra. }
        pose proof (round_mono q (49 # 50) Hq49) as M1. fold q' in M1.
        pose proof (round_mono (q' * 100) (Double.round (49 # 50) * 100)
                      ltac:(lra)) as M2.
        fold rate in M2.
        assert (C : Double.round (Double.round (49 # 50) * 100) < 100)
          by (vm_compute; reflexivity).
        lra.
      * intros [_ He]. assert (Eg : g == p) by (unfold g, p; now rewrite He).
        assert (E1 : q == 1) by (unfold q; rewrite Eg; field; lra).
        unfold rate, q'. rewrite E1. vm_compute. reflexivity.
    + unfold SuccessRate.tolerance, Double.unitRoundoff in *.
      assert (N1 : (rate - q * 100) * p <= (1 # 35184372088832) * p).
      { apply Qmult_le_compat_r; lra. }
      assert (N2 : - (1 # 35184372088832) * p <= (rate - q * 100) * p).
      { apply Qmult_le_compat_r; lra. }
      assert (E2 : (rate - q * 100) * p == rate * p - 100 * g).
      { rewrite <- Eq. ring. }
      split; lra.
  - apply Nat.ltb_ge in E. assert (processed = 0%nat) by lia. subst.
    assert (tagged = 0%nat) by lia. subst.
    split; [split; discriminate|]. split; [split; reflexivity|].
    split; [intros _; split; [discriminate | intros [H _]; lia]|].
    cbn. split; discriminate.
Qed.

End RunFacts.

Section RunExtras.

Import TicketFetcher TicketAutomationSystem.

Variable this : TicketAutomationSystem.t.
Variable search : nat -> Answer (option (list ZendeskTicket.t)).
Variable detail : Z -> Answer ZendeskTicket.t.

(** X23: the summary of a run that ends with a report adds up: at most 50
    tickets are processed, each of them is counted once as tagged, skipped
    or error, and the report carries tagging results exactly when at least
    one ticket was processed.  The success rate, computed in double
    arithmetic, lies between 0 and 100, is 0 exactly when no ticket was
    tagged and 100 exactly when every one of at least one ticket was, and
    is within [2^-45] of the share of tagged tickets in percent. *)
Theorem run_summary_adds_up (fuel : nat) (r r' : ZendeskClient.Remote)
    (report : AutomationReport.t) :
  run this fuel search detail r = Some (inr report, r') ->
  let s := AutomationReport.summary report in
  let processed := AutomationSummary.ticketsProcessed s in
  let tagged := AutomationSummary.ticketsTagged s in
  (processed <= 50)%nat
  /\ (tagged + AutomationSummary.ticketsSkipped s + AutomationSummary.errors s
      = processed)%nat
  /\ 0 <= AutomationSummary.successRate s <= 100
  /\ (AutomationSummary.successRate s == 0 <-> tagged = 0%nat)
  /\ (AutomationSummary.successRate s == 100
      <-> (0 < processed)%nat /\ tagged = processed)
  /\ - (SuccessRate.tolerance * Js.ofNat processed)
     <= AutomationSummary.successRate s * Js.ofNat processed - 100 * Js.ofNat tagged
     <= SuccessRate.tolerance * Js.ofNat processed
  /\ (AutomationReport.taggingResults report = None <-> processed = 0%nat).
Proof.
  unfold run.
  destruct (fetchTickets this fuel search detail) as [[error|tickets]|] eqn:Ef;
    [discriminate| |discriminate].
  apply fetchTickets_at_most_50 in Ef.
  destruct (length tickets =? 0)%nat eqn:El.
  - intros H. inversion H; subst. cbv zeta.
    pose proof (successRate_bounds this 0 0 0 0 None (Nat.le_refl _)) as Hb.
    cbv zeta in Hb. destruct Hb as (Hb1 & Hb2 & Hb3 & Hb4).
    cbn [generateReport AutomationReport.summary AutomationReport.taggingResults
         AutomationSummary.ticketsProcessed AutomationSummary.ticketsTagged
         AutomationSummary.ticketsSkipped AutomationSummary.errors] in *.
    split; [lia|]. split; [reflexivity|]. split; [exact Hb1|]. split; [exact Hb2|].
    split; [apply Hb3; lia|]. split; [exact Hb4|].
    split; reflexivity.
  - apply Nat.eqb_neq in El. cbv zeta.
    pose proof (batch_of_own_analyses this tickets r) as [Hsum _].
    destruct (applyTags this (analyzeTickets this tickets) tickets r)
      as [taggingResults r''].
    cbn [fst snd] in Hsum. intros H. inversion H; subst r''. subst report.
    assert (Hle : (BatchTaggingResults.success taggingResults <= length tickets)%nat)
      by lia.
    pose proof (successRate_bounds this (length tickets)
                  (BatchTaggingResults.success taggingResults)
                  (BatchTaggingResults.skipped taggingResults)
                  (BatchTaggingResults.errors taggingResults)
                  (Some taggingResults) Hle) as Hb.
    cbv zeta in Hb. destruct Hb as (Hb1 & Hb2 & Hb3 & Hb4).
    cbn [generateReport AutomationReport.summary AutomationReport.taggingResults
         AutomationSummary.ticketsProcessed AutomationSummary.ticketsTagged
         AutomationSummary.ticketsSkipped AutomationSummary.errors] in *.
    split; [exact Ef|]. split; [exact Hsum|]. split; [exact Hb1|].
    split; [exact Hb2|]. split; [apply Hb3; exact Ef|]. split; [exact Hb4|].
    split; [discriminate | intros E; lia].
Qed.

(** X24: in dry-run mode a run that ends with a report leaves the helpdesk
    exactly as it was and reports every processed ticket as skipped: no
    ticket is tagged, no error is counted and the success rate is 0,
    however good the analyses are. *)
Theorem run_dry_run_reports_nothing_tagged (fuel : nat) (r r' : ZendeskClient.Remote)
    (report : AutomationReport.t) :
  AutomationConfig.dryRun (AutoTagger.config (tagger this)) = true ->
  run this fuel search detail r = Some (inr report, r') ->
  let s := AutomationReport.summary report in
  r' = r
  /\ AutomationSummary.ticketsTagged s = 0%nat
  /\ AutomationSummary.errors s = 0%nat
  /\ AutomationSummary.ticketsSkipped s = AutomationSummary.ticketsProcessed s
  /\ AutomationSummary.successRate s == 0.
Proof.
  intros Hdry. unfold run.
  destruct (fetchTickets this fuel search detail) as [[error|tickets]|] eqn:Ef;
    [discriminate| |discriminate].
  destruct (length tickets =? 0)%nat eqn:El.
  - intros H. inversion H; subst. cbv zeta. cbn. repeat split; reflexivity.
  - apply Nat.eqb_neq in El. cbv zeta.
    pose proof (batch_of_own_analyses this tickets r) as [Hsum Hd].
    destruct (Hd Hdry) as (Hr & Hs & He). clear Hd.
    destruct (applyTags this (analyzeTickets this tickets) tickets r)
      as [taggingResults r''].
    cbn [fst snd] in *. intros H. injection H as Hrep Hrem.
    rewrite <- Hrep, <- Hrem.
    cbn [generateReport AutomationReport.summary
         AutomationSummary.ticketsProcessed AutomationSummary.ticketsTagged
         AutomationSummary.ticketsSkipped AutomationSummary.errors
         AutomationSummary.successRate].
    split; [exact Hr|]. split; [exact Hs|]. split; [exact He|].
    split; [lia|]. rewrite Hs.
    destruct (0 <? length tickets)%nat; [|reflexivity].
    unfold Js.ofNat, Double.mul, Double.div. change (inject_Z (Z.of_nat 0)) with 0.
    assert (E0 : 0 / inject_Z (Z.of_nat (length tickets)) == 0)
      by (unfold Qdiv; apply Qmult_0_l).
    rewrite E0. vm_compute. reflexivity.
Qed.

(** X25: a run only touches tickets that a search returned without the
    marker tag: the outcomes of its tagging results are, one for one and
    in order, the tickets it fetched in detail, each of them the detail of
    a ticket that one of the at most four searches found without
    "auto-processed" among its tags, and every update request of the run
    goes to one of these tickets. *)
Theorem run_touches_only_unprocessed_tickets (fuel : nat)
    (r r' : ZendeskClient.Remote) (report : AutomationReport.t)
    (results : BatchTaggingResults.t) :
  run this fuel search detail r = Some (inr report, r') ->
  AutomationReport.taggingResults report = Some results ->
  exists tickets,
    List.map TaggingResult.ticketId (BatchTaggingResults.details results)
    = List.map ZendeskTicket.id tickets
    /\ Forall (FetchedBy.origin search detail) tickets
    /\ exists sent,
         ZendeskClient.requests r' = ZendeskClient.requests r ++ sent
         /\ Forall (fun q => In (ZendeskClient.ticketId q)
                                (List.map ZendeskTicket.id tickets)) sent.
Proof.
  unfold run.
  destruct (fetchTickets this fuel search detail) as [[error|tickets]|] eqn:Ef;
    [discriminate| |discriminate].
  apply fetchTickets_origin in Ef.
  destruct (length tickets =? 0)%nat.
  - intros H. inversion H; subst. cbn. discriminate.
  - cbv zeta.
    pose proof (batch_of_own_analyses_ids this tickets r) as (Hids & sent & Hreq & Hsent).
    destruct (applyTags this (analyzeTickets this tickets) tickets r)
      as [taggingResults r''].
    cbn [fst snd] in *. intros H. injection H as Hrep Hrem. subst r'' report.
    cbn [generateReport AutomationReport.taggingResults]. intros E.
    injection E as E. subst results.
    exists tickets. split; [exact Hids|]. split; [exact Ef|].
    exists sent. split; [exact Hreq | exact Hsent].
Qed.

(** X26: when the search for recent tickets fails four times in a row, the
    run throws the error of the fourth failure: there is no report, no
    ticket is fetched in detail, analysed or updated, whatever the batch
    size. *)
Theorem run_rethrows_search_failure (fuel : nat) (r : ZendeskClient.Remote) :
  Events.allFail search 0 4 ->
  run this fuel search detail r = Some (inl (Events.errorOf (search 3%nat)), r).
Proof.
  intros Hfail. unfold run, fetchTickets.
  assert (Hop : Events.allFail
                  (fun k => fetchNewTickets (search k) ["auto-processed"]) 0 4).
  { intros j Hj. destruct (Hfail j Hj) as (error & E). exists error.
    unfold fetchNewTickets. now rewrite E. }
  destruct (retryFrom_exhausted
              (fun k => fetchNewTickets (search k) ["auto-processed"]) fetchOptions
              0 3 Hop) as (E & _).
  unfold ErrorHandler.handleWithRetry.
  change (ErrorHandler.maxRetries fetchOptions) with 3%nat. rewrite E.
  destruct (Hfail 3%nat ltac:(lia)) as (error & E3).
  cbn [Nat.add]. unfold fetchNewTickets. rewrite E3. reflexivity.
Qed.

(** X27: with a positive batch size a run always comes to an end, within
    50 turns of the batch loop; it ends with an error exactly when the
    first four searches for recent tickets all fail, and with a report
    otherwise. *)
Theorem run_terminates (fuel : nat) (r : ZendeskClient.Remote) :
  (0 < batchSize this)%nat -> (50 <= fuel)%nat ->
  exists out r',
    run this fuel search detail r = Some (out, r')
    /\ ((exists error, out = inl error) <-> Events.allFail search 0 4).
Proof.
  intros Hpos Hfuel.
  set (operation := fun k : nat => fetchNewTickets (search k) ["auto-processed"]).
  assert (Hsame : forall count, Events.allFail operation 0 count
                                <-> Events.allFail search 0 count).
  { intros count. split; intros H j Hj; destruct (H j Hj) as (error & E).
    - unfold operation, fetchNewTickets in E.
      destruct (search j) as [e|[results|]]; [now exists e | | discriminate].
      destruct (length results =? 0)%nat; discriminate.
    - exists error. unfold operation, fetchNewTickets. now rewrite E. }
  destruct (retry_cases operation 4) as [(failures & found & Hlt & Hfail & Hok)|Hall].
  - (* a search succeeds: the run ends with a report *)
    destruct (retryFrom_success operation fetchOptions failures 0 3 found
                ltac:(lia) Hfail Hok) as (E & _).
    assert (Ef : exists tickets,
               fetchTickets this fuel search detail = Some (inr tickets)).
    { unfold fetchTickets, ErrorHandler.handleWithRetry. fold operation.
      change (ErrorHandler.maxRetries fetchOptions) with 3%nat. rewrite E.
      cbv zeta. unfold batchFetchDetailedTickets.
      destruct (fetchLoop_terminates detail (batchSize this) fuel (firstn 50 found) Hpos)
        as (result & Er & _).
      { rewrite length_firstn. lia. }
      rewrite Er. now exists result. }
    destruct Ef as (tickets & Ef).
    assert (Hno : ~ Events.allFail search 0 4).
    { intros H. apply Hsame in H. destruct (H failures ltac:(lia)) as (error & Ee).
      cbn [Nat.add] in Hok. congruence. }
    unfold run. rewrite Ef.
    destruct (length tickets =? 0)%nat.
    + eexists _, _. split; [reflexivity|].
      split; [intros (error & Ee); discriminate | intros H; now destruct Hno].
    + cbv zeta.
      destruct (applyTags this (analyzeTickets this tickets) tickets r)
        as [taggingResults r'].
      eexists _, _. split; [reflexivity|].
      split; [intros (error & Ee); discriminate | intros H; now destruct Hno].
  - (* every search fails: the run ends with the error *)
    destruct (retryFrom_exhausted operation fetchOptions 0 3 Hall) as (E & _).
    unfold run, fetchTickets, ErrorHandler.handleWithRetry. fold operation.
    change (ErrorHandler.maxRetries fetchOptions) with 3%nat. rewrite E.
    eexists _, _. split; [reflexivity|].
    split; [intros _; now apply Hsame | intros _; eauto].
Qed.

End RunExtras.

Section RunExamples.

Import TicketFetcher TicketAutomationSystem.

(** A run over three found tickets, one of them processed before: two
    are fetched, analysed and tagged. *)
Lemma run_summary_adds_up_witness :
  exists report r',
    run SampleRun.system 50 SampleRun.search SampleRun.detail Sample.idle
    = Some (inr report, r')
    /\ AutomationSummary.ticketsProcessed (AutomationReport.summary report) = 2%nat
    /\ (AutomationSummary.ticketsTagged (AutomationReport.summary report)
        + AutomationSummary.ticketsSkipped (AutomationReport.summary report)
        + AutomationSummary.errors (AutomationReport.summary report)
        = AutomationSummary.ticketsProcessed (AutomationReport.summary report))%nat.
Proof.
  destruct (run SampleRun.system 50 SampleRun.search SampleRun.detail Sample.idle)
    as [[[error|report] r']|] eqn:E;
    [vm_compute in E; discriminate| |vm_compute in E; discriminate].
  exists report, r'. split; [reflexivity|].
  split; [vm_compute in E; injection E as E _; now rewrite <- E|].
  apply (run_summary_adds_up SampleRun.system SampleRun.search SampleRun.detail
           50 Sample.idle r' report E).
Defined.

(** The same run in dry-run mode, against a helpdesk that would reject a
    request. *)
Lemma run_dry_run_reports_nothing_tagged_witness :
  exists report r',
    AutomationConfig.dryRun (AutoTagger.config (tagger SampleRun.drySystem)) = true
    /\ run SampleRun.drySystem 50 SampleRun.search SampleRun.detail Sample.flaky
       = Some (inr report, r')
    /\ r' = Sample.flaky
    /\ AutomationSummary.ticketsSkipped (AutomationReport.summary report) = 2%nat.
Proof.
  destruct (run SampleRun.drySystem 50 SampleRun.search SampleRun.detail Sample.flaky)
    as [[[error|report] r']|] eqn:E;
    [vm_compute in E; discriminate| |vm_compute in E; discriminate].
  exists report, r'. split; [reflexivity|]. split; [reflexivity|].
  destruct (run_dry_run_reports_nothing_tagged SampleRun.drySystem SampleRun.search
              SampleRun.detail 50 Sample.flaky r' report eq_refl E)
    as (Hr & _ & _ & Hs & _).
  split; [exact Hr|]. rewrite Hs.
  vm_compute in E. injection E as E _. now rewrite <- E.
Defined.

(** In the sample run both requests go to fetched tickets. *)
Lemma run_touches_only_unprocessed_tickets_witness :
  exists report r' results tickets,
    run SampleRun.system 50 SampleRun.search SampleRun.detail Sample.idle
    = Some (inr report, r')
    /\ AutomationReport.taggingResults report = Some results
    /\ List.map TaggingResult.ticketId (BatchTaggingResults.details results)
       = List.map ZendeskTicket.id tickets
    /\ Forall (FetchedBy.origin SampleRun.search SampleRun.detail) tickets.
Proof.
  destruct (run SampleRun.system 50 SampleRun.search SampleRun.detail Sample.idle)
    as [[[error|report] r']|] eqn:E;
    [vm_compute in E; discriminate| |vm_compute in E; discriminate].
  destruct (AutomationReport.taggingResults report) as [results|] eqn:Er;
    [|vm_compute in E; injection E as E _; rewrite <- E in Er; discriminate].
  destruct (run_touches_only_unprocessed_tickets SampleRun.system SampleRun.search
              SampleRun.detail 50 Sample.idle r' report results E Er)
    as (tickets & Hids & Horigin & _).
  exists report, r', results, tickets.
  split; [reflexivity|]. split; [exact Er|]. split; [exact Hids | exact Horigin].
Defined.

(** The helpdesk stays down. *)
Lemma run_rethrows_search_failure_witness :
  Events.allFail SampleRun.down 0 4
  /\ run SampleRun.system 0 SampleRun.down SampleRun.detail Sample.idle
     = Some (inl [Template.Str "Failed to fetch recent tickets: timeout"], Sample.idle).
Proof.
  assert (H : Events.allFail SampleRun.down 0 4) by (intros j _; unfold SampleRun.down; eauto).
  split; [exact H|].
  apply (run_rethrows_search_failure SampleRun.system SampleRun.down SampleRun.detail
           0 Sample.idle H).
Defined.

(** The sample run ends, and with a report. *)
Lemma run_terminates_witness :
  (0 < batchSize SampleRun.system)%nat
  /\ exists out r',
       run SampleRun.system 50 SampleRun.search SampleRun.detail Sample.idle
       = Some (out, r')
       /\ ((exists error, out = inl error) <-> Events.allFail SampleRun.search 0 4).
Proof.
  assert (Hpos : (0 < batchSize SampleRun.system)%nat) by (cbn; lia).
  split; [exact Hpos|].
  apply (run_terminates SampleRun.system SampleRun.search SampleRun.detail
           50 Sample.idle Hpos (Nat.le_refl 50)).
Defined.

End RunExamples.

(** ** The tag distribution of the tagging report *)

Section TagDistributionFacts.

Import TagDistribution.

Lemma bump_keys (stats : list (string * nat)) (tag : string) :
  List.map fst (bump stats tag) = Js.setAdd (List.map fst stats) tag.
Proof.
  unfold Js.setAdd. induction stats as [|[key count] stats IH]; [reflexivity|].
  cbn [bump List.map fst]. destruct (String.eqb_spec key tag) as [->|Hne].
  - assert (E : Js.arrayIncludes (tag :: List.map fst stats) tag = true)
      by (apply arrayIncludes_In; now left).
    now rewrite E.
  - cbn [List.map fst]. rewrite IH.
    destruct (Js.arrayIncludes (List.map fst stats) tag) eqn:E.
    + apply arrayIncludes_In in E.
      assert (E' : Js.arrayIncludes (key :: List.map fst stats) tag = true)
        by (apply arrayIncludes_In; now right).
      now rewrite E'.
    + apply arrayIncludes_not_In in E.
      assert (E' : Js.arrayIncludes (key :: List.map fst stats) tag = false).
      { apply arrayIncludes_not_In. intros [H|H]; [now apply Hne | now apply E]. }
      now rewrite E'.
Qed.

Lemma bump_get (stats : list (string * nat)) (tag t : string) :
  get (bump stats tag) t
  = (get stats t + if String.eqb t tag then 1 else 0)%nat.
Proof.
  induction stats as [|[key count] stats IH]; cbn [bump get].
  - rewrite (String.eqb_sym tag t). destruct (String.eqb t tag); reflexivity.
  - destruct (String.eqb_spec key tag) as [->|Hne]; cbn [get].
    + rewrite (String.eqb_sym tag t). destruct (String.eqb t tag); lia.
    + destruct (String.eqb_spec key t) as [E|Hne'].
      * destruct (String.eqb_spec t tag) as [E'|_]; [congruence | lia].
      * exact IH.
Qed.

Lemma bump_loop (tags : list string) (stats : list (string * nat)) :
  List.map fst (fold_left bump tags stats) = fold_left Js.setAdd tags (List.map fst stats)
  /\ forall t, get (fold_left bump tags stats) t
               = (get stats t + occurrences t tags)%nat.
Proof.
  revert stats. induction tags as [|tag tags IH]; intros stats; cbn [fold_left].
  - split; [reflexivity | intros t; cbn; lia].
  - destruct (IH (bump stats tag)) as [IH1 IH2]. split.
    + now rewrite IH1, bump_keys.
    + intros t. rewrite IH2, bump_get. unfold occurrences. cbn [List.filter].
      destruct (String.eqb t tag); cbn [length]; lia.
Qed.

Lemma tagStats_loop (details : list TaggingResult.t) (stats : list (string * nat)) :
  let after :=
    fold_left
      (fun stats result =>
         match TaggingResult.tags result with
         | Some tags => fold_left bump tags stats
         | None => stats
         end) details stats in
  List.map fst after = fold_left Js.setAdd (carried details) (List.map fst stats)
  /\ forall t, get after t = (get stats t + occurrences t (carried details))%nat.
Proof.
  cbv zeta. revert stats. induction details as [|d details IH]; intros stats;
    cbn [fold_left carried flat_map].
  - split; [reflexivity | intros t; cbn; lia].
  - fold (carried details). rewrite fold_left_app. unfold occurrences.
    destruct (TaggingResult.tags d) as [tags|].
    + destruct (IH (fold_left bump tags stats)) as [IH1 IH2].
      destruct (bump_loop tags stats) as [B1 B2]. split.
      * now rewrite IH1, B1.
      * intros t. rewrite IH2, B2, List.filter_app, length_app.
        unfold occurrences. lia.
    + destruct (IH stats) as [IH1 IH2]. split; [exact IH1|].
      intros t. rewrite IH2. reflexivity.
Qed.

Lemma get_In (stats : list (string * nat)) (tag : string) (count : nat) :
  List.NoDup (List.map fst stats) -> In (tag, count) stats -> get stats tag = count.
Proof.
  induction stats as [|[key c] stats IH]; [intros _ []|].
  cbn [List.map fst get]. intros Hnd [H|H].
  - inversion H; subst. now rewrite String.eqb_refl.
  - inversion Hnd as [|? ? Hkey Hrest]; subst.
    destruct (String.eqb_spec key tag) as [->|_]; [|now apply IH].
    exfalso. apply Hkey. apply in_map_iff. now exists (tag, count).
Qed.

(** The map holds each carried tag once, in the order of first
    appearance, with the number of its occurrences. *)
Lemma tagStats_entries (details : list TaggingResult.t) :
  List.map fst (tagStats details) = Js.uniq (carried details)
  /\ forall tag count, In (tag, count) (tagStats details) ->
       count = occurrences tag (carried details) /\ (1 <= count)%nat.
Proof.
  destruct (tagStats_loop details []) as [H1 H2]. cbv zeta in H1, H2.
  fold (tagStats details) in H1, H2. cbn [List.map] in H1. fold (Js.uniq (carried details)) in H1.
  split; [exact H1|]. intros tag count Hin.
  assert (Hc : count = occurrences tag (carried details)).
  { rewrite <- (get_In (tagStats details) tag count); [now rewrite H2|
      rewrite H1; apply uniq_NoDup | exact Hin]. }
  split; [exact Hc|].
  assert (Hk : In tag (carried details)).
  { apply uniq_In. rewrite <- H1. apply in_map_iff. now exists (tag, count). }
  rewrite Hc. unfold occurrences. clear - Hk.
  induction (carried details) as [|x l IH]; [destruct Hk|].
  cbn [List.filter]. destruct (String.eqb_spec tag x) as [E|E]; [cbn; lia|].
  destruct Hk as [Hk|Hk]; [now destruct E | now apply IH].
Qed.

Lemma firstn_sorted {A} (R : A -> A -> Prop) (n : nat) (l : list A) :
  StronglySorted R l ->
  StronglySorted R (firstn n l)
  /\ forall a b, In a (firstn n l) -> In b (skipn n l) -> R a b.
Proof.
  intros Hs. revert n. induction Hs as [|x l Hl IH Hx]; intros n.
  - rewrite firstn_nil, skipn_nil. split; [constructor | intros a b []].
  - destruct n as [|n]; cbn [firstn skipn].
    + split; [constructor | intros a b []].
    + destruct (IH n) as [IH1 IH2]. rewrite List.Forall_forall in Hx. split.
      * constructor; [exact IH1|]. apply List.Forall_forall. intros y Hy.
        apply Hx. apply (In_firstn_or_skipn n). now left.
      * intros a b [<-|Ha] Hb; [|now apply IH2].
        apply Hx. apply (In_firstn_or_skipn n). now right.
Qed.

End TagDistributionFacts.

Section TagDistributionExtras.

Import TagDistribution.

(** X28: the lines under "Most Applied Tags" are at most ten, name no tag
    twice, and give for each tag the number of times it occurs among the
    tags carried by the outcomes (at least one); the counts never rise
    from one line to the next, and a carried tag that is not listed was
    crowded out: there are then ten lines, none with a smaller count. *)
Theorem mostAppliedTags_counts (details : list TaggingResult.t) :
  let listed := mostAppliedTags details in
  (length listed <= 10)%nat
  /\ List.NoDup (List.map fst listed)
  /\ (forall tag count, In (tag, count) listed ->
        count = occurrences tag (carried details) /\ (1 <= count)%nat)
  /\ StronglySorted (fun a b => (snd b <= snd a)%nat) listed
  /\ (forall tag, In tag (carried details) -> ~ In tag (List.map fst listed) ->
        length listed = 10%nat
        /\ Forall (fun line => (occurrences tag (carried details) <= snd line)%nat)
             listed).
Proof.
  cbv zeta. unfold mostAppliedTags, sortedTags.
  set (key := fun a : string * nat => Js.ofNat (snd a)).
  set (sorted := Js.sort (fun a b => key b - key a) (tagStats details)).
  change (Js.sort (fun a b : string * nat => Js.ofNat (snd b) - Js.ofNat (snd a))
            (tagStats details)) with sorted.
  destruct (tagStats_entries details) as [Hkeys Hcount].
  pose proof (sort_Permutation key (tagStats details)) as Hperm. fold sorted in Hperm.
  assert (Hsorted : StronglySorted (fun a b => (snd b <= snd a)%nat) sorted).
  { pose proof (sort_descending key (tagStats details)) as Hs. fold sorted in Hs.
    clear - Hs. induction Hs as [|x l Hl IH Hx]; constructor; [exact IH|].
    eapply List.Forall_impl; [|exact Hx]. cbv beta. intros a Ha.
    unfold key, Js.ofNat in Ha. rewrite <- Zle_Qle in Ha. lia. }
  assert (Hnd : List.NoDup (List.map fst sorted)).
  { apply (Permutation_NoDup (l := List.map fst (tagStats details))).
    - apply Permutation_map. now symmetry.
    - rewrite Hkeys. apply uniq_NoDup. }
  destruct (firstn_sorted _ 10 sorted Hsorted) as [Hfirst Hrest].
  split; [apply firstn_le_length|].
  split.
  { rewrite <- (firstn_skipn 10 sorted), List.map_app in Hnd.
    now apply NoDup_app_remove_r in Hnd. }
  split.
  { intros tag count Hin. apply Hcount.
    apply (Permutation_in _ Hperm). apply (In_firstn_or_skipn 10). now left. }
  split; [exact Hfirst|].
  intros tag Hcarried Hnot.
  assert (Hin : exists count, In (tag, count) sorted).
  { assert (Hk : In tag (List.map fst (tagStats details)))
      by (rewrite Hkeys; now apply uniq_In).
    apply in_map_iff in Hk. destruct Hk as ([t count] & Et & Hk). cbn in Et. subst t.
    exists count. apply (Permutation_in _ (Permutation_sym Hperm) Hk). }
  destruct Hin as (count & Hin).
  assert (Hskip : In (tag, count) (skipn 10 sorted)).
  { rewrite <- (firstn_skipn 10 sorted) in Hin. apply in_app_or in Hin.
    destruct Hin as [Hin|Hin]; [|exact Hin].
    exfalso. apply Hnot. apply in_map_iff. now exists (tag, count). }
  assert (Hc : count = occurrences tag (carried details)).
  { apply Hcount. apply (Permutation_in _ Hperm).
    apply (In_firstn_or_skipn 10). now right. }
  split.
  - rewrite length_firstn.
    assert (length (skipn 10 sorted) <> 0)%nat
      by (destruct (skipn 10 sorted); [destruct Hskip | discriminate]).
    rewrite length_skipn in H. lia.
  - apply List.Forall_forall. intros line Hline.
    specialize (Hrest line (tag, count) Hline Hskip). cbn [snd] in Hrest. lia.
Qed.

(** Three outcomes: the tags of a "skipped" outcome, which were on the
    ticket already, are counted like the applied ones; an "error" outcome
    carries none; equal counts keep the order of first appearance. *)
Example mostAppliedTags_sample :
  mostAppliedTags
    [TaggingResult.mk 1 "success" (Some ["auto-processed"; "category-billing"])
       (Some (3 # 4)) None None (Some (ApiResponse.mk 1 ["auto-processed"; "category-billing"]));
     TaggingResult.mk 2 "error" None (Some (3 # 4))
       (Some [Template.Str "timeout"])
       (Some [Template.Str "Failed to apply tags: "; Template.Str "timeout"]) None;
     TaggingResult.mk 3 "skipped" (Some ["category-technical"; "auto-processed"])
       (Some (3 # 4)) None (Some [Template.Str "No new tags to apply"]) None]
  = [("auto-processed", 2%nat); ("category-billing", 1%nat); ("category-technical", 1%nat)].
Proof. vm_compute. reflexivity. Qed.

End TagDistributionExtras.
